(** * SecureRestApi: a shallow embedding of the authentication workflow

    The Go packages [domain], [security], [repository], [usecase] and
    [delivery/http] of the repository are embedded as Rocq modules of the
    same names.  Go strings and byte slices are [string] (a list of bytes);
    [int64] and [time.Duration] are [Z]; a Go [(T, error)] pair is a
    [result T].  The third-party packages the code calls (bcrypt, golang-jwt,
    encoding/json, encoding/base64, time) are modelled next to the code that
    uses them; what is a cryptographic primitive or a text codec is a
    type-class method, so that every statement holds for any implementation
    of it. *)

From Stdlib Require Import ZArith NArith Ascii String List Lia DecimalString.
From stdpp Require Import base option list strings gmap.

Set Warnings "-register-all".

Local Open Scope string_scope.
Local Open Scope Z_scope.

(** ** Errors and results *)

(** Go's [error] values.  The three sentinels of [domain/errors.go], the
    errors of [errors.New], those of the bcrypt and jwt packages, and an
    opaque error for everything a driver or the operating system reports.
    [jwt_newError] is jwt's [newError(message, err, more...)], which wraps
    [err] and [more]; [jwt_joinErrors] is its [joinErrors];
    [json_SyntaxError] stands for any error of the JSON decoder. *)
Inductive error : Type :=
  | ErrUserNotFound
  | ErrUserAlreadyExists
  | ErrInvalidCredentials
  | errors_New (text : string)
  | ErrMismatchedHashAndPassword
  | ErrHashTooShort
  | HashVersionTooNewError (b : ascii)
  | InvalidHashPrefixError (b : ascii)
  | InvalidCostError (c : Z)
  | ErrPasswordTooLong
  | strconv_NumError (func num : string)
  | base64_CorruptInputError
  | ErrTokenMalformed
  | ErrTokenUnverifiable
  | ErrTokenSignatureInvalid
  | ErrTokenInvalidClaims
  | ErrTokenExpired
  | ErrTokenNotValidYet
  | ErrSignatureInvalid
  | ErrInvalidKeyType
  | NoneSignatureTypeDisallowedError
  | jwt_newError (message : string) (err : error) (more : list error)
  | jwt_joinErrors (errs : list error)
  | io_EOF
  | io_ErrUnexpectedEOF
  | json_SyntaxError
  | sql_ErrNoRows
  | opaque_error (text : string).

Inductive result (A : Type) : Type :=
  | Ok (a : A)
  | Err (e : error).
Arguments Ok {A} a.
Arguments Err {A} e.

Definition is_Ok {A} (r : result A) : bool :=
  match r with Ok _ => true | Err _ => false end.

(** Go's [int64]: the arithmetic wraps around at 2^63. *)
Definition int64 (z : Z) : Z := (z + 2 ^ 63) `mod` 2 ^ 64 - 2 ^ 63.

Definition MaxInt64 : Z := 2 ^ 63 - 1.

(** [x <- e ;; k]: Go's [x, err := e; if err != nil { return ..., err }; k]. *)
Notation "x <- e ;; k" :=
  (match e with
   | Ok x => k
   | Err err => Err err
   end)
  (at level 100, e at next level, k at level 200, right associativity,
   format "'[v' x  <-  e  ;;  '/' k ']'").

(** [errors.Is err target] for the sentinel targets used by the tests:
    [err] is the target or wraps it. *)
Fixpoint errors_Is (sentinel : error -> bool) (err : error) : bool :=
  sentinel err ||
  match err with
  | jwt_newError _ e more => errors_Is sentinel e || existsb (errors_Is sentinel) more
  | jwt_joinErrors errs => existsb (errors_Is sentinel) errs
  | _ => false
  end.

(** ** Package strings *)

Module strings.

(** [strings.Split(s, sep)] for a separator of one byte, which is what both
    call sites pass (a space in the middleware, a dot in the jwt parser):
    the substrings between the occurrences of [sep]; one more element than
    there are occurrences, so [Split "" sep = [""]]. *)
Fixpoint Split (s : string) (sep : ascii) : list string :=
  match s with
  | EmptyString => [EmptyString]
  | String c s' =>
      if decide (c = sep) then EmptyString :: Split s' sep
      else match Split s' sep with
           | h :: t => String c h :: t
           | [] => [String c EmptyString]
           end
  end.

(** The slices [s[:n]] and [s[n:]]. *)
Fixpoint take (n : nat) (s : string) : string :=
  match n, s with
  | S n', String c s' => String c (take n' s')
  | _, _ => EmptyString
  end.

Fixpoint drop (n : nat) (s : string) : string :=
  match n, s with
  | S n', String _ s' => drop n' s'
  | _, _ => s
  end.

Fixpoint Repeat (c : ascii) (count : nat) : string :=
  match count with
  | O => EmptyString
  | S n => String c (Repeat c n)
  end.

(** [strings.ToLower] on the letters of ASCII; the other bytes are left
    as they are.  (The one use of the result, by the token parser, asks
    whether it starts with "bearer ", and no letter outside ASCII has one of
    these letters as its lower case.) *)
Definition lower (c : ascii) : ascii :=
  if bool_decide (65 <= N_of_ascii c <= 90)%N then ascii_of_N (N_of_ascii c + 32) else c.

Fixpoint ToLower (s : string) : string :=
  match s with
  | EmptyString => EmptyString
  | String c s' => String (lower c) (ToLower s')
  end.

Fixpoint HasPrefix (s prefix : string) : bool :=
  match prefix, s with
  | EmptyString, _ => true
  | String p prefix', String c s' => bool_decide (c = p) && HasPrefix s' prefix'
  | String _ _, EmptyString => false
  end.

(** [strings.Join(elems, sep)] *)
Fixpoint Join (elems : list string) (sep : string) : string :=
  match elems with
  | [] => ""
  | [x] => x
  | x :: rest => x ++ sep ++ Join rest sep
  end.

End strings.

(** ** Package time *)

Module time.

(** An instant, in nanoseconds since the Unix epoch; a [Duration] is a
    number of nanoseconds. *)
Definition Time := Z.
Definition Duration := Z.

Definition Nanosecond : Duration := 1.
Definition Second : Duration := 1000000000.
Definition Hour : Duration := 3600 * Second.

Definition Add (t : Time) (d : Duration) : Time := t + d.
Definition Before (t u : Time) : bool := bool_decide (t < u).

(** [t.Truncate(d)]: [t] rounded down to a multiple of [d]. *)
Definition Truncate (t : Time) (d : Duration) : Time :=
  if bool_decide (d <= 0) then t else t - t `mod` d.

(** The zero [Time], January 1 of the year 1. *)
Definition zero : Time := -62135596800 * Second.

(** The texts of an instant: [t.MarshalJSON()] without its quotes, and
    [t.Format(layout)]. *)
Class Text := {
  MarshalJSON : Time -> string;
  Format : Time -> string -> string
}.

End time.

(** ** Package encoding/json, as far as the responses need it *)

(** The JSON document a value marshals to.  A struct marshals to an object
    with one member per exported field, named by its [json] tag, in the order
    of the fields; a field tagged [json:"-"] has no member. *)
Inductive json : Type :=
  | JNull
  | JBool (b : bool)
  | JNumber (n : Z)
  | JString (s : string)
  | JArray (elems : list json)
  | JObject (members : list (string * json)).

Class ToJSON (A : Type) := toJSON : A -> json.

(** The names of the members of an object, at any depth. *)
Fixpoint member_names (j : json) : list string :=
  match j with
  | JObject members =>
      flat_map (fun kv => fst kv :: member_names (snd kv)) members
  | JArray elems => flat_map member_names elems
  | _ => []
  end.

(** The string values of a document, at any depth. *)
Fixpoint string_values (j : json) : list string :=
  match j with
  | JString s => [s]
  | JObject members => flat_map (fun kv => string_values (snd kv)) members
  | JArray elems => flat_map string_values elems
  | _ => []
  end.

(** The text side of the package, for one Go type: [json.Marshal] of a
    value, and decoding a text into a fresh value of the type ([None] when
    the decoder reports an error, which is [json_SyntaxError] here). *)
Class JSONCodec (A : Type) := {
  Marshal : A -> string;
  Unmarshal : string -> option A
}.

(** ** Package encoding/base64, unpadded *)

Module base64.

Definition encodeURL : string :=
  "ABCDEFGHIJKLMNOPQRSTUVWXYZabcdefghijklmnopqrstuvwxyz0123456789-_".

Section Encoding.
(** The 64 characters of the encoding. *)
Variable alphabet : string.

Definition enc (n : N) : ascii :=
  match String.get (N.to_nat n) alphabet with
  | Some c => c
  | None => "="%char
  end.

Fixpoint index_from (c : ascii) (s : string) (i : N) : option N :=
  match s with
  | EmptyString => None
  | String c' s' => if decide (c = c') then Some i else index_from c s' (N.succ i)
  end.

(** The decode map: the position of a character in the alphabet. *)
Definition dec (c : ascii) : option N := index_from c alphabet 0%N.

Definition byte (n : N) : ascii := ascii_of_N (n mod 256).

(** [Encode] without padding: three bytes give four characters, a
    remainder of one byte two characters, of two bytes three. *)
Fixpoint EncodeToString (src : string) : string :=
  match src with
  | String a (String b (String c rest)) =>
      let val := (N_of_ascii a * 65536 + N_of_ascii b * 256 + N_of_ascii c)%N in
      String (enc (val / 262144 mod 64))
        (String (enc (val / 4096 mod 64))
           (String (enc (val / 64 mod 64))
              (String (enc (val mod 64)) (EncodeToString rest))))
  | String a (String b EmptyString) =>
      let val := (N_of_ascii a * 65536 + N_of_ascii b * 256)%N in
      String (enc (val / 262144 mod 64))
        (String (enc (val / 4096 mod 64))
           (String (enc (val / 64 mod 64)) EmptyString))
  | String a EmptyString =>
      let val := (N_of_ascii a * 65536)%N in
      String (enc (val / 262144 mod 64))
        (String (enc (val / 4096 mod 64)) EmptyString)
  | EmptyString => EmptyString
  end.

(** The characters of the input as digits; carriage returns and line
    feeds are skipped, any other character outside the alphabet is a
    [CorruptInputError]. *)
Fixpoint digits (s : string) : option (list N) :=
  match s with
  | EmptyString => Some []
  | String c s' =>
      if decide (c = "010"%char \/ c = "013"%char) then digits s'
      else match dec c, digits s' with
           | Some d, Some ds => Some (d :: ds)
           | _, _ => None
           end
  end.

(** Quanta of four digits give three bytes; a last quantum of two
    digits gives one byte and one of three gives two (the unused low
    bits are not checked); one left-over digit is corrupt input. *)
Fixpoint decodeQuanta (ds : list N) : option string :=
  match ds with
  | [] => Some EmptyString
  | [_] => None
  | [a; b] =>
      let val := (a * 262144 + b * 4096)%N in
      Some (String (byte (val / 65536)) EmptyString)
  | [a; b; c] =>
      let val := (a * 262144 + b * 4096 + c * 64)%N in
      Some (String (byte (val / 65536)) (String (byte (val / 256)) EmptyString))
  | a :: b :: c :: d :: rest =>
      let val := (a * 262144 + b * 4096 + c * 64 + d)%N in
      match decodeQuanta rest with
      | Some s =>
          Some (String (byte (val / 65536))
                  (String (byte (val / 256)) (String (byte val) s)))
      | None => None
      end
  end.

Definition DecodeString (s : string) : result string :=
  match digits s with
  | Some ds =>
      match decodeQuanta ds with
      | Some out => Ok out
      | None => Err base64_CorruptInputError
      end
  | None => Err base64_CorruptInputError
  end.
End Encoding.

End base64.

(** ** Package crypto/rand *)

Module rand.

(** What the entropy source delivers to one caller: a supply of bytes, or
    a failure. *)
Inductive Reader : Type :=
  | Bytes (supply : string)
  | Failing (e : error).

(** [io.ReadFull(rand.Reader, buf)] with [len(buf) = n]: [io.EOF] when
    the source ends before it gave a byte, [io.ErrUnexpectedEOF] when it ends
    after some bytes and before [n]. *)
Definition ReadFull (r : Reader) (n : nat) : result string :=
  match r with
  | Failing e => Err e
  | Bytes supply =>
      if bool_decide (String.length supply < n)%nat then
        Err (if bool_decide (supply = "") then io_EOF else io_ErrUnexpectedEOF)
      else Ok (strings.take n supply)
  end.

End rand.

(** ** Package golang.org/x/crypto/bcrypt *)

Module bcrypt.

Definition MinCost : Z := 4.
Definition MaxCost : Z := 31.
Definition DefaultCost : Z := 10.

Definition majorVersion : ascii := "2"%char.
Definition minorVersion : ascii := "a"%char.
Definition maxSaltSize : nat := 16.
Definition encodedSaltSize : nat := 22.
Definition encodedHashSize : nat := 31.
Definition minHashSize : nat := 59.
Definition maxPasswordLength : nat := 72.

Definition alphabet : string :=
  "./ABCDEFGHIJKLMNOPQRSTUVWXYZabcdefghijklmnopqrstuvwxyz0123456789".

(** [base64Encode]: the package's own alphabet, the padding stripped. *)
Definition base64Encode (src : string) : string :=
  base64.EncodeToString alphabet src.

(** [base64Decode]: the package pads [src] with [4 - len(src) mod 4]
    padding characters and runs the padded decoder, which accepts when,
    the line breaks skipped, the characters are of the alphabet and the
    last quantum has as many of them as the padding completes. *)
Definition base64Decode (src : string) : result string :=
  match base64.digits alphabet src with
  | None => Err base64_CorruptInputError
  | Some ds =>
      let r := (String.length src mod 4)%nat in
      if bool_decide ((r = 2 \/ r = 3) /\ length ds mod 4 = r)%nat then
        match base64.decodeQuanta ds with
        | Some out => Ok out
        | None => Err base64_CorruptInputError
        end
      else Err base64_CorruptInputError
  end.

(** The Blowfish side of the package: [eksblowfish cost csalt key] is the
    expensive key setup with the decoded salt followed by the 64
    encryptions of the magic text, cut to the 23 bytes that are encoded;
    [key] is what [blowfish.ExpandKey] reads of the password. *)
Class Blowfish := eksblowfish : Z -> string -> string -> string.

(** The key schedule reads 18 words of 4 bytes from the password followed
    by a NUL byte, starting over at its end: 72 bytes. *)
Fixpoint cycle (fuel : nat) (key : string) : string :=
  match fuel with
  | O => EmptyString
  | S n => key ++ cycle n key
  end.

Definition key_stream (password : string) : string :=
  strings.take 72 (cycle 72 (password ++ String "000"%char EmptyString)).

Record hashed := {
  hash : string;
  salt : string;
  cost : Z;
  major : ascii;
  minor : ascii
}.

Definition checkCost (cost : Z) : result unit :=
  if bool_decide (cost < MinCost \/ cost > MaxCost) then Err (InvalidCostError cost)
  else Ok tt.

(** [fmt.Sprintf("%02d", cost)] for a cost that passed [checkCost] *)
Definition Sprintf02d (n : Z) : string :=
  String (ascii_of_N (48 + Z.to_N (n / 10)))
    (String (ascii_of_N (48 + Z.to_N (n `mod` 10))) EmptyString).

(** [p.Hash()]: the 60 bytes (59 without a minor version) of
    [$2a$10$], the salt and the hash; the hash is cut or zero-filled to
    [encodedHashSize] bytes. *)
Definition Hash (p : hashed) : string :=
  String "$"%char (String (major p)
    ((if decide (minor p = "000"%char) then EmptyString
      else String (minor p) EmptyString)
     ++ String "$"%char (Sprintf02d (cost p) ++ String "$"%char
          (salt p
           ++ strings.take encodedHashSize
                (hash p ++ strings.Repeat "000"%char encodedHashSize))))).

Definition is_digit (c : ascii) : bool :=
  bool_decide (48 <= N_of_ascii c <= 57)%N.

Definition digit (c : ascii) : Z := Z.of_N (N_of_ascii c) - 48.

(** [strconv.Atoi] of a string of two bytes: two digits, or a sign and
    a digit. *)
Definition Atoi2 (s : string) : result Z :=
  match s with
  | String a (String b EmptyString) =>
      if is_digit a && is_digit b then Ok (10 * digit a + digit b)
      else if bool_decide (a = "+"%char) && is_digit b then Ok (digit b)
      else if bool_decide (a = "-"%char) && is_digit b then Ok (- digit b)
      else Err (strconv_NumError "Atoi" s)
  | _ => Err (strconv_NumError "Atoi" s)
  end.

(** [decodeVersion]: the major version, the minor version (NUL when there
    is none) and the number of bytes read. *)
Definition decodeVersion (sbytes : string) : result (ascii * ascii * nat) :=
  match sbytes with
  | String c0 (String c1 (String c2 _)) =>
      if negb (bool_decide (c0 = "$"%char)) then Err (InvalidHashPrefixError c0)
      else if bool_decide (N_of_ascii majorVersion < N_of_ascii c1)%N
      then Err (HashVersionTooNewError c1)
      else if bool_decide (c2 = "$"%char) then Ok (c1, "000"%char, 3%nat)
      else Ok (c1, c2, 4%nat)
  | _ => Err ErrHashTooShort
  end.

(** [decodeCost]: the cost, read from the first two bytes. *)
Definition decodeCost (sbytes : string) : result Z :=
  cost <- Atoi2 (strings.take 2 sbytes) ;;
  checked <- checkCost cost ;;
  Ok cost.

(** [newFromHash]: version, cost, 22 bytes of salt, and the rest as the
    hash. *)
Definition newFromHash (hashedSecret : string) : result hashed :=
  if bool_decide (String.length hashedSecret < minHashSize)%nat then Err ErrHashTooShort
  else
    match decodeVersion hashedSecret with
    | Err e => Err e
    | Ok (major, minor, n) =>
        let hashedSecret := strings.drop n hashedSecret in
        match decodeCost hashedSecret with
        | Err e => Err e
        | Ok cost =>
            let hashedSecret := strings.drop 3 hashedSecret in
            Ok {| hash := strings.drop encodedSaltSize hashedSecret;
                  salt := strings.take encodedSaltSize hashedSecret;
                  cost := cost; major := major; minor := minor |}
        end
    end.

Section WithBlowfish.
Context `{Blowfish}.

Definition bcrypt (password : string) (cost : Z) (salt : string) : result string :=
  csalt <- base64Decode salt ;;
  Ok (base64Encode (eksblowfish cost csalt (key_stream password))).

Definition newFromPassword (entropy : rand.Reader) (password : string) (cost : Z)
  : result hashed :=
  let cost := if bool_decide (cost < MinCost) then DefaultCost else cost in
  checked <- checkCost cost ;;
  unencodedSalt <- rand.ReadFull entropy maxSaltSize ;;
  let salt := base64Encode unencodedSalt in
  hash <- bcrypt password cost salt ;;
  Ok {| hash := hash; salt := salt; cost := cost;
        major := majorVersion; minor := minorVersion |}.

Definition GenerateFromPassword (entropy : rand.Reader) (password : string) (cost : Z)
  : result string :=
  if bool_decide (maxPasswordLength < String.length password)%nat
  then Err ErrPasswordTooLong
  else (p <- newFromPassword entropy password cost ;;
        Ok (Hash p)).

(** [nil] is [Ok tt]. *)
Definition CompareHashAndPassword (hashedPassword password : string) : result unit :=
  p <- newFromHash hashedPassword ;;
  otherHash <- bcrypt password (cost p) (salt p) ;;
  let otherP := {| hash := otherHash; salt := salt p; cost := cost p;
                   major := major p; minor := minor p |} in
  if bool_decide (Hash p = Hash otherP) then Ok tt
  else Err ErrMismatchedHashAndPassword.
End WithBlowfish.

End bcrypt.

(** ** Package github.com/golang-jwt/jwt/v5 *)

Module jwt.

Inductive crypto_Hash : Type := SHA256 | SHA384 | SHA512.

(** The signing methods the package registers, by their Go type. *)
Inductive SigningMethod : Type :=
  | SigningMethodHMAC (Name : string) (Hash : crypto_Hash)
  | SigningMethodRSA (Name : string) (Hash : crypto_Hash)
  | SigningMethodRSAPSS (Name : string) (Hash : crypto_Hash)
  | SigningMethodECDSA (Name : string) (Hash : crypto_Hash)
  | SigningMethodEd25519
  | signingMethodNone.

Definition SigningMethodHS256 := SigningMethodHMAC "HS256" SHA256.
Definition SigningMethodHS384 := SigningMethodHMAC "HS384" SHA384.
Definition SigningMethodHS512 := SigningMethodHMAC "HS512" SHA512.

Definition Alg (m : SigningMethod) : string :=
  match m with
  | SigningMethodHMAC n _ | SigningMethodRSA n _
  | SigningMethodRSAPSS n _ | SigningMethodECDSA n _ => n
  | SigningMethodEd25519 => "EdDSA"
  | signingMethodNone => "none"
  end.

Definition signingMethods : list SigningMethod :=
  [ SigningMethodHS256; SigningMethodHS384; SigningMethodHS512;
    SigningMethodRSA "RS256" SHA256; SigningMethodRSA "RS384" SHA384;
    SigningMethodRSA "RS512" SHA512;
    SigningMethodRSAPSS "PS256" SHA256; SigningMethodRSAPSS "PS384" SHA384;
    SigningMethodRSAPSS "PS512" SHA512;
    SigningMethodECDSA "ES256" SHA256; SigningMethodECDSA "ES384" SHA384;
    SigningMethodECDSA "ES512" SHA512;
    SigningMethodEd25519; signingMethodNone ].

(** [GetSigningMethod(alg)]: the method registered under [alg], if any. *)
Definition GetSigningMethod (alg : string) : option SigningMethod :=
  find (fun m => bool_decide (Alg m = alg)) signingMethods.

(** A [NumericDate] is an instant cut to [TimePrecision], a second. *)
Definition TimePrecision : time.Duration := time.Second.
Definition NewNumericDate (t : time.Time) : time.Time :=
  time.Truncate t TimePrecision.

Record RegisteredClaims := {
  Issuer : string;
  Subject : string;
  Audience : list string;
  ExpiresAt : option time.Time;
  NotBefore : option time.Time;
  IssuedAt : option time.Time;
  ID : string
}.

(** The [Claims] interface, as far as the default validator calls it. *)
Class Claims (C : Type) := {
  GetExpirationTime : C -> option time.Time;
  GetNotBefore : C -> option time.Time;
  GetIssuedAt : C -> option time.Time;
  GetIssuer : C -> string
}.

(** [hmac.New(h, key)], [Write(message)], [Sum(nil)] *)
Class HMAC := hmac_Sum : crypto_Hash -> string -> string -> string.

Definition EncodeSegment (seg : string) : string :=
  base64.EncodeToString base64.encodeURL seg.

Definition DecodeSegment (seg : string) : result string :=
  base64.DecodeString base64.encodeURL seg.

(** The header of a new token: its type and the name of its method. *)
Definition newHeader (method : SigningMethod) : gmap string json :=
  <["typ" := JString "JWT"]> (<["alg" := JString (Alg method)]> ∅).

Section WithClaims.
Context {C : Type} `{Claims C} `{JSONCodec C} `{JSONCodec (gmap string json)} `{HMAC}.

Record Token := {
  Raw : string;
  Method : SigningMethod;
  Header : gmap string json;
  TokenClaims : C;
  Signature : string;
  Valid : bool
}.

(** [method.Sign(signingString, key)] with a key of type [[]byte] *)
Definition Sign (m : SigningMethod) (signingString key : string) : result string :=
  match m with
  | SigningMethodHMAC _ h => Ok (hmac_Sum h key signingString)
  | signingMethodNone => Err NoneSignatureTypeDisallowedError
  | _ => Err ErrInvalidKeyType
  end.

(** [method.Verify(signingString, sig, key)] with a key of type [[]byte] *)
Definition Verify (m : SigningMethod) (signingString sig key : string) : result unit :=
  match m with
  | SigningMethodHMAC _ h =>
      if bool_decide (sig = hmac_Sum h key signingString) then Ok tt
      else Err ErrSignatureInvalid
  | signingMethodNone => Err NoneSignatureTypeDisallowedError
  | _ => Err ErrInvalidKeyType
  end.

Definition NewWithClaims (method : SigningMethod) (claims : C) : Token :=
  {| Raw := ""; Method := method; Header := newHeader method;
     TokenClaims := claims; Signature := ""; Valid := false |}.

Definition SigningString (t : Token) : string :=
  EncodeSegment (Marshal (Header t)) ++ "." ++ EncodeSegment (Marshal (TokenClaims t)).

Definition SignedString (t : Token) (key : string) : result string :=
  let sstr := SigningString t in
  sig <- Sign (Method t) sstr key ;;
  Ok (sstr ++ "." ++ EncodeSegment sig).

(** [ParseUnverified]: three segments, the header and the claims decoded,
    the signing method looked up. *)
Definition ParseUnverified (tokenString : string) : result (Token * list string) :=
  let parts := strings.Split tokenString "."%char in
  match parts with
  | [p0; p1; p2] =>
      match DecodeSegment p0 with
      | Err e =>
          if strings.HasPrefix (strings.ToLower tokenString) "bearer " then
            Err (jwt_newError "tokenstring should not contain 'bearer '"
                   ErrTokenMalformed [])
          else Err (jwt_newError "could not base64 decode header" ErrTokenMalformed [e])
      | Ok headerBytes =>
      match Unmarshal headerBytes with
      | None =>
          Err (jwt_newError "could not JSON decode header" ErrTokenMalformed
                 [json_SyntaxError])
      | Some header =>
      match DecodeSegment p1 with
      | Err e => Err (jwt_newError "could not base64 decode claim" ErrTokenMalformed [e])
      | Ok claimBytes =>
      match Unmarshal claimBytes with
      | None =>
          Err (jwt_newError "could not JSON decode claim" ErrTokenMalformed
                 [json_SyntaxError])
      | Some claims =>
      match header !! "alg" with
      | Some (JString method) =>
          match GetSigningMethod method with
          | None =>
              Err (jwt_newError "signing method (alg) is unavailable"
                     ErrTokenUnverifiable [])
          | Some m =>
              Ok ({| Raw := tokenString; Method := m; Header := header;
                     TokenClaims := claims; Signature := ""; Valid := false |},
                  parts)
          end
      | _ => Err (jwt_newError "signing method (alg) is unspecified"
                    ErrTokenUnverifiable [])
      end end end end end
  | _ => Err (jwt_newError "token contains an invalid number of segments"
                ErrTokenMalformed [])
  end.

(** The default [Validator]: no leeway, no expected audience, issuer or
    subject, the issued-at time not verified, the expiry not required. *)
Definition verifyExpiresAt (claims : C) (cmp : time.Time) : list error :=
  match GetExpirationTime claims with
  | None => []
  | Some exp => if time.Before cmp exp then [] else [ErrTokenExpired]
  end.

Definition verifyNotBefore (claims : C) (cmp : time.Time) : list error :=
  match GetNotBefore claims with
  | None => []
  | Some nbf => if negb (time.Before cmp nbf) then [] else [ErrTokenNotValidYet]
  end.

Definition Validate (now : time.Time) (claims : C) : result unit :=
  let errs := (verifyExpiresAt claims now ++ verifyNotBefore claims now)%list in
  match errs with
  | [] => Ok tt
  | _ => Err (jwt_joinErrors errs)
  end.

(** [ParseWithClaims(tokenString, claims, keyFunc)] at the instant [now]:
    the signature is decoded, the key function is asked for the key, the
    signature is verified, and then the claims are validated. *)
Definition ParseWithClaims (now : time.Time) (tokenString : string)
    (keyFunc : Token -> result string) : result Token :=
  match ParseUnverified tokenString with
  | Err e => Err e
  | Ok (token, parts) =>
      match DecodeSegment (nth 2 parts "") with
      | Err e =>
          Err (jwt_newError "could not base64 decode signature" ErrTokenMalformed [e])
      | Ok sig =>
          let token :=
            {| Raw := Raw token; Method := Method token; Header := Header token;
               TokenClaims := TokenClaims token; Signature := sig; Valid := false |} in
          match keyFunc token with
          | Err e =>
              Err (jwt_newError "error while executing keyfunc" ErrTokenUnverifiable [e])
          | Ok key =>
              match Verify (Method token) (strings.Join (firstn 2 parts) ".") sig key with
              | Err e => Err (jwt_newError "" ErrTokenSignatureInvalid [e])
              | Ok _ =>
                  match Validate now (TokenClaims token) with
                  | Err e => Err (jwt_newError "" ErrTokenInvalidClaims [e])
                  | Ok _ =>
                      Ok {| Raw := Raw token; Method := Method token;
                            Header := Header token; TokenClaims := TokenClaims token;
                            Signature := sig; Valid := true |}
                  end
              end
          end
      end
  end.
End WithClaims.

Arguments Token C : clear implicits.

End jwt.

(** ** Package domain *)

Module domain.

Record User := {
  ID : Z;
  Email : string;
  PasswordHash : string;
  CreatedAt : time.Time;
  UpdatedAt : time.Time
}.

(** The [UserRepository] interface.  An implementation has a state [R];
    a method gets the state and the reading of the clock, and returns its
    result with the state it leaves. *)
Class UserRepository (R : Type) := {
  Create : R -> time.Time -> string -> string -> result User * R;
  FindByEmail : R -> string -> result User * R;
  FindByID : R -> Z -> result User * R
}.

(** [err.Error()].  The texts of the three sentinels are set in
    [domain/errors.go]; the handlers copy them into responses, and nothing
    here depends on what they are. *)
Class ErrorText := Error : error -> string.

End domain.

(** ** Package security *)

Module security.

(** *** password.go *)

Record PasswordService := { cost : Z }.

Definition NewPasswordService : PasswordService := {| cost := bcrypt.DefaultCost |}.

Section WithBlowfish.
Context `{bcrypt.Blowfish}.

Definition Hash (s : PasswordService) (entropy : rand.Reader) (password : string)
  : result string :=
  hashedBytes <- bcrypt.GenerateFromPassword entropy password (cost s) ;;
  Ok hashedBytes.

Definition Verify (s : PasswordService) (hashedPassword password : string)
  : result unit :=
  bcrypt.CompareHashAndPassword hashedPassword password.
End WithBlowfish.

(** *** jwt.go *)

Record JWTService := {
  secretKey : string;
  issuer : string;
  duration : time.Duration
}.

Record Claims := {
  UserID : Z;
  Email : string;
  RegisteredClaims : jwt.RegisteredClaims
}.

(** The methods [Claims] gets from the embedded [jwt.RegisteredClaims]. *)
#[global] Instance Claims_Claims : jwt.Claims Claims := {|
  jwt.GetExpirationTime c := jwt.ExpiresAt (RegisteredClaims c);
  jwt.GetNotBefore c := jwt.NotBefore (RegisteredClaims c);
  jwt.GetIssuedAt c := jwt.IssuedAt (RegisteredClaims c);
  jwt.GetIssuer c := jwt.Issuer (RegisteredClaims c)
|}.

Definition NewJWTService (secretKey issuer : string) (duration : time.Duration)
  : JWTService :=
  {| secretKey := secretKey; issuer := issuer; duration := duration |}.

Section WithJWT.
Context `{JSONCodec Claims} `{JSONCodec (gmap string json)} `{jwt.HMAC}.

(** The claims [GenerateToken] builds at the instant [now]. *)
Definition newClaims (s : JWTService) (now : time.Time) (userID : Z) (email : string)
  : Claims :=
  {| UserID := userID;
     Email := email;
     RegisteredClaims :=
       {| jwt.Issuer := issuer s;
          jwt.Subject := "";
          jwt.Audience := [];
          jwt.ExpiresAt := Some (jwt.NewNumericDate (time.Add now (duration s)));
          jwt.NotBefore := None;
          jwt.IssuedAt := Some (jwt.NewNumericDate now);
          jwt.ID := "" |} |}.

Definition GenerateToken (s : JWTService) (now : time.Time) (userID : Z) (email : string)
  : result string :=
  let claims := newClaims s now userID email in
  let token := jwt.NewWithClaims jwt.SigningMethodHS256 claims in
  jwt.SignedString token (secretKey s).

(** The key function [ValidateToken] hands to the parser. *)
Definition keyFunc (s : JWTService) (token : jwt.Token Claims) : result string :=
  match jwt.Method token with
  | jwt.SigningMethodHMAC _ _ => Ok (secretKey s)
  | _ => Err (errors_New "unexpected signing method")
  end.

Definition ValidateToken (s : JWTService) (now : time.Time) (tokenString : string)
  : result Claims :=
  match jwt.ParseWithClaims now tokenString (keyFunc s) with
  | Err err => Err err
  | Ok token =>
      if jwt.Valid token then Ok (jwt.TokenClaims token)
      else Err (errors_New "invalid token")
  end.
End WithJWT.

End security.

(** ** Package repository *)

Module repository.

(** [database/sql], as far as the repository uses it, over a connection of
    state [D]: the INSERT of a user, which gives the id of the new row
    ([result.LastInsertId()]) or the error of the driver, and the two
    SELECTs scanned into a user, which give the row, [sql.ErrNoRows], or
    another error. *)
Class DB (D : Type) := {
  ExecInsert : D -> string -> string -> time.Time -> time.Time -> result (result Z) * D;
  QueryRowByEmail : D -> string -> result domain.User;
  QueryRowByID : D -> Z -> result domain.User
}.

Record SQLiteUserRepository (D : Type) := { db : D }.
Arguments db {D} _.

Definition NewSQLiteUserRepository {D} (db : D) : SQLiteUserRepository D := {| db := db |}.

Section WithDB.
Context {D : Type} `{DB D} `{domain.ErrorText}.

Definition Create (r : SQLiteUserRepository D) (now : time.Time) (email passwordHash : string)
  : result domain.User * SQLiteUserRepository D :=
  let '(executed, d) := ExecInsert (db r) email passwordHash now now in
  let r := {| db := d |} in
  match executed with
  | Err err =>
      if bool_decide (domain.Error err = "UNIQUE constraint failed: users.email")
      then (Err ErrUserAlreadyExists, r)
      else (Err err, r)
  | Ok lastInsertId =>
      match lastInsertId with
      | Err err => (Err err, r)
      | Ok id =>
          (Ok {| domain.ID := id; domain.Email := email;
                 domain.PasswordHash := passwordHash;
                 domain.CreatedAt := now; domain.UpdatedAt := now |}, r)
      end
  end.

Definition FindByEmail (r : SQLiteUserRepository D) (email : string)
  : result domain.User * SQLiteUserRepository D :=
  match QueryRowByEmail (db r) email with
  | Err sql_ErrNoRows => (Err ErrUserNotFound, r)
  | Err err => (Err err, r)
  | Ok user => (Ok user, r)
  end.

Definition FindByID (r : SQLiteUserRepository D) (id : Z)
  : result domain.User * SQLiteUserRepository D :=
  match QueryRowByID (db r) id with
  | Err sql_ErrNoRows => (Err ErrUserNotFound, r)
  | Err err => (Err err, r)
  | Ok user => (Ok user, r)
  end.

#[global] Instance SQLiteUserRepository_UserRepository
  : domain.UserRepository (SQLiteUserRepository D) :=
  {| domain.Create := Create; domain.FindByEmail := FindByEmail;
     domain.FindByID := FindByID |}.
End WithDB.

End repository.

(** ** The world a request runs in *)

(** The calls the workflow and the gate make to their collaborators. *)
Inductive Call : Type :=
  | CallHash (password : string)
  | CallVerify (hashedPassword password : string)
  | CallCreate (email passwordHash : string)
  | CallFindByEmail (email : string)
  | CallFindByID (id : Z)
  | CallGenerateToken (userID : Z) (email : string)
  | CallValidateToken (tokenString : string).

(** The clock, the entropy source, the state of the user store, and the
    calls made so far, the latest first. *)
Record World (R : Type) := {
  now : time.Time;
  entropy : rand.Reader;
  repo : R;
  calls : list Call
}.
Arguments now {R} w.
Arguments entropy {R} w.
Arguments repo {R} w.
Arguments calls {R} w.

Definition called {R} (c : Call) (w : World R) : World R :=
  {| now := now w; entropy := entropy w; repo := repo w; calls := c :: calls w |}.

Definition with_repo {R} (r : R) (w : World R) : World R :=
  {| now := now w; entropy := entropy w; repo := r; calls := calls w |}.

(** ** Package usecase *)

Module usecase.

Module RegisterRequest.
Record t := { Email : string; Password : string }.
End RegisterRequest.

Module LoginRequest.
Record t := { Email : string; Password : string }.
End LoginRequest.

Record AuthResponse := {
  Token : string;
  User : domain.User
}.

(** The use case holds its two services; the repository it holds is the
    store of the world. *)
Record AuthUseCase := {
  passwordService : security.PasswordService;
  jwtService : security.JWTService
}.

Definition NewAuthUseCase (passwordService : security.PasswordService)
    (jwtService : security.JWTService) : AuthUseCase :=
  {| passwordService := passwordService; jwtService := jwtService |}.

Section WithCollaborators.
Context {R : Type} `{domain.UserRepository R} `{bcrypt.Blowfish}
  `{JSONCodec security.Claims} `{JSONCodec (gmap string json)} `{jwt.HMAC}.

Definition Register (uc : AuthUseCase) (req : RegisterRequest.t) (w : World R)
  : result AuthResponse * World R :=
  if bool_decide (RegisterRequest.Email req = "")
     || bool_decide (RegisterRequest.Password req = "")
  then (Err ErrInvalidCredentials, w)
  else
    let w := called (CallHash (RegisterRequest.Password req)) w in
    match security.Hash (passwordService uc) (entropy w) (RegisterRequest.Password req) with
    | Err err => (Err err, w)
    | Ok hashedPassword =>
        let w := called (CallCreate (RegisterRequest.Email req) hashedPassword) w in
        let '(created, r) :=
          domain.Create (repo w) (now w) (RegisterRequest.Email req) hashedPassword in
        let w := with_repo r w in
        match created with
        | Err err => (Err err, w)
        | Ok user =>
            let w := called (CallGenerateToken (domain.ID user) (domain.Email user)) w in
            match security.GenerateToken (jwtService uc) (now w)
                    (domain.ID user) (domain.Email user) with
            | Err err => (Err err, w)
            | Ok token => (Ok {| Token := token; User := user |}, w)
            end
        end
    end.

Definition Login (uc : AuthUseCase) (req : LoginRequest.t) (w : World R)
  : result AuthResponse * World R :=
  if bool_decide (LoginRequest.Email req = "")
     || bool_decide (LoginRequest.Password req = "")
  then (Err ErrInvalidCredentials, w)
  else
    let w := called (CallFindByEmail (LoginRequest.Email req)) w in
    let '(found, r) := domain.FindByEmail (repo w) (LoginRequest.Email req) in
    let w := with_repo r w in
    match found with
    | Err ErrUserNotFound => (Err ErrInvalidCredentials, w)
    | Err err => (Err err, w)
    | Ok user =>
        let w := called (CallVerify (domain.PasswordHash user)
                           (LoginRequest.Password req)) w in
        match security.Verify (passwordService uc) (domain.PasswordHash user)
                (LoginRequest.Password req) with
        | Err _ => (Err ErrInvalidCredentials, w)
        | Ok _ =>
            let w := called (CallGenerateToken (domain.ID user) (domain.Email user)) w in
            match security.GenerateToken (jwtService uc) (now w)
                    (domain.ID user) (domain.Email user) with
            | Err err => (Err err, w)
            | Ok token => (Ok {| Token := token; User := user |}, w)
            end
        end
    end.

Definition GetUserByID (uc : AuthUseCase) (id : Z) (w : World R)
  : result domain.User * World R :=
  let w := called (CallFindByID id) w in
  let '(found, r) := domain.FindByID (repo w) id in
  (found, with_repo r w).
End WithCollaborators.

End usecase.

(** ** Package delivery/http *)

Module http.

Definition StatusOK : Z := 200.
Definition StatusCreated : Z := 201.
Definition StatusBadRequest : Z := 400.
Definition StatusUnauthorized : Z := 401.
Definition StatusNotFound : Z := 404.
Definition StatusMethodNotAllowed : Z := 405.
Definition StatusConflict : Z := 409.
Definition StatusInternalServerError : Z := 500.

Definition MethodGet : string := "GET".
Definition MethodPost : string := "POST".
Definition MethodOptions : string := "OPTIONS".

(** [net/http]'s [Header]: the values of each header, by its name. *)
Definition Header := gmap string (list string).

Definition Header_Get (h : Header) (key : string) : string :=
  match h !! key with
  | Some (v :: _) => v
  | _ => ""
  end.

Definition Header_Set (h : Header) (key value : string) : Header :=
  <[key := [value]]> h.

(** A request context: the values attached by [context.WithValue], the
    latest first. *)
Inductive any : Type :=
  | Int64 (n : Z)
  | Str (s : string).

Definition ContextKey := string.
Definition contextKeyUserID : ContextKey := "userID".
Definition contextKeyEmail : ContextKey := "email".

Definition Context := list (ContextKey * any).

Definition WithValue (ctx : Context) (key : ContextKey) (val : any) : Context :=
  (key, val) :: ctx.

Fixpoint Value (ctx : Context) (key : ContextKey) : option any :=
  match ctx with
  | [] => None
  | (k, v) :: parent => if decide (k = key) then Some v else Value parent key
  end.

Record Request := {
  Method : string;
  ReqHeader : Header;
  Body : string;
  Ctx : Context
}.

Definition WithContext (r : Request) (ctx : Context) : Request :=
  {| Method := Method r; ReqHeader := ReqHeader r; Body := Body r; Ctx := ctx |}.

(** What a handler has written: the headers, the status code, and the
    documents whose JSON text went into the body. *)
Record ResponseWriter := {
  WHeader : Header;
  Code : option Z;
  Written : list json
}.

Definition NewRecorder : ResponseWriter :=
  {| WHeader := ∅; Code := None; Written := [] |}.

Definition SetHeader (w : ResponseWriter) (key value : string) : ResponseWriter :=
  {| WHeader := Header_Set (WHeader w) key value; Code := Code w; Written := Written w |}.

Definition WriteHeader (w : ResponseWriter) (code : Z) : ResponseWriter :=
  {| WHeader := WHeader w;
     Code := match Code w with Some c => Some c | None => Some code end;
     Written := Written w |}.

Definition Write (w : ResponseWriter) (doc : json) : ResponseWriter :=
  {| WHeader := WHeader w;
     Code := match Code w with Some c => Some c | None => Some StatusOK end;
     Written := (Written w ++ [doc])%list |}.

Record ErrorResponse := { Error : string }.

Record UserResponse := {
  ID : Z;
  Email : string;
  CreatedAt : string
}.

Record Handler := {
  authUseCase : usecase.AuthUseCase;
  jwtService : security.JWTService
}.

Definition NewHandler (authUseCase : usecase.AuthUseCase)
    (jwtService : security.JWTService) : Handler :=
  {| authUseCase := authUseCase; jwtService := jwtService |}.

#[global] Instance ErrorResponse_ToJSON : ToJSON ErrorResponse :=
  fun e => JObject [("error", JString (Error e))].

#[global] Instance UserResponse_ToJSON : ToJSON UserResponse :=
  fun u => JObject [("id", JNumber (ID u)); ("email", JString (Email u));
                    ("created_at", JString (CreatedAt u))].

(** [domain.User]: the field [PasswordHash] is tagged [json:"-"]. *)
#[global] Instance User_ToJSON `{time.Text} : ToJSON domain.User :=
  fun u => JObject [("id", JNumber (domain.ID u));
                    ("email", JString (domain.Email u));
                    ("created_at", JString (time.MarshalJSON (domain.CreatedAt u)));
                    ("updated_at", JString (time.MarshalJSON (domain.UpdatedAt u)))].

#[global] Instance AuthResponse_ToJSON `{time.Text} : ToJSON usecase.AuthResponse :=
  fun a => JObject [("token", JString (usecase.Token a));
                    ("user", toJSON (usecase.User a))].

(** [map[string]string] *)
#[global] Instance map_ToJSON : ToJSON (list (string * string)) :=
  fun m => JObject (map (fun kv => (fst kv, JString (snd kv))) m).

(** [json.Marshal] does not fail on the payloads of this package, so the
    branch of [respondWithJSON] for its error is not taken. *)
Definition respondWithJSON {A} `{ToJSON A} (w : ResponseWriter) (code : Z) (payload : A)
  : ResponseWriter :=
  let response := toJSON payload in
  let w := SetHeader w "Content-Type" "application/json" in
  let w := WriteHeader w code in
  Write w response.

Definition respondWithError (w : ResponseWriter) (code : Z) (message : string)
  : ResponseWriter :=
  respondWithJSON w code {| Error := message |}.

Section WithCollaborators.
Context {R : Type} `{domain.UserRepository R} `{bcrypt.Blowfish}
  `{JSONCodec security.Claims} `{JSONCodec (gmap string json)} `{jwt.HMAC}
  `{JSONCodec usecase.RegisterRequest.t} `{JSONCodec usecase.LoginRequest.t}
  `{time.Text} `{domain.ErrorText}.

Definition HandlerFunc := ResponseWriter -> Request -> World R -> ResponseWriter * World R.

(** *** middleware.go *)

Definition AuthMiddleware (jwtService : security.JWTService) (next : HandlerFunc)
  : HandlerFunc :=
  fun w r world =>
    let authHeader := Header_Get (ReqHeader r) "Authorization" in
    if bool_decide (authHeader = "") then
      (respondWithError w StatusUnauthorized "Missing authorization header", world)
    else
      let parts := strings.Split authHeader " "%char in
      if bool_decide (length parts ≠ 2%nat) || negb (bool_decide (nth 0 parts "" = "Bearer"))
      then
        (respondWithError w StatusUnauthorized "Invalid authorization header format",
         world)
      else
        let token := nth 1 parts "" in
        let world := called (CallValidateToken token) world in
        match security.ValidateToken jwtService (now world) token with
        | Err _ =>
            (respondWithError w StatusUnauthorized "Invalid or expired token", world)
        | Ok claims =>
            let ctx := WithValue (Ctx r) contextKeyUserID (Int64 (security.UserID claims)) in
            let ctx := WithValue ctx contextKeyEmail (Str (security.Email claims)) in
            next w (WithContext r ctx) world
        end.

Definition CORSMiddleware (next : HandlerFunc) : HandlerFunc :=
  fun w r world =>
    let w := SetHeader w "Access-Control-Allow-Origin" "*" in
    let w := SetHeader w "Access-Control-Allow-Methods" "GET, POST, PUT, DELETE, OPTIONS" in
    let w := SetHeader w "Access-Control-Allow-Headers" "Content-Type, Authorization" in
    if bool_decide (Method r = MethodOptions) then (WriteHeader w StatusOK, world)
    else next w r world.

Definition LoggingMiddleware (next : HandlerFunc) : HandlerFunc :=
  fun w r world => next w r world.

(** *** handler.go *)

Definition Register (h : Handler) : HandlerFunc :=
  fun w r world =>
    if negb (bool_decide (Method r = MethodPost)) then
      (respondWithError w StatusMethodNotAllowed "Method not allowed", world)
    else
      match Unmarshal (Body r) with
      | None => (respondWithError w StatusBadRequest "Invalid request payload", world)
      | Some req =>
          let '(resp, world) := usecase.Register (authUseCase h) req world in
          match resp with
          | Err err =>
              (match err with
               | ErrUserAlreadyExists =>
                   respondWithError w StatusConflict (domain.Error err)
               | ErrInvalidCredentials =>
                   respondWithError w StatusBadRequest (domain.Error err)
               | _ =>
                   respondWithError w StatusInternalServerError "Internal server error"
               end, world)
          | Ok resp => (respondWithJSON w StatusCreated resp, world)
          end
      end.

Definition Login (h : Handler) : HandlerFunc :=
  fun w r world =>
    if negb (bool_decide (Method r = MethodPost)) then
      (respondWithError w StatusMethodNotAllowed "Method not allowed", world)
    else
      match Unmarshal (Body r) with
      | None => (respondWithError w StatusBadRequest "Invalid request payload", world)
      | Some req =>
          let '(resp, world) := usecase.Login (authUseCase h) req world in
          match resp with
          | Err err =>
              (match err with
               | ErrInvalidCredentials =>
                   respondWithError w StatusUnauthorized "Invalid email or password"
               | _ =>
                   respondWithError w StatusInternalServerError "Internal server error"
               end, world)
          | Ok resp => (respondWithJSON w StatusOK resp, world)
          end
      end.

Definition Me (h : Handler) : HandlerFunc :=
  fun w r world =>
    if negb (bool_decide (Method r = MethodGet)) then
      (respondWithError w StatusMethodNotAllowed "Method not allowed", world)
    else
      match Value (Ctx r) contextKeyUserID with
      | Some (Int64 userID) =>
          let '(found, world) := usecase.GetUserByID (authUseCase h) userID world in
          match found with
          | Err err =>
              (match err with
               | ErrUserNotFound => respondWithError w StatusNotFound "User not found"
               | _ =>
                   respondWithError w StatusInternalServerError "Internal server error"
               end, world)
          | Ok user =>
              let response :=
                {| ID := domain.ID user;
                   Email := domain.Email user;
                   CreatedAt :=
                     time.Format (domain.CreatedAt user) "2006-01-02T15:04:05Z" |} in
              (respondWithJSON w StatusOK response, world)
          end
      | _ => (respondWithError w StatusUnauthorized "Unauthorized", world)
      end.

Definition Health (h : Handler) : HandlerFunc :=
  fun w r world =>
    if negb (bool_decide (Method r = MethodGet)) then
      (respondWithError w StatusMethodNotAllowed "Method not allowed", world)
    else (respondWithJSON w StatusOK [("status", "healthy")], world).

Definition extractTokenFromHeader (r : Request) : string :=
  let bearerToken := Header_Get (ReqHeader r) "Authorization" in
  if bool_decide (length (strings.Split bearerToken " "%char) = 2%nat)
  then nth 1 (strings.Split bearerToken " "%char) ""
  else "".

(** *** router.go *)

Record Router := {
  handler : Handler;
  routerJwtService : security.JWTService
}.

Definition NewRouter (handler : Handler) (jwtService : security.JWTService) : Router :=
  {| handler := handler; routerJwtService := jwtService |}.

(** The middlewares are applied from the last to the first, so the first
    is the outermost. *)
Definition applyMiddlewares (handler : HandlerFunc)
    (middlewares : list (HandlerFunc -> HandlerFunc)) : HandlerFunc :=
  fold_right (fun middleware handler => middleware handler) handler middlewares.

(** The handler the mux has for a path, if it has one. *)
Definition SetupRoutes (rt : Router) (path : string) : option HandlerFunc :=
  if decide (path = "/health") then
    Some (applyMiddlewares (Health (handler rt)) [CORSMiddleware; LoggingMiddleware])
  else if decide (path = "/api/auth/register") then
    Some (applyMiddlewares (Register (handler rt)) [CORSMiddleware; LoggingMiddleware])
  else if decide (path = "/api/auth/login") then
    Some (applyMiddlewares (Login (handler rt)) [CORSMiddleware; LoggingMiddleware])
  else if decide (path = "/api/auth/me") then
    Some (applyMiddlewares (Me (handler rt))
            [CORSMiddleware; LoggingMiddleware; AuthMiddleware (routerJwtService rt)])
  else None.
End WithCollaborators.

End http.

(** ** The repository of the use-case tests *)

Module usecase_test.

Record MockUserRepository := {
  users : gmap string domain.User;
  nextID : Z;
  createError : option error;
  findByIDError : option error
}.

Definition NewMockUserRepository : MockUserRepository :=
  {| users := ∅; nextID := 1; createError := None; findByIDError := None |}.

(** [Create]; [m.nextID++] is on an [int64]. *)
Definition Create (m : MockUserRepository) (_ : time.Time) (email passwordHash : string)
  : result domain.User * MockUserRepository :=
  match createError m with
  | Some e => (Err e, m)
  | None =>
      match users m !! email with
      | Some _ => (Err ErrUserAlreadyExists, m)
      | None =>
          let user :=
            {| domain.ID := nextID m; domain.Email := email;
               domain.PasswordHash := passwordHash;
               domain.CreatedAt := time.zero; domain.UpdatedAt := time.zero |} in
          (Ok user,
           {| users := <[email := user]> (users m); nextID := int64 (nextID m + 1);
              createError := createError m; findByIDError := findByIDError m |})
      end
  end.

Definition FindByEmail (m : MockUserRepository) (email : string)
  : result domain.User * MockUserRepository :=
  match users m !! email with
  | None => (Err ErrUserNotFound, m)
  | Some user => (Ok user, m)
  end.

Definition FindByID (m : MockUserRepository) (id : Z)
  : result domain.User * MockUserRepository :=
  match findByIDError m with
  | Some e => (Err e, m)
  | None =>
      match find (fun kv => bool_decide (domain.ID (snd kv) = id)) (map_to_list (users m)) with
      | Some (_, user) => (Ok user, m)
      | None => (Err ErrUserNotFound, m)
      end
  end.

#[global] Instance MockUserRepository_UserRepository
  : domain.UserRepository MockUserRepository :=
  {| domain.Create := Create; domain.FindByEmail := FindByEmail;
     domain.FindByID := FindByID |}.

End usecase_test.

(** ** Stand-ins for the primitives

    Implementations of the type classes above that compute, so that the
    embedding can be run on examples: a JSON codec for objects without
    nesting, the calendar in UTC, and a cipher and a MAC that are functions
    of their arguments but not cryptographic. *)

Module standin.

Definition itoa (n : Z) : string := NilZero.string_of_int (Z.to_int n).

Definition atoi (s : string) : option Z :=
  match NilZero.int_of_string s with
  | Some i => Some (Z.of_int i)
  | None => None
  end.

(** *** JSON text of flat objects *)

Fixpoint escape (s : string) : string :=
  match s with
  | EmptyString => EmptyString
  | String c s' =>
      if bool_decide (c = "034"%char \/ c = "092"%char)
      then String "092"%char (String c (escape s'))
      else String c (escape s')
  end.

Definition quote (s : string) : string :=
  String "034"%char (escape s ++ String "034"%char EmptyString).

(** The string literal that starts after an opening quote, and the rest. *)
Fixpoint read_string (s : string) : option (string * string) :=
  match s with
  | EmptyString => None
  | String c s' =>
      if bool_decide (c = "034"%char) then Some (EmptyString, s')
      else if bool_decide (c = "092"%char) then
        match s' with
        | String c' s'' =>
            match read_string s'' with
            | Some (lit, rest) => Some (String c' lit, rest)
            | None => None
            end
        | EmptyString => None
        end
      else match read_string s' with
           | Some (lit, rest) => Some (String c lit, rest)
           | None => None
           end
  end.

(** The longest prefix of digits and minus signs, and the rest. *)
Fixpoint read_number (s : string) : string * string :=
  match s with
  | String c s' =>
      if bcrypt.is_digit c || bool_decide (c = "-"%char)
      then let '(num, rest) := read_number s' in (String c num, rest)
      else (EmptyString, s)
  | EmptyString => (EmptyString, EmptyString)
  end.

Definition read_value (s : string) : option (json * string) :=
  match s with
  | String c s' =>
      if bool_decide (c = "034"%char) then
        match read_string s' with
        | Some (lit, rest) => Some (JString lit, rest)
        | None => None
        end
      else
        let '(num, rest) := read_number s in
        match atoi num with
        | Some n => Some (JNumber n, rest)
        | None => None
        end
  | EmptyString => None
  end.

Fixpoint read_members (fuel : nat) (s : string) : option (list (string * json)) :=
  match fuel with
  | O => None
  | S fuel =>
      match s with
      | String q s1 =>
          if negb (bool_decide (q = "034"%char)) then None
          else
            match read_string s1 with
            | Some (key, String colon s2) =>
                if negb (bool_decide (colon = ":"%char)) then None
                else
                  match read_value s2 with
                  | Some (v, String sep s3) =>
                      if bool_decide (sep = ","%char) then
                        match read_members fuel s3 with
                        | Some members => Some ((key, v) :: members)
                        | None => None
                        end
                      else if bool_decide (sep = "}"%char) && bool_decide (s3 = "")
                      then Some [(key, v)]
                      else None
                  | _ => None
                  end
            | _ => None
            end
      | EmptyString => None
      end
  end.

Definition parse_object (s : string) : option (list (string * json)) :=
  if bool_decide (s = "{}") then Some []
  else match s with
       | String c s' =>
           if bool_decide (c = "{"%char) then read_members (String.length s) s' else None
       | EmptyString => None
       end.

Definition print_value (v : json) : string :=
  match v with
  | JString s => quote s
  | JNumber n => itoa n
  | _ => "null"
  end.

Definition print_member (kv : string * json) : string :=
  quote (fst kv) ++ ":" ++ print_value (snd kv).

Definition print_object (members : list (string * json)) : string :=
  "{" ++ strings.Join (map print_member members) "," ++ "}".

Fixpoint lookup_member (key : string) (members : list (string * json)) : option json :=
  match members with
  | [] => None
  | (k, v) :: rest => if decide (k = key) then Some v else lookup_member key rest
  end.

Definition string_member (key : string) (members : list (string * json)) : option string :=
  match lookup_member key members with
  | None => Some ""
  | Some (JString s) => Some s
  | Some _ => None
  end.

Definition date_member (key : string) (members : list (string * json))
  : option (option time.Time) :=
  match lookup_member key members with
  | None => Some None
  | Some (JNumber n) => Some (Some (n * time.Second))
  | Some _ => None
  end.

Definition string_field (key value : string) : list (string * json) :=
  if bool_decide (value = "") then [] else [(key, JString value)].

Definition date_field (key : string) (value : option time.Time) : list (string * json) :=
  match value with
  | None => []
  | Some t => [(key, JNumber (t / time.Second))]
  end.

(** [security.Claims]: the tags [user_id] and [email], and those of the
    embedded registered claims, which are left out when empty.  (An
    audience is not printed.) *)
Definition Claims_members (c : security.Claims) : list (string * json) :=
  let rc := security.RegisteredClaims c in
  ([("user_id", JNumber (security.UserID c)); ("email", JString (security.Email c))]
   ++ string_field "iss" (jwt.Issuer rc)
   ++ string_field "sub" (jwt.Subject rc)
   ++ date_field "exp" (jwt.ExpiresAt rc)
   ++ date_field "nbf" (jwt.NotBefore rc)
   ++ date_field "iat" (jwt.IssuedAt rc)
   ++ string_field "jti" (jwt.ID rc))%list.

Definition Claims_of_members (members : list (string * json)) : option security.Claims :=
  match lookup_member "user_id" members with
  | Some (JNumber uid) =>
      match string_member "email" members, string_member "iss" members,
            string_member "sub" members, date_member "exp" members,
            date_member "nbf" members, date_member "iat" members,
            string_member "jti" members with
      | Some email, Some iss, Some sub, Some exp, Some nbf, Some iat, Some jti =>
          Some {| security.UserID := uid; security.Email := email;
                  security.RegisteredClaims :=
                    {| jwt.Issuer := iss; jwt.Subject := sub; jwt.Audience := [];
                       jwt.ExpiresAt := exp; jwt.NotBefore := nbf; jwt.IssuedAt := iat;
                       jwt.ID := jti |} |}
      | _, _, _, _, _, _, _ => None
      end
  | _ => None
  end.

#[export] Instance Claims_JSONCodec : JSONCodec security.Claims := {|
  Marshal c := print_object (Claims_members c);
  Unmarshal s :=
    match parse_object s with
    | Some members => Claims_of_members members
    | None => None
    end
|}.

#[export] Instance Header_JSONCodec : JSONCodec (gmap string json) := {|
  Marshal h := print_object (map_to_list h);
  Unmarshal s :=
    match parse_object s with
    | Some members => Some (list_to_map members)
    | None => None
    end
|}.

Definition credentials (s : string) : option (string * string) :=
  match parse_object s with
  | Some members =>
      match string_member "email" members, string_member "password" members with
      | Some email, Some password => Some (email, password)
      | _, _ => None
      end
  | None => None
  end.

#[export] Instance RegisterRequest_JSONCodec : JSONCodec usecase.RegisterRequest.t := {|
  Marshal r :=
    print_object [("email", JString (usecase.RegisterRequest.Email r));
                  ("password", JString (usecase.RegisterRequest.Password r))];
  Unmarshal s :=
    match credentials s with
    | Some (email, password) =>
        Some {| usecase.RegisterRequest.Email := email;
                usecase.RegisterRequest.Password := password |}
    | None => None
    end
|}.

#[export] Instance LoginRequest_JSONCodec : JSONCodec usecase.LoginRequest.t := {|
  Marshal r :=
    print_object [("email", JString (usecase.LoginRequest.Email r));
                  ("password", JString (usecase.LoginRequest.Password r))];
  Unmarshal s :=
    match credentials s with
    | Some (email, password) =>
        Some {| usecase.LoginRequest.Email := email;
                usecase.LoginRequest.Password := password |}
    | None => None
    end
|}.

(** *** The calendar, in UTC *)

Definition pad2 (n : Z) : string := if bool_decide (n < 10) then "0" ++ itoa n else itoa n.

Definition pad4 (n : Z) : string :=
  if bool_decide (n < 10) then "000" ++ itoa n
  else if bool_decide (n < 100) then "00" ++ itoa n
  else if bool_decide (n < 1000) then "0" ++ itoa n
  else itoa n.

(** The civil date of a number of days since 1970-01-01. *)
Definition civil_from_days (days : Z) : Z * Z * Z :=
  let z := days + 719468 in
  let era := z / 146097 in
  let doe := z - era * 146097 in
  let yoe := (doe - doe / 1460 + doe / 36524 - doe / 146096) / 365 in
  let doy := doe - (365 * yoe + yoe / 4 - yoe / 100) in
  let mp := (5 * doy + 2) / 153 in
  let d := doy - (153 * mp + 2) / 5 + 1 in
  let m := if bool_decide (mp < 10) then mp + 3 else mp - 9 in
  let y := yoe + era * 400 + (if bool_decide (m <= 2) then 1 else 0) in
  (y, m, d).

Definition date_time (t : time.Time) : string :=
  let sec := t / time.Second in
  let '(y, m, d) := civil_from_days (sec / 86400) in
  let rem := sec `mod` 86400 in
  pad4 y ++ "-" ++ pad2 m ++ "-" ++ pad2 d ++ "T"
  ++ pad2 (rem / 3600) ++ ":" ++ pad2 (rem `mod` 3600 / 60) ++ ":" ++ pad2 (rem `mod` 60).

#[export] Instance UTC_Text : time.Text := {|
  time.MarshalJSON t := date_time t ++ "Z";
  time.Format t layout := date_time t ++ "Z"
|}.

(** *** A cipher and a MAC *)

Definition sum_bytes (s : string) : N :=
  fold_right (fun c acc => (N_of_ascii c + 31 * acc) mod 65521)%N 7%N
    (list_ascii_of_string s).

Fixpoint stream (n : nat) (seed : N) : string :=
  match n with
  | O => EmptyString
  | S n' =>
      String (ascii_of_N (seed mod 256)) (stream n' ((seed * 75 + 74) mod 65537)%N)
  end.

#[export] Instance Blowfish_standin : bcrypt.Blowfish :=
  fun cost csalt key => stream 23 (sum_bytes key + 3 * sum_bytes csalt + Z.to_N cost)%N.

#[export] Instance HMAC_standin : jwt.HMAC :=
  fun h key message =>
    stream (match h with jwt.SHA256 => 32 | jwt.SHA384 => 48 | jwt.SHA512 => 64 end)
      (sum_bytes key * 3 + sum_bytes message)%N.

#[export] Instance ErrorText_standin : domain.ErrorText :=
  fun e =>
    match e with
    | ErrUserNotFound => "user not found"
    | ErrUserAlreadyExists => "user already exists"
    | ErrInvalidCredentials => "invalid credentials"
    | errors_New text | opaque_error text => text
    | _ => "error"
    end.

End standin.

(** ** Vocabulary of the properties *)

(** [contains s c]: the byte [c] occurs in [s]. *)
Fixpoint contains (s : string) (c : ascii) : bool :=
  match s with
  | EmptyString => false
  | String c' s' => bool_decide (c' = c) || contains s' c
  end.


(** The digits that the bytes of [src] encode to: four for three bytes,
    two or three for a remainder of one or two bytes. *)
Fixpoint sextets (src : string) : list N :=
  match src with
  | String a (String b (String c rest)) =>
      let val := (N_of_ascii a * 65536 + N_of_ascii b * 256 + N_of_ascii c)%N in
      (val / 262144 mod 64 :: val / 4096 mod 64 :: val / 64 mod 64 :: val mod 64
         :: sextets rest)%N
  | String a (String b EmptyString) =>
      let val := (N_of_ascii a * 65536 + N_of_ascii b * 256)%N in
      [val / 262144 mod 64; val / 4096 mod 64; val / 64 mod 64]%N
  | String a EmptyString =>
      let val := (N_of_ascii a * 65536)%N in
      [val / 262144 mod 64; val / 4096 mod 64]%N
  | EmptyString => []
  end.

(** An alphabet is fit for decoding when its 64 characters decode to their
    positions and none of them is a line break. *)
Definition alphabet_ok (alphabet : string) : bool :=
  forallb (fun n : nat =>
             bool_decide (base64.dec alphabet (base64.enc alphabet (N.of_nat n))
                          = Some (N.of_nat n))
             && negb (bool_decide (base64.enc alphabet (N.of_nat n) = "010"%char
                                   \/ base64.enc alphabet (N.of_nat n) = "013"%char)))
    (seq 0 64).

(** No character of the alphabet is [c]. *)
Definition alphabet_avoids (alphabet : string) (c : ascii) : bool :=
  forallb (fun n : nat => negb (bool_decide (base64.enc alphabet (N.of_nat n) = c)))
    (seq 0 64).

(** *** Tokens *)

Section TokenVocabulary.
Context `{JSONCodec security.Claims} `{JSONCodec (gmap string json)} `{jwt.HMAC}.

(** What a well-formed token string carries: three base64url segments
    separated by dots, of which the first two are the JSON texts of a
    header and of a claim set and the third is the signature over the
    first two. *)
Record Decoded := {
  token_header : gmap string json;
  token_claims : security.Claims;
  token_signature : string;
  token_signed : string
}.

Definition decode_token (tokenString : string) : option Decoded :=
  match strings.Split tokenString "."%char with
  | [p0; p1; p2] =>
      match jwt.DecodeSegment p0, jwt.DecodeSegment p1, jwt.DecodeSegment p2 with
      | Ok headerBytes, Ok claimBytes, Ok sig =>
          match Unmarshal headerBytes, Unmarshal claimBytes with
          | Some header, Some claims =>
              Some {| token_header := header; token_claims := claims;
                      token_signature := sig; token_signed := p0 ++ "." ++ p1 |}
          | _, _ => None
          end
      | _, _, _ => None
      end
  | _ => None
  end.

(** The signing method the header names. *)
Definition header_method (header : gmap string json) : option jwt.SigningMethod :=
  match header !! "alg" with
  | Some (JString alg) => jwt.GetSigningMethod alg
  | _ => None
  end.

(** The hash of the method the header names, when that is of the HMAC
    family. *)
Definition hmac_family (header : gmap string json) : option jwt.crypto_Hash :=
  match header_method header with
  | Some (jwt.SigningMethodHMAC _ h) => Some h
  | _ => None
  end.

Definition unexpired (now : time.Time) (c : security.Claims) : bool :=
  match jwt.ExpiresAt (security.RegisteredClaims c) with
  | Some exp => bool_decide (now < exp)
  | None => true
  end.

Definition valid_already (now : time.Time) (c : security.Claims) : bool :=
  match jwt.NotBefore (security.RegisteredClaims c) with
  | Some nbf => bool_decide (nbf <= now)
  | None => true
  end.

(** The claims of the token strings that pass: well-formed, of the HMAC
    family, signed with the key of the service, not expired, and not used
    before its time. *)
Definition accepted (s : security.JWTService) (now : time.Time) (tokenString : string)
  : option security.Claims :=
  match decode_token tokenString with
  | Some d =>
      match hmac_family (token_header d) with
      | Some h =>
          if bool_decide (token_signature d
                          = jwt.hmac_Sum h (security.secretKey s) (token_signed d))
             && unexpired now (token_claims d) && valid_already now (token_claims d)
          then Some (token_claims d)
          else None
      | None => None
      end
  | None => None
  end.
End TokenVocabulary.

(** *** Password hashes *)

(** The 31 bytes of hash that [bcrypt.Hash] writes and compares: the
    encoded cipher text of the password under a cost and a decoded salt. *)
Definition bcrypt_digest `{bcrypt.Blowfish} (cost : Z) (csalt password : string) : string :=
  strings.take bcrypt.encodedHashSize
    (bcrypt.base64Encode (bcrypt.eksblowfish cost csalt (bcrypt.key_stream password))
     ++ strings.Repeat "000"%char bcrypt.encodedHashSize).

(** [Atoi2] reads back what [Sprintf02d] prints. *)
Definition cost_text_ok (cost : Z) : bool :=
  match bcrypt.Atoi2 (bcrypt.Sprintf02d cost) with
  | Ok c => bool_decide (c = cost)
  | Err _ => false
  end.

(** *** The gate *)

(** The token of a header value of the shape "Bearer token": two parts
    around one space, the first the word Bearer. *)
Definition bearer_token (authHeader : string) : option string :=
  match strings.Split authHeader " "%char with
  | [scheme; token] => if decide (scheme = "Bearer") then Some token else None
  | _ => None
  end.

(** The three ways the gate rejects a request, and its message for each. *)
Inductive FailureClass : Type :=
  | MissingCredential
  | MalformedHeader
  | InvalidOrExpired.

Definition gate_message (c : FailureClass) : string :=
  match c with
  | MissingCredential => "Missing authorization header"
  | MalformedHeader => "Invalid authorization header format"
  | InvalidOrExpired => "Invalid or expired token"
  end.

(** The way the gate rejects a request with the header value [authHeader]
    at the instant [now]; [None] when it lets the request pass. *)
Definition failure_class `{JSONCodec security.Claims} `{JSONCodec (gmap string json)}
    `{jwt.HMAC} (jwtService : security.JWTService) (now : time.Time) (authHeader : string)
  : option FailureClass :=
  if bool_decide (authHeader = "") then Some MissingCredential
  else match bearer_token authHeader with
       | None => Some MalformedHeader
       | Some token =>
           match security.ValidateToken jwtService now token with
           | Err _ => Some InvalidOrExpired
           | Ok _ => None
           end
       end.

(** *** The workflow *)



(** Two users that differ at most in their password hash. *)
Definition same_identity (u1 u2 : domain.User) : Prop :=
  domain.ID u1 = domain.ID u2 /\ domain.Email u1 = domain.Email u2 /\
  domain.CreatedAt u1 = domain.CreatedAt u2 /\ domain.UpdatedAt u1 = domain.UpdatedAt u2.

(** ** A configuration to run examples on

    The service of [main.go] with its default secret and issuer and its
    lifetime of 24 hours, over the repository of the tests and the stand-ins
    of the primitives. *)

Module example.

Import standin usecase_test.

Definition jwtService : security.JWTService :=
  security.NewJWTService "your-super-secret-key-change-this-in-production"
    "secure-rest-api" (24 * time.Hour).

Definition authUseCase : usecase.AuthUseCase :=
  usecase.NewAuthUseCase security.NewPasswordService jwtService.

Definition handler : http.Handler := http.NewHandler authUseCase jwtService.

(** 2024-01-15T10:30:00Z *)
Definition t0 : time.Time := 1705314600 * time.Second.

Definition world0 : World MockUserRepository :=
  {| now := t0; entropy := rand.Bytes "0123456789abcdef";
     repo := NewMockUserRepository; calls := [] |}.

Definition register_a : usecase.RegisterRequest.t :=
  {| usecase.RegisterRequest.Email := "a@x.com";
     usecase.RegisterRequest.Password := "pw1" |}.

(** The world after a@x.com has registered, with other entropy at hand. *)
Definition world1 : World MockUserRepository :=
  let w := snd (usecase.Register authUseCase register_a world0) in
  {| now := t0; entropy := rand.Bytes "fedcba9876543210"; repo := repo w; calls := [] |}.

(** The same, had the salt of the registration been another one. *)
Definition world1' : World MockUserRepository :=
  let w := snd (usecase.Register authUseCase register_a
                  {| now := t0; entropy := rand.Bytes "ABCDEFGHIJKLMNOP";
                     repo := NewMockUserRepository; calls := [] |}) in
  {| now := t0; entropy := rand.Bytes "fedcba9876543210"; repo := repo w; calls := [] |}.

Definition request (method : string) (authorization : list string) (body : string)
  : http.Request :=
  {| http.Method := method;
     http.ReqHeader := match authorization with
                       | [] => ∅
                       | _ => {["Authorization" := authorization]}
                       end;
     http.Body := body; http.Ctx := [] |}.

(** The claims of a token that is not to be used before tomorrow. *)
Definition claims_for_tomorrow : security.Claims :=
  {| security.UserID := 1; security.Email := "a@x.com";
     security.RegisteredClaims :=
       {| jwt.Issuer := "somebody-else"; jwt.Subject := ""; jwt.Audience := [];
          jwt.ExpiresAt := Some (t0 + 48 * time.Hour);
          jwt.NotBefore := Some (t0 + 24 * time.Hour);
          jwt.IssuedAt := Some t0; jwt.ID := "" |} |}.

(** The claims of a token in its time, of another issuer. *)
Definition claims_of_another_issuer : security.Claims :=
  {| security.UserID := 1; security.Email := "a@x.com";
     security.RegisteredClaims :=
       {| jwt.Issuer := "somebody-else"; jwt.Subject := ""; jwt.Audience := [];
          jwt.ExpiresAt := Some (t0 + 48 * time.Hour);
          jwt.NotBefore := None;
          jwt.IssuedAt := Some t0; jwt.ID := "" |} |}.

Definition signed (method : jwt.SigningMethod) (claims : security.Claims) (key : string)
  : string :=
  match jwt.SignedString (jwt.NewWithClaims method claims) key with
  | Ok tokenString => tokenString
  | Err _ => ""
  end.

Definition password72 : string := strings.Repeat "a"%char 72.

(** The services of the use-case tests: a lifetime of 3600 nanoseconds. *)
Definition testJwtService : security.JWTService :=
  security.NewJWTService "test-secret" "test-issuer" 3600.

Definition useCase : usecase.AuthUseCase :=
  usecase.NewAuthUseCase security.NewPasswordService testJwtService.

Definition test_register : usecase.RegisterRequest.t :=
  {| usecase.RegisterRequest.Email := "test@example.com";
     usecase.RegisterRequest.Password := "password123" |}.

Definition test_login (email password : string) : usecase.LoginRequest.t :=
  {| usecase.LoginRequest.Email := email; usecase.LoginRequest.Password := password |}.

(** The world of a test after its registration of test@example.com. *)
Definition registered : World MockUserRepository :=
  snd (usecase.Register useCase test_register world0).

(** The router of [main.go]. *)
Definition router : http.Router := http.NewRouter handler jwtService.

(** The response of the router to a request on a path. *)
Definition serve (path : string) (r : http.Request) (w : World MockUserRepository)
  : option (http.ResponseWriter * World MockUserRepository) :=
  match http.SetupRoutes router path with
  | Some h => Some (h http.NewRecorder r w)
  | None => None
  end.

(** The token of a response of register or login. *)
Definition token_of (response : option (http.ResponseWriter * World MockUserRepository))
  : string :=
  match response with
  | Some (rw, _) =>
      match http.Written rw with
      | [JObject (("token", JString token) :: _)] => token
      | _ => ""
      end
  | None => ""
  end.

Definition status_of (response : option (http.ResponseWriter * World MockUserRepository))
  : option Z :=
  match response with
  | Some (rw, _) => http.Code rw
  | None => None
  end.

Definition body_of (response : option (http.ResponseWriter * World MockUserRepository))
  : list json :=
  match response with
  | Some (rw, _) => http.Written rw
  | None => []
  end.

(** The collaborator a call went to. *)
Definition callee (c : Call) : string :=
  match c with
  | CallHash _ => "Hash"
  | CallVerify _ _ => "Verify"
  | CallCreate _ _ => "Create"
  | CallFindByEmail _ => "FindByEmail"
  | CallFindByID _ => "FindByID"
  | CallGenerateToken _ _ => "GenerateToken"
  | CallValidateToken _ => "ValidateToken"
  end.

Definition world_of (response : option (http.ResponseWriter * World MockUserRepository))
  : World MockUserRepository :=
  match response with
  | Some (_, w) => w
  | None => world0
  end.

End example.

(** ** More vocabulary *)

(** The sentinel of the jwt package that an error of the parser wraps. *)
Inductive TokenErrorKind : Type :=
  | Malformed
  | Unverifiable
  | SignatureInvalid
  | InvalidClaims.

Definition token_error_kind (e : error) : option TokenErrorKind :=
  match e with
  | jwt_newError _ ErrTokenMalformed _ => Some Malformed
  | jwt_newError _ ErrTokenUnverifiable _ => Some Unverifiable
  | jwt_newError _ ErrTokenSignatureInvalid _ => Some SignatureInvalid
  | jwt_newError _ ErrTokenInvalidClaims _ => Some InvalidClaims
  | _ => None
  end.

(** The errors the default validator finds in the times of a claim set. *)
Definition time_errors (now : time.Time) (c : security.Claims) : list error :=
  ((if unexpired now c then [] else [ErrTokenExpired])
   ++ (if valid_already now c then [] else [ErrTokenNotValidYet]))%list.

(** The state the mock repository of the tests keeps: every user is
    stored under its email, with an id from 1 up to (not including)
    [nextID], and no id is stored twice. *)
Definition mock_consistent (m : usecase_test.MockUserRepository) : Prop :=
  1 <= usecase_test.nextID m /\
  map_Forall (fun email user =>
                domain.Email user = email /\
                1 <= domain.ID user < usecase_test.nextID m) (usecase_test.users m) /\
  NoDup ((fun kv => domain.ID (snd kv)) <$> map_to_list (usecase_test.users m)).

(** What [respondWithJSON] leaves in a response writer: the content type,
    the status code and the document. *)
Definition json_response (rw : http.ResponseWriter) (code : Z) (doc : json)
  : http.ResponseWriter :=
  http.Write (http.WriteHeader (http.SetHeader rw "Content-Type" "application/json") code) doc.

(** The three headers [CORSMiddleware] sets. *)
Definition cors_headers (rw : http.ResponseWriter) : Prop :=
  http.Header_Get (http.WHeader rw) "Access-Control-Allow-Origin" = "*" /\
  http.Header_Get (http.WHeader rw) "Access-Control-Allow-Methods"
  = "GET, POST, PUT, DELETE, OPTIONS" /\
  http.Header_Get (http.WHeader rw) "Access-Control-Allow-Headers"
  = "Content-Type, Authorization".

(** A handler that answers every request with one call of
    [respondWithJSON] (or of [respondWithError], which is one). *)
Definition answers_json {R : Type} (f : @http.HandlerFunc R) : Prop :=
  forall rw r world, exists code doc, fst (f rw r world) = json_response rw code doc.

(** ** A stand-in for the database

    A table of users in memory with the UNIQUE constraint on the email, to
    run the SQLite repository on examples.  A locked table fails every
    statement with the error of the driver. *)

Module memdb.

Record table := {
  rows : list domain.User;
  locked : bool
}.

Definition empty : table := {| rows := []; locked := false |}.

Definition exec_insert (d : table) (email passwordHash : string)
    (createdAt updatedAt : time.Time) : result (result Z) * table :=
  if locked d then (Err (opaque_error "database is locked"), d)
  else if existsb (fun u => bool_decide (domain.Email u = email)) (rows d)
  then (Err (opaque_error "UNIQUE constraint failed: users.email"), d)
  else
    let id := Z.of_nat (length (rows d)) + 1 in
    (Ok (Ok id),
     {| rows := rows d ++ [{| domain.ID := id; domain.Email := email;
                              domain.PasswordHash := passwordHash;
                              domain.CreatedAt := createdAt;
                              domain.UpdatedAt := updatedAt |}];
        locked := false |}).

Definition query_row (d : table) (p : domain.User -> bool) : result domain.User :=
  if locked d then Err (opaque_error "database is locked")
  else match find p (rows d) with
       | Some u => Ok u
       | None => Err sql_ErrNoRows
       end.

#[export] Instance table_DB : repository.DB table := {|
  repository.ExecInsert := exec_insert;
  repository.QueryRowByEmail d email :=
    query_row d (fun u => bool_decide (domain.Email u = email));
  repository.QueryRowByID d id := query_row d (fun u => bool_decide (domain.ID u = id))
|}.

End memdb.

(** More of the example configuration: the issued token of a@x.com, her
    hash, and worlds over the stand-in database. *)

Module example_more.

Import standin usecase_test example memdb.

Definition token_a : string :=
  match security.GenerateToken jwtService t0 1 "a@x.com" with
  | Ok tokenString => tokenString
  | Err _ => ""
  end.

(** A token without a signature, for the method "none". *)
Definition token_none : string :=
  jwt.EncodeSegment (Marshal (jwt.newHeader jwt.signingMethodNone)) ++ "."
  ++ jwt.EncodeSegment (Marshal (security.newClaims jwtService t0 1 "a@x.com")) ++ ".".

Definition decoded (tokenString : string) : Decoded :=
  match decode_token tokenString with
  | Some d => d
  | None =>
      {| token_header := ∅; token_claims := security.newClaims jwtService 0 0 "";
         token_signature := ""; token_signed := "" |}
  end.

Definition hash_of (entropy : rand.Reader) (password : string) : string :=
  match security.Hash security.NewPasswordService entropy password with
  | Ok hashed => hashed
  | Err _ => ""
  end.

Definition registration : result usecase.AuthResponse * World MockUserRepository :=
  usecase.Register authUseCase register_a world0.

Definition response_a : usecase.AuthResponse :=
  match fst registration with
  | Ok resp => resp
  | Err _ =>
      {| usecase.Token := "";
         usecase.User := {| domain.ID := 0; domain.Email := ""; domain.PasswordHash := "";
                            domain.CreatedAt := 0; domain.UpdatedAt := 0 |} |}
  end.

Definition sql_world0 : World (repository.SQLiteUserRepository table) :=
  {| now := t0; entropy := rand.Bytes "0123456789abcdef";
     repo := repository.NewSQLiteUserRepository empty; calls := [] |}.

(** The world over the database after a@x.com has registered. *)
Definition sql_world1 : World (repository.SQLiteUserRepository table) :=
  snd (usecase.Register authUseCase register_a sql_world0).

(** A world whose database is locked. *)
Definition sql_locked : World (repository.SQLiteUserRepository table) :=
  {| now := t0; entropy := rand.Bytes "0123456789abcdef";
     repo := repository.NewSQLiteUserRepository {| rows := []; locked := true |};
     calls := [] |}.

Definition route (path : string) : http.HandlerFunc (R := MockUserRepository) :=
  match http.SetupRoutes router path with
  | Some f => f
  | None => fun rw r world => (rw, world)
  end.

End example_more.
(** * Properties *)

(** ** Strings *)

Lemma string_ind3 (P : string -> Prop) :
  P "" -> (forall a, P (String a "")) -> (forall a b, P (String a (String b ""))) ->
  (forall a b c rest, P rest -> P (String a (String b (String c rest)))) ->
  forall s, P s.
Proof.
  intros H0 H1 H2 H3 s.
  assert (P s /\ (forall a, P (String a s)) /\ (forall a b, P (String a (String b s))))
    as [? _]; [|done].
  induction s as [|c s (IH0 & IH1 & IH2)]; [by auto|].
  split_and!; auto.
Qed.

Lemma append_cons c (s t : string) : String c s ++ t = String c (s ++ t).
Proof. done. Qed.

Lemma append_nil_l (t : string) : "" ++ t = t.
Proof. done. Qed.

Lemma append_nil_r (s : string) : s ++ "" = s.
Proof. induction s as [|c s IH]; [done|]. by rewrite append_cons, IH. Qed.

Lemma append_assoc (a b c : string) : (a ++ b) ++ c = a ++ (b ++ c).
Proof. induction a as [|x a IH]; [done|]. by rewrite !append_cons, IH. Qed.

Lemma length_cons c (s : string) : String.length (String c s) = S (String.length s).
Proof. done. Qed.

Lemma length_append (s t : string) :
  String.length (s ++ t) = (String.length s + String.length t)%nat.
Proof. induction s as [|c s IH]; [done|]. rewrite append_cons. simpl. by rewrite IH. Qed.

Lemma length_take n s : String.length (strings.take n s) = (n `min` String.length s)%nat.
Proof. revert s. induction n as [|n IH]; intros [|c s]; simpl; try done. by rewrite IH. Qed.

Lemma length_Repeat c n : String.length (strings.Repeat c n) = n.
Proof. induction n as [|n IH]; simpl; [done|]. by rewrite IH. Qed.

Lemma take_app_exact n (s t : string) :
  String.length s = n -> strings.take n (s ++ t) = s.
Proof.
  revert s. induction n as [|n IH]; intros [|c s] Hlen; simplify_eq/=; try done.
  by rewrite IH.
Qed.

Lemma drop_app_exact n (s t : string) :
  String.length s = n -> strings.drop n (s ++ t) = t.
Proof.
  revert s. induction n as [|n IH]; intros [|c s] Hlen; simplify_eq/=; try done.
  by apply IH.
Qed.

Lemma length_string_of_list_ascii l :
  String.length (string_of_list_ascii l) = length l.
Proof. induction l as [|c l IH]; simpl; [done|]. by rewrite IH. Qed.

Lemma Split_nonempty s sep : strings.Split s sep <> [].
Proof. induction s as [|c s IH]; simpl; [done|]. case_decide; [done|]. by destruct (strings.Split s sep). Qed.

Lemma Split_no_sep s sep : contains s sep = false -> strings.Split s sep = [s].
Proof.
  induction s as [|c s IH]; simpl; [done|].
  intros [Hc Hs]%orb_false_elim. apply bool_decide_eq_false in Hc.
  rewrite decide_False by done. by rewrite IH.
Qed.

Lemma Split_app s rest sep :
  contains s sep = false ->
  strings.Split (s ++ String sep rest) sep = s :: strings.Split rest sep.
Proof.
  induction s as [|c s IH]; simpl.
  - intros _. by rewrite decide_True.
  - intros [Hc Hs]%orb_false_elim. apply bool_decide_eq_false in Hc.
    rewrite decide_False by done. by rewrite IH.
Qed.

Lemma contains_app s t c : contains (s ++ t) c = contains s c || contains t c.
Proof. induction s as [|c' s IH]; simpl; [done|]. by rewrite IH, orb_assoc. Qed.

(** A header value is of the shape "Bearer token" exactly when it has one
    space, after the word Bearer. *)
Lemma Split_Bearer authHeader token :
  strings.Split authHeader " "%char = ["Bearer"; token] <->
  authHeader = "Bearer " ++ token /\ contains token " "%char = false.
Proof.
  split.
  - revert token.
    assert (forall s h t, strings.Split s " "%char = h :: t ->
              contains h " "%char = false /\
              match t with [] => s = h
                      | _ => exists r, s = h ++ String " "%char r /\ strings.Split r " "%char = t
              end) as Hsplit.
    { induction s as [|c s IH]; simpl; intros h t Hs.
      - by simplify_eq.
      - case_decide as Hc.
        + injection Hs as <- <-. split; [done|]. subst c.
          destruct (strings.Split s " "%char) eqn:Hs'; [by destruct (Split_nonempty s " "%char)|].
          by exists s.
        + destruct (strings.Split s " "%char) as [|h' t'] eqn:Hs';
            [by destruct (Split_nonempty s " "%char)|].
          injection Hs as <- <-. destruct (IH h' t' eq_refl) as [Hh Ht]. split.
          * simpl. rewrite Hh. by rewrite bool_decide_eq_false_2.
          * destruct t'; [by subst|]. destruct Ht as (r & -> & Hr). by exists r. }
    intros token Hs. destruct (Hsplit _ _ _ Hs) as [_ (r & -> & Hr)].
    destruct (Hsplit _ _ _ Hr) as [Hc Heq]. simpl in Heq. by subst.
  - intros [-> Hc]. change ("Bearer " ++ token) with ("Bearer" ++ String " "%char token).
    rewrite Split_app by done. by rewrite Split_no_sep.
Qed.

(** ** Base64: decoding inverts encoding *)

Section Base64Facts.
Variable alphabet : string.
Hypothesis alphabet_fit : alphabet_ok alphabet = true.

Lemma dec_enc n :
  (n < 64)%N ->
  base64.dec alphabet (base64.enc alphabet n) = Some n /\
  ~ (base64.enc alphabet n = "010"%char \/ base64.enc alphabet n = "013"%char).
Proof.
  intros Hn. pose proof alphabet_fit as Hfit. unfold alphabet_ok in Hfit.
  rewrite forallb_forall in Hfit.
  assert (In (N.to_nat n) (seq 0 64)) as Hin by (apply in_seq; lia).
  specialize (Hfit _ Hin). rewrite N2Nat.id in Hfit.
  apply andb_prop in Hfit as [H1 H2].
  apply bool_decide_eq_true in H1. apply negb_true_iff, bool_decide_eq_false in H2.
  done.
Qed.

Lemma sextets_lt src : Forall (fun d => d < 64)%N (sextets src).
Proof.
  induction src as [| |a b|a b c rest IH] using string_ind3; simpl;
    repeat constructor; try apply N.mod_lt; try done.
Qed.

Lemma EncodeToString_sextets src :
  base64.EncodeToString alphabet src
  = string_of_list_ascii (map (base64.enc alphabet) (sextets src)).
Proof.
  induction src as [| |a b|a b c rest IH] using string_ind3; simpl; try done.
  by rewrite IH.
Qed.

Lemma digits_enc ds :
  Forall (fun d => d < 64)%N ds ->
  base64.digits alphabet (string_of_list_ascii (map (base64.enc alphabet) ds)) = Some ds.
Proof.
  induction 1 as [|d ds Hd _ IH]; simpl; [done|].
  destruct (dec_enc d Hd) as [-> Hnl].
  rewrite decide_False by done. by rewrite IH.
Qed.

Lemma byte_N_of_ascii a : base64.byte (N_of_ascii a) = a.
Proof.
  unfold base64.byte. rewrite N.mod_small by apply N_ascii_bounded.
  apply ascii_N_embedding.
Qed.

Lemma byte_eq n a : (n mod 256 = N_of_ascii a)%N -> base64.byte n = a.
Proof. unfold base64.byte. intros ->. apply ascii_N_embedding. Qed.

Local Ltac to_Z a :=
  let H := fresh in
  pose proof (N_ascii_bounded a) as H;
  apply N2Z.inj_lt in H; pose proof (N2Z.is_nonneg (N_of_ascii a));
  generalize dependent (Z.of_N (N_of_ascii a)); intros.

Local Ltac quantum :=
  apply N2Z.inj;
  rewrite ?N2Z.inj_mod, ?N2Z.inj_div, ?N2Z.inj_add, ?N2Z.inj_mul,
    ?N2Z.inj_mod, ?N2Z.inj_div, ?N2Z.inj_add, ?N2Z.inj_mul,
    ?N2Z.inj_mod, ?N2Z.inj_div, ?N2Z.inj_add, ?N2Z.inj_mul;
  simpl Z.of_N.

Lemma decodeQuanta_sextets src : base64.decodeQuanta (sextets src) = Some src.
Proof.
  induction src as [| |a b|a b c rest IH] using string_ind3.
  - done.
  - cbn [sextets base64.decodeQuanta]. do 2 f_equal.
    apply byte_eq. quantum. to_Z a.
    Z.to_euclidean_division_equations; lia.
  - cbn [sextets base64.decodeQuanta]. do 2 f_equal; [|f_equal].
    all: apply byte_eq; quantum; to_Z a; to_Z b;
      Z.to_euclidean_division_equations; lia.
  - cbn [sextets base64.decodeQuanta]. rewrite IH. do 2 f_equal; [|f_equal; [|f_equal]].
    all: apply byte_eq; quantum; to_Z a; to_Z b; to_Z c;
      Z.to_euclidean_division_equations; lia.
Qed.

Lemma DecodeString_EncodeToString src :
  base64.DecodeString alphabet (base64.EncodeToString alphabet src) = Ok src.
Proof.
  unfold base64.DecodeString.
  rewrite EncodeToString_sextets, digits_enc by apply sextets_lt.
  by rewrite decodeQuanta_sextets.
Qed.

Lemma EncodeToString_avoids src c :
  alphabet_avoids alphabet c = true ->
  contains (base64.EncodeToString alphabet src) c = false.
Proof.
  intros Hc. rewrite EncodeToString_sextets.
  induction (sextets_lt src) as [|d ds Hd _ IH]; simpl; [done|].
  rewrite IH, orb_false_r. apply bool_decide_eq_false.
  unfold alphabet_avoids in Hc. rewrite forallb_forall in Hc.
  assert (In (N.to_nat d) (seq 0 64)) as Hin by (apply in_seq; lia).
  specialize (Hc _ Hin). rewrite N2Nat.id in Hc.
  by apply negb_true_iff, bool_decide_eq_false in Hc.
Qed.

Lemma length_sextets src : length (sextets src) = ((4 * String.length src + 2) / 3)%nat.
Proof.
  induction src as [| |a b|a b c rest IH] using string_ind3; try done.
  cbn [sextets length String.length]. rewrite IH.
  replace (4 * S (S (S (String.length rest))) + 2)%nat
    with (4 * String.length rest + 2 + 4 * 3)%nat by lia.
  rewrite Nat.div_add by done. lia.
Qed.

Lemma length_EncodeToString src :
  String.length (base64.EncodeToString alphabet src)
  = ((4 * String.length src + 2) / 3)%nat.
Proof.
  rewrite EncodeToString_sextets, <- length_sextets.
  induction (sextets src) as [|d ds IH]; simpl; [done|]. by rewrite IH.
Qed.
End Base64Facts.

Lemma encodeURL_ok : alphabet_ok base64.encodeURL = true.
Proof. by vm_compute. Qed.

Lemma bcrypt_alphabet_ok : alphabet_ok bcrypt.alphabet = true.
Proof. by vm_compute. Qed.

Lemma DecodeSegment_EncodeSegment seg : jwt.DecodeSegment (jwt.EncodeSegment seg) = Ok seg.
Proof. apply DecodeString_EncodeToString, encodeURL_ok. Qed.

Lemma EncodeSegment_no_dot seg : contains (jwt.EncodeSegment seg) "."%char = false.
Proof. apply EncodeToString_avoids. by vm_compute. Qed.

(** ** The token service *)

Section TokenFacts.
Context `{JSONCodec security.Claims} `{JSONCodec (gmap string json)} `{jwt.HMAC}.

Lemma Validate_spec now (c : security.Claims) :
  is_Ok (jwt.Validate now c) = unexpired now c && valid_already now c.
Proof.
  unfold jwt.Validate, jwt.verifyExpiresAt, jwt.verifyNotBefore, unexpired, valid_already,
    time.Before; simpl.
  destruct (jwt.ExpiresAt _) as [exp|], (jwt.NotBefore _) as [nbf|]; simpl;
    repeat case_bool_decide; simpl; try done; lia.
Qed.

(** [ValidateToken] returns the claims of exactly the accepted token
    strings, and an error for every other string. *)
Lemma ValidateToken_accepted s now tokenString :
  match security.ValidateToken s now tokenString with
  | Ok claims => accepted s now tokenString = Some claims
  | Err _ => accepted s now tokenString = None
  end.
Proof.
  unfold security.ValidateToken, jwt.ParseWithClaims, jwt.ParseUnverified, accepted,
    decode_token, hmac_family, header_method.
  destruct (strings.Split tokenString "."%char) as [|p0 [|p1 [|p2 [|? ?]]]]; try done.
  destruct (jwt.DecodeSegment p0) as [headerBytes|];
    [|by destruct (strings.HasPrefix _ _)].
  destruct (jwt.DecodeSegment p2) as [sig|] eqn:Hp2.
  - destruct (Unmarshal headerBytes) as [header|];
      [|by destruct (jwt.DecodeSegment p1)].
    destruct (jwt.DecodeSegment p1) as [claimBytes|]; [|done].
    destruct (Unmarshal claimBytes) as [claims|]; [|done].
    cbn [token_header token_claims token_signature token_signed].
    destruct (header !! "alg") as [[|?|?|alg|?|?]|]; try done.
    destruct (jwt.GetSigningMethod alg) as [m|]; [|done].
    cbn [nth]. rewrite Hp2. cbv zeta.
    destruct m as [n h| | | | |]; try done.
    cbn [security.keyFunc jwt.Method].
    cbn [jwt.Verify jwt.Method firstn strings.Join jwt.TokenClaims].
    case_bool_decide; [|done]. cbn [andb].
    pose proof (Validate_spec now claims) as Hv.
    destruct (jwt.Validate now claims); simpl in Hv; rewrite <- Hv; done.
  - destruct (Unmarshal headerBytes) as [header|];
      [|by destruct (jwt.DecodeSegment p1)].
    destruct (jwt.DecodeSegment p1) as [claimBytes|]; [|done].
    destruct (Unmarshal claimBytes) as [claims|]; [|done].
    destruct (header !! "alg") as [[|?|?|alg|?|?]|]; try done.
    destruct (jwt.GetSigningMethod alg) as [m|]; [|done].
    cbn [nth]. by rewrite Hp2.
Qed.

(** A token the parser returns without an error is marked valid. *)
Lemma ParseWithClaims_Valid now tokenString keyFunc (token : jwt.Token security.Claims) :
  jwt.ParseWithClaims now tokenString keyFunc = Ok token -> jwt.Valid token = true.
Proof.
  unfold jwt.ParseWithClaims.
  destruct (jwt.ParseUnverified tokenString) as [[t parts]|]; [|done].
  destruct (jwt.DecodeSegment _); [|done]. cbv zeta.
  destruct (keyFunc _); [|done].
  destruct (jwt.Verify _ _ _ _); [|done].
  destruct (jwt.Validate _ _); [|done].
  by intros [= <-].
Qed.

Lemma ValidateToken_Ok s now tokenString claims :
  security.ValidateToken s now tokenString = Ok claims <->
  accepted s now tokenString = Some claims.
Proof.
  pose proof (ValidateToken_accepted s now tokenString) as Hv.
  destruct (security.ValidateToken s now tokenString); split; congruence.
Qed.

Lemma ValidateToken_Err s now tokenString :
  accepted s now tokenString = None ->
  exists e, security.ValidateToken s now tokenString = Err e.
Proof.
  pose proof (ValidateToken_accepted s now tokenString) as Hv.
  destruct (security.ValidateToken s now tokenString); [congruence|eauto].
Qed.


(** A token string made of three encoded segments decodes to them. *)
Lemma decode_token_segments (header : gmap string json) (claims : security.Claims) sig :
  Unmarshal (Marshal header) = Some header ->
  Unmarshal (Marshal claims) = Some claims ->
  let sstr := jwt.EncodeSegment (Marshal header) ++ "." ++ jwt.EncodeSegment (Marshal claims) in
  decode_token (sstr ++ "." ++ jwt.EncodeSegment sig)
  = Some {| token_header := header; token_claims := claims;
            token_signature := sig; token_signed := sstr |}.
Proof.
  intros Hh Hc sstr. unfold decode_token, sstr.
  rewrite append_assoc.
  change ("." ++ ?x) with (String "."%char x).
  rewrite append_cons.
  rewrite !Split_app by apply EncodeSegment_no_dot.
  rewrite Split_no_sep by apply EncodeSegment_no_dot.
  rewrite !DecodeSegment_EncodeSegment, Hh, Hc. done.
Qed.



End TokenFacts.

Section TokenService.
Context `{JSONCodec security.Claims} `{JSONCodec (gmap string json)} `{jwt.HMAC}.


(** C5.  A token string that is malformed, or names a signing
    method outside the HMAC family, or carries a signature that is not the
    HMAC of its first two segments under the key of the service, or has
    expired, is rejected: [ValidateToken] returns no claims and an error,
    which is the error of the parser, unchanged. *)
Theorem C5_ValidateToken_rejects
    (s : security.JWTService) (now : time.Time) (tokenString : string) :
  decode_token tokenString = None \/
  (exists d, decode_token tokenString = Some d /\
     (hmac_family (token_header d) = None \/
      (exists h, hmac_family (token_header d) = Some h /\
         token_signature d <> jwt.hmac_Sum h (security.secretKey s) (token_signed d)) \/
      unexpired now (token_claims d) = false)) ->
  exists e,
    security.ValidateToken s now tokenString = Err e /\
    jwt.ParseWithClaims now tokenString (security.keyFunc s) = Err e.
Proof.
  intros Hcause.
  assert (accepted s now tokenString = None) as Hacc.
  { unfold accepted.
    destruct Hcause as [->|(d & -> & [->|[(h & -> & Hsig)|Hexp]])]; try done.
    - by rewrite bool_decide_eq_false_2.
    - destruct (hmac_family _); [|done]. rewrite Hexp.
      by rewrite andb_false_r. }
  destruct (ValidateToken_Err s now tokenString Hacc) as [e He].
  exists e. split; [done|].
  unfold security.ValidateToken in He.
  destruct (jwt.ParseWithClaims now tokenString (security.keyFunc s)) as [token|e'] eqn:Hp;
    [|congruence].
  by rewrite (ParseWithClaims_Valid _ _ _ _ Hp) in He.
Qed.
End TokenService.

(** ** The credential hasher *)

Lemma ReadFull_length entropy n buf :
  rand.ReadFull entropy n = Ok buf -> String.length buf = n.
Proof.
  unfold rand.ReadFull. destruct entropy as [supply|]; [|done].
  case_bool_decide; [done|]. intros [= <-]. rewrite length_take. lia.
Qed.

Lemma bcrypt_base64Decode_base64Encode src :
  String.length src = bcrypt.maxSaltSize ->
  bcrypt.base64Decode (bcrypt.base64Encode src) = Ok src.
Proof.
  intros Hlen. unfold bcrypt.base64Decode, bcrypt.base64Encode.
  rewrite EncodeToString_sextets, (digits_enc _ bcrypt_alphabet_ok) by apply sextets_lt.
  rewrite decodeQuanta_sextets, length_string_of_list_ascii, length_map, length_sextets, Hlen.
  done.
Qed.

Lemma length_bcrypt_base64Encode src :
  String.length src = bcrypt.maxSaltSize ->
  String.length (bcrypt.base64Encode src) = bcrypt.encodedSaltSize.
Proof.
  intros Hlen. unfold bcrypt.base64Encode.
  by rewrite length_EncodeToString, Hlen.
Qed.

Lemma Atoi2_Sprintf02d cost :
  bcrypt.MinCost <= cost <= bcrypt.MaxCost ->
  bcrypt.Atoi2 (bcrypt.Sprintf02d cost) = Ok cost.
Proof.
  intros Hcost.
  assert (forallb cost_text_ok (seqZ 4 28) = true) as Hall by (by vm_compute).
  rewrite forallb_forall in Hall.
  assert (In cost (seqZ 4 28)) as Hin.
  { apply list_elem_of_In, elem_of_seqZ. unfold bcrypt.MinCost, bcrypt.MaxCost in Hcost. lia. }
  specialize (Hall _ Hin). unfold cost_text_ok in Hall.
  destruct (bcrypt.Atoi2 _); [|done]. by apply bool_decide_eq_true in Hall as ->.
Qed.

(** The hash string of a [hashed] value with the version of the package, a
    cost in range and a salt of 22 bytes is read back as that value, its
    hash cut or filled to 31 bytes. *)
Lemma newFromHash_Hash (hash salt : string) (cost : Z) :
  bcrypt.MinCost <= cost <= bcrypt.MaxCost ->
  String.length salt = bcrypt.encodedSaltSize ->
  let hash31 := strings.take bcrypt.encodedHashSize
                  (hash ++ strings.Repeat "000"%char bcrypt.encodedHashSize) in
  bcrypt.newFromHash
    (bcrypt.Hash {| bcrypt.hash := hash; bcrypt.salt := salt; bcrypt.cost := cost;
                    bcrypt.major := bcrypt.majorVersion;
                    bcrypt.minor := bcrypt.minorVersion |})
  = Ok {| bcrypt.hash := hash31; bcrypt.salt := salt; bcrypt.cost := cost;
          bcrypt.major := bcrypt.majorVersion; bcrypt.minor := bcrypt.minorVersion |}.
Proof.
  intros Hcost Hsalt hash31.
  assert (String.length hash31 = bcrypt.encodedHashSize) as Hlen31.
  { unfold hash31. rewrite length_take, length_append, length_Repeat. lia. }
  pose proof (Atoi2_Sprintf02d cost Hcost) as Hatoi.
  unfold bcrypt.Hash. cbn [bcrypt.major bcrypt.minor bcrypt.cost bcrypt.salt bcrypt.hash].
  fold hash31. rewrite decide_False by done.
  unfold bcrypt.Sprintf02d in *.
  set (d1 := ascii_of_N (48 + Z.to_N (cost `div` 10))) in *.
  set (d2 := ascii_of_N (48 + Z.to_N (cost `mod` 10))) in *.
  repeat (rewrite append_cons || rewrite append_nil_l).
  unfold bcrypt.newFromHash.
  rewrite bool_decide_eq_false_2.
  2:{ rewrite !length_cons, length_append, Hsalt, Hlen31.
      unfold bcrypt.minHashSize, bcrypt.encodedSaltSize, bcrypt.encodedHashSize. lia. }
  cbn [bcrypt.decodeVersion].
  rewrite bool_decide_eq_true_2 by done. cbn [negb].
  rewrite bool_decide_eq_false_2 by (by vm_compute).
  rewrite bool_decide_eq_false_2 by done.
  cbn [strings.drop]. unfold bcrypt.decodeCost. cbn [strings.take].
  rewrite Hatoi. unfold bcrypt.checkCost.
  rewrite bool_decide_eq_false_2 by lia.
  cbn [strings.drop].
  by rewrite take_app_exact, drop_app_exact.
Qed.

Section CredentialHasher.
Context `{bcrypt.Blowfish}.

Lemma take31_idem (x : string) :
  let zeros := strings.Repeat "000"%char bcrypt.encodedHashSize in
  strings.take bcrypt.encodedHashSize
    (strings.take bcrypt.encodedHashSize (x ++ zeros) ++ zeros)
  = strings.take bcrypt.encodedHashSize (x ++ zeros).
Proof.
  intros zeros. apply take_app_exact.
  rewrite length_take, length_append. unfold zeros. rewrite length_Repeat. lia.
Qed.

(** Comparing a password with the hash string of a [hashed] value compares
    the 31 bytes of its hash with the digest of the password under the
    cost and the salt of the value. *)
Lemma CompareHashAndPassword_Hash (hash unencodedSalt : string) (cost : Z) password :
  bcrypt.MinCost <= cost <= bcrypt.MaxCost ->
  String.length unencodedSalt = bcrypt.maxSaltSize ->
  bcrypt.CompareHashAndPassword
    (bcrypt.Hash {| bcrypt.hash := hash; bcrypt.salt := bcrypt.base64Encode unencodedSalt;
                    bcrypt.cost := cost; bcrypt.major := bcrypt.majorVersion;
                    bcrypt.minor := bcrypt.minorVersion |})
    password
  = if bool_decide (bcrypt_digest cost unencodedSalt password
                    = strings.take bcrypt.encodedHashSize
                        (hash ++ strings.Repeat "000"%char bcrypt.encodedHashSize))
    then Ok tt else Err ErrMismatchedHashAndPassword.
Proof.
  intros Hcost Hsalt. unfold bcrypt.CompareHashAndPassword.
  rewrite newFromHash_Hash by (done || by apply length_bcrypt_base64Encode).
  cbn [bcrypt.cost bcrypt.salt bcrypt.major bcrypt.minor].
  unfold bcrypt.bcrypt. rewrite bcrypt_base64Decode_base64Encode by done.
  unfold bcrypt.Hash.
  cbn [bcrypt.cost bcrypt.salt bcrypt.major bcrypt.minor bcrypt.hash].
  rewrite take31_idem. fold (bcrypt_digest cost unencodedSalt password).
  match goal with
  | |- (if bool_decide ?A then _ else _) = (if bool_decide ?B then _ else _) =>
      rewrite (bool_decide_ext A B); [done|]
  end.
  split; [|by intros ->].
  intros Heq.
  repeat match goal with
         | Heq : String _ _ = String _ _ |- _ => injection Heq as Heq
         | Heq : _ ++ _ = _ ++ _ |- _ => apply (inj _) in Heq
         end.
  done.
Qed.

(** [Hash] on a password of at most 72 bytes, with entropy at hand. *)
Lemma Hash_Ok entropy unencodedSalt password :
  rand.ReadFull entropy bcrypt.maxSaltSize = Ok unencodedSalt ->
  (String.length password <= bcrypt.maxPasswordLength)%nat ->
  security.Hash security.NewPasswordService entropy password
  = Ok (bcrypt.Hash
          {| bcrypt.hash :=
               bcrypt.base64Encode
                 (bcrypt.eksblowfish bcrypt.DefaultCost unencodedSalt
                    (bcrypt.key_stream password));
             bcrypt.salt := bcrypt.base64Encode unencodedSalt;
             bcrypt.cost := bcrypt.DefaultCost; bcrypt.major := bcrypt.majorVersion;
             bcrypt.minor := bcrypt.minorVersion |}).
Proof.
  intros Hrand Hlen.
  unfold security.Hash, bcrypt.GenerateFromPassword, bcrypt.newFromPassword, bcrypt.bcrypt.
  rewrite bool_decide_eq_false_2 by lia.
  change (security.cost security.NewPasswordService) with bcrypt.DefaultCost.
  rewrite !(bool_decide_eq_false_2 (bcrypt.DefaultCost < bcrypt.MinCost))
    by (unfold bcrypt.DefaultCost, bcrypt.MinCost; lia).
  unfold bcrypt.checkCost.
  rewrite bool_decide_eq_false_2
    by (unfold bcrypt.DefaultCost, bcrypt.MinCost, bcrypt.MaxCost; lia).
  rewrite Hrand.
  by rewrite bcrypt_base64Decode_base64Encode by (by eapply ReadFull_length).
Qed.

(** Verifying a password against the hash of another compares their
    digests under the salt of the hash. *)
Lemma Verify_Hash entropy unencodedSalt p1 p2 :
  rand.ReadFull entropy bcrypt.maxSaltSize = Ok unencodedSalt ->
  (String.length p1 <= bcrypt.maxPasswordLength)%nat ->
  exists hashed,
    security.Hash security.NewPasswordService entropy p1 = Ok hashed /\
    security.Verify security.NewPasswordService hashed p2
    = if bool_decide (bcrypt_digest bcrypt.DefaultCost unencodedSalt p2
                      = bcrypt_digest bcrypt.DefaultCost unencodedSalt p1)
      then Ok tt else Err ErrMismatchedHashAndPassword.
Proof.
  intros Hrand Hlen. eexists. split; [by apply Hash_Ok|].
  unfold security.Verify.
  rewrite CompareHashAndPassword_Hash; [done|done|by eapply ReadFull_length].
Qed.

(** Of a password of 72 bytes or more, the key is the first 72 bytes. *)
Lemma key_stream_72 (p rest : string) :
  String.length p = 72%nat -> bcrypt.key_stream (p ++ rest) = p.
Proof.
  intros Hlen. unfold bcrypt.key_stream. cbn [bcrypt.cycle].
  rewrite !append_assoc. by apply take_app_exact.
Qed.

(** The hash of a password of 72 bytes verifies every password that starts
    with these 72 bytes. *)
Lemma Verify_beyond_72 entropy unencodedSalt (p rest : string) :
  rand.ReadFull entropy bcrypt.maxSaltSize = Ok unencodedSalt ->
  String.length p = 72%nat ->
  exists hashed,
    security.Hash security.NewPasswordService entropy p = Ok hashed /\
    security.Verify security.NewPasswordService hashed (p ++ rest) = Ok tt.
Proof.
  intros Hrand Hlen.
  destruct (Verify_Hash entropy unencodedSalt p (p ++ rest) Hrand) as (hashed & Hhash & Hv).
  { unfold bcrypt.maxPasswordLength. lia. }
  exists hashed. split; [done|]. rewrite Hv. unfold bcrypt_digest.
  pose proof (key_stream_72 p "" Hlen) as Hp. rewrite append_nil_r in Hp.
  by rewrite key_stream_72, Hp, bool_decide_eq_true_2.
Qed.

(** C6.  For a password [p1] of at most 72 bytes and entropy
    for a salt, [Hash] gives a hash that [Verify] accepts for [p1]; it
    accepts every password with the same 72 key bytes as [p1]; and it
    rejects a password [p2] with [ErrMismatchedHashAndPassword] whenever
    the digest of [p2] under the salt of the hash differs from that of
    [p1]. *)
Theorem C6_Verify_Hash (entropy : rand.Reader) (unencodedSalt p1 p2 : string) :
  rand.ReadFull entropy bcrypt.maxSaltSize = Ok unencodedSalt ->
  (String.length p1 <= bcrypt.maxPasswordLength)%nat ->
  exists hashed,
    security.Hash security.NewPasswordService entropy p1 = Ok hashed /\
    security.Verify security.NewPasswordService hashed p1 = Ok tt /\
    (bcrypt.key_stream p2 = bcrypt.key_stream p1 ->
     security.Verify security.NewPasswordService hashed p2 = Ok tt) /\
    (bcrypt_digest bcrypt.DefaultCost unencodedSalt p2
     <> bcrypt_digest bcrypt.DefaultCost unencodedSalt p1 ->
     security.Verify security.NewPasswordService hashed p2
     = Err ErrMismatchedHashAndPassword).
Proof.
  intros Hrand Hlen.
  destruct (Verify_Hash entropy unencodedSalt p1 p1 Hrand Hlen) as (hashed & Hhash & Hv1).
  destruct (Verify_Hash entropy unencodedSalt p1 p2 Hrand Hlen) as (hashed' & Hhash' & Hv2).
  assert (hashed' = hashed) as -> by congruence.
  exists hashed. split_and!; [done| | |].
  - by rewrite Hv1, bool_decide_eq_true_2.
  - intros Hkey. rewrite Hv2. unfold bcrypt_digest. by rewrite Hkey, bool_decide_eq_true_2.
  - intros Hne. by rewrite Hv2, bool_decide_eq_false_2.
Qed.

(** C7.  [Hash] fails exactly when the password is longer
    than 72 bytes, with [ErrPasswordTooLong], or the entropy source fails,
    with the error of the source; it succeeds on every other input, the
    empty password included. *)
Theorem C7_Hash_fails_only (entropy : rand.Reader) (password : string) :
  match security.Hash security.NewPasswordService entropy password with
  | Ok _ =>
      (String.length password <= bcrypt.maxPasswordLength)%nat /\
      is_Ok (rand.ReadFull entropy bcrypt.maxSaltSize) = true
  | Err e =>
      ((bcrypt.maxPasswordLength < String.length password)%nat /\ e = ErrPasswordTooLong) \/
      ((String.length password <= bcrypt.maxPasswordLength)%nat /\
       rand.ReadFull entropy bcrypt.maxSaltSize = Err e)
  end.
Proof.
  destruct (decide (bcrypt.maxPasswordLength < String.length password)%nat) as [Hlong|Hshort].
  - unfold security.Hash, bcrypt.GenerateFromPassword.
    rewrite bool_decide_eq_true_2 by done. by left.
  - destruct (rand.ReadFull entropy bcrypt.maxSaltSize) as [unencodedSalt|e] eqn:Hrand.
    + rewrite (Hash_Ok _ _ _ Hrand) by lia. split; [lia|done].
    + unfold security.Hash, bcrypt.GenerateFromPassword, bcrypt.newFromPassword.
      rewrite bool_decide_eq_false_2 by done.
      change (security.cost security.NewPasswordService) with bcrypt.DefaultCost.
      rewrite !(bool_decide_eq_false_2 (bcrypt.DefaultCost < bcrypt.MinCost))
        by (unfold bcrypt.DefaultCost, bcrypt.MinCost; lia).
      unfold bcrypt.checkCost.
      rewrite bool_decide_eq_false_2
        by (unfold bcrypt.DefaultCost, bcrypt.MinCost, bcrypt.MaxCost; lia).
      rewrite Hrand. right. split; [lia|done].
Qed.
End CredentialHasher.

(** ** The authorization gate *)

Lemma bearer_token_Some authHeader token :
  bearer_token authHeader = Some token <->
  strings.Split authHeader " "%char = ["Bearer"; token].
Proof.
  unfold bearer_token.
  destruct (strings.Split authHeader " "%char) as [|scheme [|token' [|? ?]]];
    try (split; congruence).
  case_decide; split; intros; simplify_eq; done.
Qed.

Lemma bearer_token_empty : bearer_token "" = None.
Proof. done. Qed.

Section Gate.
Context {R : Type} `{domain.UserRepository R} `{bcrypt.Blowfish}
  `{JSONCodec security.Claims} `{JSONCodec (gmap string json)} `{jwt.HMAC}
  `{JSONCodec usecase.RegisterRequest.t} `{JSONCodec usecase.LoginRequest.t}
  `{time.Text} `{domain.ErrorText}.

(** The gate, by the shape of the header. *)
Lemma AuthMiddleware_spec (jwtService : security.JWTService) (next : http.HandlerFunc)
    (w : http.ResponseWriter) (r : http.Request) (world : World R) :
  let authHeader := http.Header_Get (http.ReqHeader r) "Authorization" in
  http.AuthMiddleware jwtService next w r world =
  match bearer_token authHeader with
  | None =>
      (http.respondWithError w http.StatusUnauthorized
         (if bool_decide (authHeader = "") then "Missing authorization header"
          else "Invalid authorization header format"), world)
  | Some token =>
      let world' := called (CallValidateToken token) world in
      match security.ValidateToken jwtService (now world) token with
      | Err _ =>
          (http.respondWithError w http.StatusUnauthorized "Invalid or expired token",
           world')
      | Ok claims =>
          next w
            (http.WithContext r
               (http.WithValue
                  (http.WithValue (http.Ctx r) http.contextKeyUserID
                     (http.Int64 (security.UserID claims)))
                  http.contextKeyEmail (http.Str (security.Email claims))))
            world'
      end
  end.
Proof.
  intros authHeader. unfold http.AuthMiddleware. fold authHeader.
  case_bool_decide as Hempty.
  { rewrite Hempty. done. }
  unfold bearer_token.
  destruct (strings.Split authHeader " "%char) as [|scheme [|token [|? ?]]]; try done.
  cbn [length nth]. rewrite bool_decide_eq_false_2 by (intros Hne; by apply Hne).
  cbn [orb].
  case_decide as Hscheme.
  - rewrite bool_decide_eq_true_2 by done. done.
  - rewrite bool_decide_eq_false_2 by done. done.
Qed.

(** C8.  The gate hands a token to the token service exactly when the
    Authorization header splits on spaces into the word Bearer and one
    more part, which is the token it hands over; the outcome of the
    validation then decides between a 401 and the next handler.  A header
    of any other shape, an absent header included, is answered with 401
    and the world left as it was: no call to the token service is made. *)
Theorem C8_gate_delegates (jwtService : security.JWTService) (next : http.HandlerFunc)
    (w : http.ResponseWriter) (r : http.Request) (world : World R) :
  let authHeader := http.Header_Get (http.ReqHeader r) "Authorization" in
  (forall token,
     strings.Split authHeader " "%char = ["Bearer"; token] ->
     authHeader <> "" /\
     http.AuthMiddleware jwtService next w r world =
     match security.ValidateToken jwtService (now world) token with
     | Err _ =>
         (http.respondWithError w http.StatusUnauthorized "Invalid or expired token",
          called (CallValidateToken token) world)
     | Ok claims =>
         next w
           (http.WithContext r
              (http.WithValue
                 (http.WithValue (http.Ctx r) http.contextKeyUserID
                    (http.Int64 (security.UserID claims)))
                 http.contextKeyEmail (http.Str (security.Email claims))))
           (called (CallValidateToken token) world)
     end) /\
  ((authHeader = "" \/
    forall token, strings.Split authHeader " "%char <> ["Bearer"; token]) ->
   exists message,
     http.AuthMiddleware jwtService next w r world =
     (http.respondWithError w http.StatusUnauthorized message, world)).
Proof.
  intros authHeader. pose proof (AuthMiddleware_spec jwtService next w r world) as Hspec.
  fold authHeader in Hspec. cbv zeta in Hspec. split.
  - intros token Hsplit. split; [by intros Hempty; rewrite Hempty in Hsplit|].
    apply bearer_token_Some in Hsplit. by rewrite Hsplit in Hspec.
  - intros Hshape.
    assert (bearer_token authHeader = None) as Hnone.
    { destruct Hshape as [->|Hshape]; [done|].
      destruct (bearer_token authHeader) as [token|] eqn:Htoken; [|done].
      apply bearer_token_Some in Htoken. by destruct (Hshape token). }
    rewrite Hnone in Hspec. eexists. exact Hspec.
Qed.

Lemma Written_respondWithError (w : http.ResponseWriter) (code : Z) (message : string) :
  http.Written (http.respondWithError w code message)
  = (http.Written w ++ [JObject [("error", JString message)]])%list.
Proof. done. Qed.

Lemma gate_message_inj c1 c2 : gate_message c1 = gate_message c2 -> c1 = c2.
Proof. by destruct c1, c2. Qed.

(** The response of the gate to a request of a failure class. *)
Lemma AuthMiddleware_rejects (jwtService : security.JWTService) (next : http.HandlerFunc)
    (w : http.ResponseWriter) (r : http.Request) (world : World R) (c : FailureClass) :
  failure_class jwtService (now world)
    (http.Header_Get (http.ReqHeader r) "Authorization") = Some c ->
  fst (http.AuthMiddleware jwtService next w r world)
  = http.respondWithError w http.StatusUnauthorized (gate_message c).
Proof.
  rewrite AuthMiddleware_spec. cbv zeta. unfold failure_class.
  case_bool_decide as Hempty.
  - rewrite Hempty, bearer_token_empty. by intros [= <-].
  - destruct (bearer_token _) as [token|]; [|by intros [= <-]].
    destruct (security.ValidateToken _ _ _); [done|]. by intros [= <-].
Qed.

(** C1.  A request the gate rejects is answered with 401 and the message of
    its failure class, and with nothing else of the request: two requests
    rejected for the same cause get identical responses (so the response to
    an invalid or expired token does not tell what was wrong with the
    token), and two requests rejected for different causes get different
    bodies. *)
Theorem C1_gate_same_class_same_body (jwtService : security.JWTService)
    (next1 next2 : http.HandlerFunc) (w : http.ResponseWriter) (r1 r2 : http.Request)
    (world1 world2 : World R) (c1 c2 : FailureClass) :
  failure_class jwtService (now world1)
    (http.Header_Get (http.ReqHeader r1) "Authorization") = Some c1 ->
  failure_class jwtService (now world2)
    (http.Header_Get (http.ReqHeader r2) "Authorization") = Some c2 ->
  let response1 := fst (http.AuthMiddleware jwtService next1 w r1 world1) in
  let response2 := fst (http.AuthMiddleware jwtService next2 w r2 world2) in
  response1 = http.respondWithError w http.StatusUnauthorized (gate_message c1) /\
  response2 = http.respondWithError w http.StatusUnauthorized (gate_message c2) /\
  (c1 = c2 -> response1 = response2) /\
  (c1 <> c2 -> http.Written response1 <> http.Written response2).
Proof.
  intros Hc1 Hc2 response1 response2.
  pose proof (AuthMiddleware_rejects jwtService next1 w r1 world1 c1 Hc1) as Hr1.
  pose proof (AuthMiddleware_rejects jwtService next2 w r2 world2 c2 Hc2) as Hr2.
  fold response1 in Hr1. fold response2 in Hr2.
  split_and!; [done|done| |].
  - intros <-. by rewrite Hr1, Hr2.
  - intros Hne. rewrite Hr1, Hr2, !Written_respondWithError.
    intros Heq. apply app_inv_head in Heq. injection Heq as Heq.
    by apply gate_message_inj in Heq.
Qed.
End Gate.

(** ** The authentication workflow *)

Section Workflow.
Context {R : Type} `{domain.UserRepository R} `{bcrypt.Blowfish}
  `{JSONCodec security.Claims} `{JSONCodec (gmap string json)} `{jwt.HMAC}
  `{JSONCodec usecase.RegisterRequest.t} `{JSONCodec usecase.LoginRequest.t}
  `{time.Text} `{domain.ErrorText}.

(** [Login] gives [ErrInvalidCredentials] when the store has no user for
    the email. *)
Lemma Login_unknown_email (uc : usecase.AuthUseCase) (req : usecase.LoginRequest.t)
    (w : World R) (r : R) :
  domain.FindByEmail (repo w) (usecase.LoginRequest.Email req) = (Err ErrUserNotFound, r) ->
  fst (usecase.Login uc req w) = Err ErrInvalidCredentials.
Proof.
  intros Hfind. unfold usecase.Login.
  destruct (_ || _); [done|]. cbn [repo called]. by rewrite Hfind.
Qed.

(** [Login] gives [ErrInvalidCredentials] when the password does not
    verify against the hash of the user found. *)
Lemma Login_wrong_password (uc : usecase.AuthUseCase) (req : usecase.LoginRequest.t)
    (w : World R) (r : R) (user : domain.User) (e : error) :
  domain.FindByEmail (repo w) (usecase.LoginRequest.Email req) = (Ok user, r) ->
  security.Verify (usecase.passwordService uc) (domain.PasswordHash user)
    (usecase.LoginRequest.Password req) = Err e ->
  fst (usecase.Login uc req w) = Err ErrInvalidCredentials.
Proof.
  intros Hfind Hverify. unfold usecase.Login.
  destruct (_ || _); [done|]. cbn [repo called]. rewrite Hfind. by rewrite Hverify.
Qed.

(** The login handler answers [ErrInvalidCredentials] with 401 and one
    message. *)
Lemma Login_handler_invalid (h : http.Handler) (rw : http.ResponseWriter)
    (r : http.Request) (req : usecase.LoginRequest.t) (w : World R) :
  http.Method r = http.MethodPost ->
  Unmarshal (http.Body r) = Some req ->
  fst (usecase.Login (http.authUseCase h) req w) = Err ErrInvalidCredentials ->
  fst (http.Login h rw r w)
  = http.respondWithError rw http.StatusUnauthorized "Invalid email or password".
Proof.
  intros Hmethod Hbody Hlogin. unfold http.Login.
  rewrite bool_decide_eq_true_2 by done. cbn [negb]. rewrite Hbody.
  destruct (usecase.Login _ _ _) as [resp w']. simpl in Hlogin. by rewrite Hlogin.
Qed.

(** C2.  [Login] with an email the store has no user for returns
    [ErrInvalidCredentials], and so does [Login] with the email of a stored
    user and a password that does not verify against the stored hash; the
    login handler answers both with the same response, 401 and "Invalid
    email or password". *)
Theorem C2_unknown_email_as_wrong_password (h : http.Handler)
    (rw : http.ResponseWriter) (r1 r2 : http.Request)
    (req1 req2 : usecase.LoginRequest.t) (w1 w2 : World R)
    (repo1 repo2 : R) (user : domain.User) (e : error) :
  domain.FindByEmail (repo w1) (usecase.LoginRequest.Email req1)
  = (Err ErrUserNotFound, repo1) ->
  domain.FindByEmail (repo w2) (usecase.LoginRequest.Email req2) = (Ok user, repo2) ->
  security.Verify (usecase.passwordService (http.authUseCase h))
    (domain.PasswordHash user) (usecase.LoginRequest.Password req2) = Err e ->
  http.Method r1 = http.MethodPost -> Unmarshal (http.Body r1) = Some req1 ->
  http.Method r2 = http.MethodPost -> Unmarshal (http.Body r2) = Some req2 ->
  fst (usecase.Login (http.authUseCase h) req1 w1) = Err ErrInvalidCredentials /\
  fst (usecase.Login (http.authUseCase h) req2 w2) = Err ErrInvalidCredentials /\
  fst (http.Login h rw r1 w1)
  = http.respondWithError rw http.StatusUnauthorized "Invalid email or password" /\
  fst (http.Login h rw r2 w2) = fst (http.Login h rw r1 w1).
Proof.
  intros Hunknown Hfound Hverify Hm1 Hb1 Hm2 Hb2.
  pose proof (Login_unknown_email (http.authUseCase h) _ _ _ Hunknown) as Hl1.
  pose proof (Login_wrong_password (http.authUseCase h) _ _ _ _ _ Hfound Hverify) as Hl2.
  split_and!; [done|done| |].
  - by apply Login_handler_invalid with req1.
  - rewrite (Login_handler_invalid h rw r1 req1 w1), (Login_handler_invalid h rw r2 req2 w2);
      done.
Qed.

End Workflow.

(** Over the SQLite repository, the store has no user for an email when
    the SELECT by email finds no row. *)
Lemma Login_no_row {D : Type} `{repository.DB D} `{domain.ErrorText} `{bcrypt.Blowfish}
    `{JSONCodec security.Claims} `{JSONCodec (gmap string json)} `{jwt.HMAC}
    (uc : usecase.AuthUseCase)
    (req : usecase.LoginRequest.t) (w : World (repository.SQLiteUserRepository D)) :
  repository.QueryRowByEmail (repository.db (repo w)) (usecase.LoginRequest.Email req)
  = Err sql_ErrNoRows ->
  fst (usecase.Login uc req w) = Err ErrInvalidCredentials.
Proof.
  intros Hrow. apply Login_unknown_email with (repo w).
  cbn [domain.FindByEmail repository.SQLiteUserRepository_UserRepository].
  unfold repository.FindByEmail. by rewrite Hrow.
Qed.

(** ** The responses *)

Section Responses.
Context {R : Type} `{domain.UserRepository R} `{bcrypt.Blowfish}
  `{JSONCodec security.Claims} `{JSONCodec (gmap string json)} `{jwt.HMAC}
  `{JSONCodec usecase.RegisterRequest.t} `{JSONCodec usecase.LoginRequest.t}
  `{time.Text} `{domain.ErrorText}.

(** The document of an [AuthResponse] is a function of the token and of
    the identity of the user. *)
Lemma AuthResponse_toJSON_same_identity (a1 a2 : usecase.AuthResponse) :
  usecase.Token a1 = usecase.Token a2 ->
  same_identity (usecase.User a1) (usecase.User a2) ->
  toJSON a1 = toJSON a2.
Proof.
  intros Htoken (Hid & Hemail & Hcreated & Hupdated).
  unfold toJSON, http.AuthResponse_ToJSON, toJSON, http.User_ToJSON.
  by rewrite Htoken, Hid, Hemail, Hcreated, Hupdated.
Qed.

(** The token of a successful [Register] is the one issued for the id and
    the email of the user. *)
Lemma Register_token (uc : usecase.AuthUseCase) (req : usecase.RegisterRequest.t)
    (w w' : World R) (resp : usecase.AuthResponse) :
  usecase.Register uc req w = (Ok resp, w') ->
  security.GenerateToken (usecase.jwtService uc) (now w)
    (domain.ID (usecase.User resp)) (domain.Email (usecase.User resp))
  = Ok (usecase.Token resp).
Proof.
  unfold usecase.Register. destruct (_ || _); [done|].
  destruct (security.Hash _ _ _) as [hashed|]; [|done].
  cbn [repo called now]. destruct (domain.Create _ _ _ _) as [[user|] r]; [|done].
  cbn [now with_repo called].
  destruct (security.GenerateToken _ _ _ _) as [token|] eqn:Htoken; [|done].
  by intros [= <- _].
Qed.

Lemma Login_token (uc : usecase.AuthUseCase) (req : usecase.LoginRequest.t)
    (w w' : World R) (resp : usecase.AuthResponse) :
  usecase.Login uc req w = (Ok resp, w') ->
  security.GenerateToken (usecase.jwtService uc) (now w)
    (domain.ID (usecase.User resp)) (domain.Email (usecase.User resp))
  = Ok (usecase.Token resp).
Proof.
  unfold usecase.Login. destruct (_ || _); [done|].
  cbn [repo called now]. destruct (domain.FindByEmail _ _) as [[user|e] r].
  2:{ by destruct e. }
  destruct (security.Verify _ _ _); [|done].
  cbn [now with_repo called].
  destruct (security.GenerateToken _ _ _ _) as [token|] eqn:Htoken; [|done].
  by intros [= <- _].
Qed.

(** Two successful responses of the workflow for users of the same
    identity, at the same instant, are the same response. *)
Lemma same_identity_same_response (uc : usecase.AuthUseCase) (t1 t2 : time.Time)
    (resp1 resp2 : usecase.AuthResponse) :
  t1 = t2 ->
  security.GenerateToken (usecase.jwtService uc) t1
    (domain.ID (usecase.User resp1)) (domain.Email (usecase.User resp1))
  = Ok (usecase.Token resp1) ->
  security.GenerateToken (usecase.jwtService uc) t2
    (domain.ID (usecase.User resp2)) (domain.Email (usecase.User resp2))
  = Ok (usecase.Token resp2) ->
  same_identity (usecase.User resp1) (usecase.User resp2) ->
  toJSON resp1 = toJSON resp2.
Proof.
  intros -> Ht1 Ht2 Hsame. apply AuthResponse_toJSON_same_identity; [|done].
  destruct Hsame as (Hid & Hemail & _). rewrite Hid, Hemail in Ht1. congruence.
Qed.

(** C9.  The bodies of the successful responses have no member for the
    password hash: the document of a register or login response has the
    members token, user, id, email, created_at and updated_at, that of a
    response of GET /me has id, email and created_at; and two runs of a
    handler that succeed at the same instant for users that differ only
    in their password hash write identical responses. *)
Theorem C9_password_hash_not_in_responses :
  (forall a : usecase.AuthResponse,
     member_names (toJSON a)
     = ["token"; "user"; "id"; "email"; "created_at"; "updated_at"]) /\
  (forall u : http.UserResponse, member_names (toJSON u) = ["id"; "email"; "created_at"]) /\
  (forall (h : http.Handler) rw r req (w1 w2 w1' w2' : World R) resp1 resp2,
     http.Method r = http.MethodPost -> Unmarshal (http.Body r) = Some req ->
     now w1 = now w2 ->
     usecase.Register (http.authUseCase h) req w1 = (Ok resp1, w1') ->
     usecase.Register (http.authUseCase h) req w2 = (Ok resp2, w2') ->
     same_identity (usecase.User resp1) (usecase.User resp2) ->
     fst (http.Register h rw r w1) = http.respondWithJSON rw http.StatusCreated resp1 /\
     fst (http.Register h rw r w2) = fst (http.Register h rw r w1)) /\
  (forall (h : http.Handler) rw r req (w1 w2 w1' w2' : World R) resp1 resp2,
     http.Method r = http.MethodPost -> Unmarshal (http.Body r) = Some req ->
     now w1 = now w2 ->
     usecase.Login (http.authUseCase h) req w1 = (Ok resp1, w1') ->
     usecase.Login (http.authUseCase h) req w2 = (Ok resp2, w2') ->
     same_identity (usecase.User resp1) (usecase.User resp2) ->
     fst (http.Login h rw r w1) = http.respondWithJSON rw http.StatusOK resp1 /\
     fst (http.Login h rw r w2) = fst (http.Login h rw r w1)) /\
  (forall (h : http.Handler) rw r userID (w1 w2 w1' w2' : World R) user1 user2,
     http.Method r = http.MethodGet ->
     http.Value (http.Ctx r) http.contextKeyUserID = Some (http.Int64 userID) ->
     usecase.GetUserByID (http.authUseCase h) userID w1 = (Ok user1, w1') ->
     usecase.GetUserByID (http.authUseCase h) userID w2 = (Ok user2, w2') ->
     same_identity user1 user2 ->
     fst (http.Me h rw r w1)
     = http.respondWithJSON rw http.StatusOK
         {| http.ID := domain.ID user1; http.Email := domain.Email user1;
            http.CreatedAt := time.Format (domain.CreatedAt user1) "2006-01-02T15:04:05Z" |} /\
     fst (http.Me h rw r w2) = fst (http.Me h rw r w1)).
Proof.
  split_and!; [done|done| | |].
  - intros h rw r req w1 w2 w1' w2' resp1 resp2 Hm Hb Hnow Hr1 Hr2 Hsame.
    unfold http.Register. rewrite bool_decide_eq_true_2 by done. cbn [negb].
    rewrite Hb, Hr1, Hr2. cbn [fst]. split; [done|].
    unfold http.respondWithJSON.
    by rewrite (same_identity_same_response (http.authUseCase h) (now w1) (now w2)
                  resp1 resp2 Hnow (Register_token _ _ _ _ _ Hr1)
                  (Register_token _ _ _ _ _ Hr2) Hsame).
  - intros h rw r req w1 w2 w1' w2' resp1 resp2 Hm Hb Hnow Hr1 Hr2 Hsame.
    unfold http.Login. rewrite bool_decide_eq_true_2 by done. cbn [negb].
    rewrite Hb, Hr1, Hr2. cbn [fst]. split; [done|].
    unfold http.respondWithJSON.
    by rewrite (same_identity_same_response (http.authUseCase h) (now w1) (now w2)
                  resp1 resp2 Hnow (Login_token _ _ _ _ _ Hr1)
                  (Login_token _ _ _ _ _ Hr2) Hsame).
  - intros h rw r userID w1 w2 w1' w2' user1 user2 Hm Hv Hr1 Hr2
      (Hid & Hemail & Hcreated & _).
    unfold http.Me. rewrite bool_decide_eq_true_2 by done. cbn [negb].
    rewrite Hv, Hr1, Hr2. cbn [fst]. split; [done|].
    by rewrite Hid, Hemail, Hcreated.
Qed.
End Responses.

Section IssuerClaim.
Context `{JSONCodec security.Claims} `{JSONCodec (gmap string json)} `{jwt.HMAC}.

(** C10.  [GenerateToken] stamps the issuer of the service
    into the claims, and [ValidateToken] does not look at it: a
    well-formed token string whose header names a method of the HMAC
    family, whose signature is the HMAC of its first two segments under
    the key of the service, which has not expired and whose not-before
    time, if it has one, has come, is validated, whatever its issuer
    claim is. *)
Theorem C10_issuer_not_inspected (s : security.JWTService) :
  (forall now userID email,
     jwt.Issuer (security.RegisteredClaims (security.newClaims s now userID email))
     = security.issuer s) /\
  (forall now tokenString d h,
     decode_token tokenString = Some d ->
     hmac_family (token_header d) = Some h ->
     token_signature d = jwt.hmac_Sum h (security.secretKey s) (token_signed d) ->
     unexpired now (token_claims d) = true ->
     valid_already now (token_claims d) = true ->
     security.ValidateToken s now tokenString = Ok (token_claims d)).
Proof.
  split; [done|].
  intros now tokenString d h Hd Hh Hsig Hexp Hnbf.
  apply ValidateToken_Ok. unfold accepted.
  by rewrite Hd, Hh, Hexp, Hnbf, bool_decide_eq_true_2.
Qed.
End IssuerClaim.

(** * Further properties of the code *)

(** ** The token service: what it issues and what it reports *)

Lemma EncodeSegment_no_space seg : contains (jwt.EncodeSegment seg) " "%char = false.
Proof. apply EncodeToString_avoids. by vm_compute. Qed.

Section TokenReports.
Context `{JSONCodec security.Claims} `{JSONCodec (gmap string json)} `{jwt.HMAC}.

Lemma Validate_time_errors now (c : security.Claims) :
  jwt.Validate now c
  = match time_errors now c with
    | [] => Ok tt
    | errs => Err (jwt_joinErrors errs)
    end.
Proof.
  unfold jwt.Validate, jwt.verifyExpiresAt, jwt.verifyNotBefore, time_errors, unexpired,
    valid_already, time.Before; simpl.
  destruct (jwt.ExpiresAt _) as [exp|], (jwt.NotBefore _) as [nbf|]; simpl;
    repeat case_bool_decide; simpl; try done; lia.
Qed.

(** [ValidateToken] on a token string whose three segments decode. *)
Lemma ValidateToken_decoded s now tokenString d m :
  decode_token tokenString = Some d ->
  header_method (token_header d) = Some m ->
  security.ValidateToken s now tokenString
  = match m with
    | jwt.SigningMethodHMAC _ h =>
        if bool_decide (token_signature d
                        = jwt.hmac_Sum h (security.secretKey s) (token_signed d))
        then match time_errors now (token_claims d) with
             | [] => Ok (token_claims d)
             | errs => Err (jwt_newError "" ErrTokenInvalidClaims [jwt_joinErrors errs])
             end
        else Err (jwt_newError "" ErrTokenSignatureInvalid [ErrSignatureInvalid])
    | _ =>
        Err (jwt_newError "error while executing keyfunc" ErrTokenUnverifiable
               [errors_New "unexpected signing method"])
    end.
Proof.
  unfold security.ValidateToken, jwt.ParseWithClaims, jwt.ParseUnverified, decode_token,
    header_method.
  destruct (strings.Split tokenString "."%char) as [|p0 [|p1 [|p2 [|? ?]]]]; try done.
  destruct (jwt.DecodeSegment p0) as [headerBytes|]; [|done].
  destruct (jwt.DecodeSegment p1) as [claimBytes|]; [|done].
  destruct (jwt.DecodeSegment p2) as [sig|] eqn:Hp2; [|done].
  destruct (Unmarshal headerBytes) as [header|]; [|done].
  destruct (Unmarshal claimBytes) as [claims|]; [|done].
  intros [= <-]. cbn [token_header token_claims token_signature token_signed].
  destruct (header !! "alg") as [[|?|?|alg|?|?]|]; try done.
  intros ->. cbn [nth]. rewrite Hp2. cbv zeta.
  destruct m as [n h| | | | |]; try done.
  cbn [security.keyFunc jwt.Method].
  cbn [jwt.Verify jwt.Method firstn strings.Join jwt.TokenClaims].
  case_bool_decide; [|done].
  rewrite Validate_time_errors. by destruct (time_errors now claims).
Qed.

(** X1.  Every token [GenerateToken] issues is three base64url segments
    joined by dots: the header, the claims, and the HMAC-SHA256 of the first
    two under the key of the service.  It has no space in it, so the header
    value "Bearer " followed by the token has the shape the gate asks for.
    [GenerateToken] does not fail. *)
Theorem GenerateToken_segments
    (s : security.JWTService) (now : time.Time) (userID : Z) (email : string) :
  let p0 := jwt.EncodeSegment (Marshal (jwt.newHeader jwt.SigningMethodHS256)) in
  let p1 := jwt.EncodeSegment (Marshal (security.newClaims s now userID email)) in
  let p2 :=
    jwt.EncodeSegment (jwt.hmac_Sum jwt.SHA256 (security.secretKey s) (p0 ++ "." ++ p1)) in
  exists tokenString,
    security.GenerateToken s now userID email = Ok tokenString /\
    strings.Split tokenString "."%char = [p0; p1; p2] /\
    contains tokenString " "%char = false /\
    bearer_token ("Bearer " ++ tokenString) = Some tokenString.
Proof.
  intros p0 p1 p2. exists (p0 ++ "." ++ p1 ++ "." ++ p2).
  assert (contains (p0 ++ "." ++ p1 ++ "." ++ p2) " "%char = false) as Hspace.
  { rewrite !contains_app. unfold p0, p1, p2. by rewrite !EncodeSegment_no_space. }
  split_and!.
  - unfold security.GenerateToken, jwt.SignedString, jwt.SigningString.
    cbn [jwt.NewWithClaims jwt.Method jwt.Header jwt.TokenClaims jwt.Sign
           jwt.SigningMethodHS256].
    fold p0 p1. by rewrite !append_assoc.
  - change ("." ++ p2) with (String "."%char p2).
    change ("." ++ ?x) with (String "."%char x).
    rewrite !Split_app by apply EncodeSegment_no_dot.
    by rewrite Split_no_sep by apply EncodeSegment_no_dot.
  - done.
  - apply bearer_token_Some, Split_Bearer. done.
Qed.

(** The token string [GenerateToken] issues, decoded. *)
Lemma GenerateToken_decoded s now userID email tokenString :
  let claims := security.newClaims s now userID email in
  Unmarshal (Marshal (jwt.newHeader jwt.SigningMethodHS256))
  = Some (jwt.newHeader jwt.SigningMethodHS256) ->
  Unmarshal (Marshal claims) = Some claims ->
  security.GenerateToken s now userID email = Ok tokenString ->
  exists d,
    decode_token tokenString = Some d /\
    header_method (token_header d) = Some jwt.SigningMethodHS256 /\
    token_claims d = claims /\
    token_signature d = jwt.hmac_Sum jwt.SHA256 (security.secretKey s) (token_signed d) /\
    token_signed d = jwt.SigningString (jwt.NewWithClaims jwt.SigningMethodHS256 claims).
Proof.
  intros claims Hh Hc.
  unfold security.GenerateToken, jwt.SignedString. fold claims.
  cbn [jwt.NewWithClaims jwt.Method jwt.Sign jwt.SigningMethodHS256].
  intros [= <-]. eexists. split.
  - unfold jwt.SigningString. cbn [jwt.Header jwt.TokenClaims].
    by apply decode_token_segments.
  - cbn [token_header token_claims token_signature token_signed]. split_and!; try done.
Qed.

(** X2.  On a token string that decodes and names a method of the HMAC
    family, [ValidateToken] checks the signature before the times: a
    signature that is not the HMAC under the key of the service gives
    [ErrTokenSignatureInvalid] whether or not the token has expired; with
    the right signature the result is the claims, or
    [ErrTokenInvalidClaims] around the time errors found. *)
Theorem ValidateToken_signature_before_times
    (s : security.JWTService) (now : time.Time) (tokenString : string)
    (d : Decoded) (h : jwt.crypto_Hash) :
  decode_token tokenString = Some d ->
  hmac_family (token_header d) = Some h ->
  security.ValidateToken s now tokenString
  = if bool_decide (token_signature d
                    = jwt.hmac_Sum h (security.secretKey s) (token_signed d))
    then match time_errors now (token_claims d) with
         | [] => Ok (token_claims d)
         | errs => Err (jwt_newError "" ErrTokenInvalidClaims [jwt_joinErrors errs])
         end
    else Err (jwt_newError "" ErrTokenSignatureInvalid [ErrSignatureInvalid]).
Proof.
  intros Hd Hh. unfold hmac_family in Hh.
  destruct (header_method (token_header d)) as [m|] eqn:Hm; [|done].
  rewrite (ValidateToken_decoded s now tokenString d m Hd Hm).
  destruct m; by simplify_eq.
Qed.

(** X3.  A token string that decodes and names a registered signing
    method outside the HMAC family ("none", RS256, ES256, ...) is refused
    by the key function of [ValidateToken]: the error is
    [ErrTokenUnverifiable] around "unexpected signing method", whatever the
    signature and the times of the token are. *)
Theorem ValidateToken_unexpected_method
    (s : security.JWTService) (now : time.Time) (tokenString : string)
    (d : Decoded) (m : jwt.SigningMethod) :
  decode_token tokenString = Some d ->
  header_method (token_header d) = Some m ->
  hmac_family (token_header d) = None ->
  security.ValidateToken s now tokenString
  = Err (jwt_newError "error while executing keyfunc" ErrTokenUnverifiable
           [errors_New "unexpected signing method"]).
Proof.
  intros Hd Hm Hh. unfold hmac_family in Hh. rewrite Hm in Hh.
  rewrite (ValidateToken_decoded s now tokenString d m Hd Hm).
  by destruct m.
Qed.

(** X4.  Every error [ValidateToken] returns is an error of the parser
    around one of its four sentinels ([ErrTokenMalformed],
    [ErrTokenUnverifiable], [ErrTokenSignatureInvalid],
    [ErrTokenInvalidClaims]); the error "invalid token" of its last line
    is never returned. *)
Theorem ValidateToken_error_kinds
    (s : security.JWTService) (now : time.Time) (tokenString : string) (e : error) :
  security.ValidateToken s now tokenString = Err e ->
  (exists k, token_error_kind e = Some k) /\ e <> errors_New "invalid token".
Proof.
  intros He.
  assert (exists k, token_error_kind e = Some k) as [k Hk]; [|split; [eauto|by intros ->]].
  revert He. unfold security.ValidateToken.
  destruct (jwt.ParseWithClaims now tokenString (security.keyFunc s)) as [token|e'] eqn:Hp.
  { by rewrite (ParseWithClaims_Valid _ _ _ _ Hp). }
  intros [= <-]. revert Hp. unfold jwt.ParseWithClaims, jwt.ParseUnverified.
  destruct (strings.Split tokenString "."%char) as [|p0 [|p1 [|p2 [|? ?]]]];
    try (intros [= <-]; by eauto).
  destruct (jwt.DecodeSegment p0) as [headerBytes|];
    [|destruct (strings.HasPrefix _ _); intros [= <-]; by eauto].
  destruct (Unmarshal headerBytes) as [header|]; [|intros [= <-]; by eauto].
  destruct (jwt.DecodeSegment p1) as [claimBytes|]; [|intros [= <-]; by eauto].
  destruct (Unmarshal claimBytes) as [claims|]; [|intros [= <-]; by eauto].
  destruct (header !! "alg") as [[|?|?|alg|?|?]|]; try (intros [= <-]; by eauto).
  destruct (jwt.GetSigningMethod alg) as [m|]; [|intros [= <-]; by eauto].
  destruct (jwt.DecodeSegment _); [|intros [= <-]; by eauto]. cbv zeta.
  destruct (security.keyFunc s _); [|intros [= <-]; by eauto].
  destruct (jwt.Verify _ _ _ _); [|intros [= <-]; by eauto].
  destruct (jwt.Validate _ _); [done|intros [= <-]; by eauto].
Qed.

(** X5.  [ValidateToken] returns claims only for a token string that
    decodes, names a method of the HMAC family, carries the HMAC of its
    first two segments under the key of the service as its signature, has
    not expired and is past its not-before time; the claims returned are
    those of the token. *)
Theorem ValidateToken_sound
    (s : security.JWTService) (now : time.Time) (tokenString : string)
    (claims : security.Claims) :
  security.ValidateToken s now tokenString = Ok claims ->
  exists d h,
    decode_token tokenString = Some d /\
    token_claims d = claims /\
    hmac_family (token_header d) = Some h /\
    token_signature d = jwt.hmac_Sum h (security.secretKey s) (token_signed d) /\
    unexpired now claims = true /\
    valid_already now claims = true.
Proof.
  intros Hv. apply ValidateToken_Ok in Hv. revert Hv. unfold accepted.
  destruct (decode_token tokenString) as [d|]; [|done].
  destruct (hmac_family (token_header d)) as [h|] eqn:Hh; [|done].
  destruct (bool_decide _) eqn:Hsig; [|done].
  destruct (unexpired now (token_claims d)) eqn:Hexp; [|done].
  destruct (valid_already now (token_claims d)) eqn:Hnbf; [|done].
  intros [= <-]. exists d, h. apply bool_decide_eq_true in Hsig. done.
Qed.

(** [ValidateToken] on a token of the service: the signature is right,
    what is left to decide are the times. *)
Lemma ValidateToken_issued
    (s : security.JWTService) (now now' : time.Time) (userID : Z) (email tokenString : string) :
  let claims := security.newClaims s now userID email in
  Unmarshal (Marshal (jwt.newHeader jwt.SigningMethodHS256))
  = Some (jwt.newHeader jwt.SigningMethodHS256) ->
  Unmarshal (Marshal claims) = Some claims ->
  security.GenerateToken s now userID email = Ok tokenString ->
  security.ValidateToken s now' tokenString
  = match time_errors now' claims with
    | [] => Ok claims
    | errs => Err (jwt_newError "" ErrTokenInvalidClaims [jwt_joinErrors errs])
    end.
Proof.
  intros claims Hh Hc Hgen.
  destruct (GenerateToken_decoded s now userID email tokenString Hh Hc Hgen)
    as (d & Hd & Hm & Hclaims & Hsig & _).
  rewrite (ValidateToken_decoded s now' tokenString d _ Hd Hm).
  unfold jwt.SigningMethodHS256.
  rewrite bool_decide_eq_true_2 by done. by rewrite Hclaims.
Qed.

(** The time errors of claims of the service before their expiry: none. *)
Lemma time_errors_newClaims (s : security.JWTService) (now now' : time.Time)
    (userID : Z) (email : string) :
  now' < jwt.NewNumericDate (time.Add now (security.duration s)) ->
  time_errors now' (security.newClaims s now userID email) = [].
Proof.
  intros Hexp. unfold time_errors, unexpired, valid_already. simpl.
  by rewrite bool_decide_eq_true_2.
Qed.

(** X6.  The lifetime of an issued token: [ValidateToken] of the issuing
    service returns its claims at every instant before the expiry stamped
    in it, and [ErrTokenInvalidClaims] around [ErrTokenExpired] from that
    instant on. *)
Theorem ValidateToken_lifetime
    (s : security.JWTService) (now now' : time.Time) (userID : Z) (email tokenString : string) :
  let claims := security.newClaims s now userID email in
  Unmarshal (Marshal (jwt.newHeader jwt.SigningMethodHS256))
  = Some (jwt.newHeader jwt.SigningMethodHS256) ->
  Unmarshal (Marshal claims) = Some claims ->
  security.GenerateToken s now userID email = Ok tokenString ->
  security.ValidateToken s now' tokenString
  = if bool_decide (now' < jwt.NewNumericDate (time.Add now (security.duration s)))
    then Ok claims
    else Err (jwt_newError "" ErrTokenInvalidClaims [jwt_joinErrors [ErrTokenExpired]]).
Proof.
  intros claims Hh Hc Hgen.
  rewrite (ValidateToken_issued s now now' userID email tokenString Hh Hc Hgen).
  case_bool_decide as Hexp.
  - by rewrite time_errors_newClaims.
  - unfold time_errors, unexpired, valid_already. simpl.
    by rewrite bool_decide_eq_false_2.
Qed.

(** X7.  A token issued by a service under one key is refused by a
    service under a key that gives the signed text another HMAC: the error
    is [ErrTokenSignatureInvalid], at every instant. *)
Theorem ValidateToken_other_key
    (s s' : security.JWTService) (now now' : time.Time) (userID : Z)
    (email tokenString : string) :
  let claims := security.newClaims s now userID email in
  let signed := jwt.SigningString (jwt.NewWithClaims jwt.SigningMethodHS256 claims) in
  Unmarshal (Marshal (jwt.newHeader jwt.SigningMethodHS256))
  = Some (jwt.newHeader jwt.SigningMethodHS256) ->
  Unmarshal (Marshal claims) = Some claims ->
  security.GenerateToken s now userID email = Ok tokenString ->
  jwt.hmac_Sum jwt.SHA256 (security.secretKey s) signed
  <> jwt.hmac_Sum jwt.SHA256 (security.secretKey s') signed ->
  security.ValidateToken s' now' tokenString
  = Err (jwt_newError "" ErrTokenSignatureInvalid [ErrSignatureInvalid]).
Proof.
  intros claims signed Hh Hc Hgen Hne.
  destruct (GenerateToken_decoded s now userID email tokenString Hh Hc Hgen)
    as (d & Hd & Hm & _ & Hsig & Hsigned).
  rewrite (ValidateToken_decoded s' now' tokenString d _ Hd Hm).
  unfold jwt.SigningMethodHS256.
  rewrite bool_decide_eq_false_2; [done|].
  rewrite Hsig, Hsigned. exact Hne.
Qed.

(** X8.  The times [GenerateToken] stamps are whole seconds: the
    issued-at time is the second [now] is in, and the expiry is the second
    [now] plus the lifetime is in, so a token lives at most the configured
    lifetime and less than a second short of it, counted from [now].  No
    not-before time is stamped. *)
Theorem newClaims_times
    (s : security.JWTService) (now : time.Time) (userID : Z) (email : string) :
  let claims := security.RegisteredClaims (security.newClaims s now userID email) in
  exists iat exp,
    jwt.IssuedAt claims = Some iat /\
    jwt.ExpiresAt claims = Some exp /\
    jwt.NotBefore claims = None /\
    iat `mod` time.Second = 0 /\ now - time.Second < iat <= now /\
    exp `mod` time.Second = 0 /\
    now + security.duration s - time.Second < exp <= now + security.duration s.
Proof.
  intros claims. eexists _, _. split_and!; try done.
  all: unfold jwt.NewNumericDate, time.Truncate, jwt.TimePrecision, time.Add, time.Second;
    rewrite bool_decide_eq_false_2 by lia.
  all: try (pose proof (Z.mod_pos_bound now 1000000000);
            pose proof (Z.mod_pos_bound (now + security.duration s) 1000000000); lia).
  all: rewrite Zminus_mod, Z.mod_mod, Z.sub_diag by lia; done.
Qed.
End TokenReports.

(** ** The credential hasher: the hash string *)

Section HashString.
Context `{bcrypt.Blowfish}.

(** When [Hash] succeeds, the entropy source gave a salt and the password
    has at most 72 bytes. *)
Lemma Hash_inv entropy password hashed :
  security.Hash security.NewPasswordService entropy password = Ok hashed ->
  exists unencodedSalt,
    rand.ReadFull entropy bcrypt.maxSaltSize = Ok unencodedSalt /\
    (String.length password <= bcrypt.maxPasswordLength)%nat.
Proof.
  destruct (decide (bcrypt.maxPasswordLength < String.length password)%nat) as [Hlong|Hshort].
  { unfold security.Hash, bcrypt.GenerateFromPassword.
    by rewrite bool_decide_eq_true_2 by done. }
  destruct (rand.ReadFull entropy bcrypt.maxSaltSize) as [unencodedSalt|e] eqn:Hrand.
  { intros _. exists unencodedSalt. split; [done|lia]. }
  unfold security.Hash, bcrypt.GenerateFromPassword, bcrypt.newFromPassword.
  rewrite bool_decide_eq_false_2 by done.
  change (security.cost security.NewPasswordService) with bcrypt.DefaultCost.
  rewrite !(bool_decide_eq_false_2 (bcrypt.DefaultCost < bcrypt.MinCost))
    by (unfold bcrypt.DefaultCost, bcrypt.MinCost; lia).
  unfold bcrypt.checkCost.
  rewrite bool_decide_eq_false_2
    by (unfold bcrypt.DefaultCost, bcrypt.MinCost, bcrypt.MaxCost; lia).
  by rewrite Hrand.
Qed.

(** The hash string [Hash] returns: the version and the cost, the encoded
    salt, and the digest of the password. *)
Lemma Hash_string (entropy : rand.Reader) (password hashed : string) :
  security.Hash security.NewPasswordService entropy password = Ok hashed ->
  exists unencodedSalt,
    rand.ReadFull entropy bcrypt.maxSaltSize = Ok unencodedSalt /\
    hashed = "$2a$10$" ++ bcrypt.base64Encode unencodedSalt
             ++ bcrypt_digest bcrypt.DefaultCost unencodedSalt password.
Proof.
  intros Hhash.
  destruct (Hash_inv entropy password hashed Hhash) as (unencodedSalt & Hrand & Hlen).
  rewrite (Hash_Ok entropy unencodedSalt password Hrand Hlen) in Hhash.
  injection Hhash as <-. exists unencodedSalt. split; [done|].
  unfold bcrypt.Hash. cbn [bcrypt.major bcrypt.minor bcrypt.cost bcrypt.salt bcrypt.hash].
  rewrite decide_False by done.
  change (bcrypt.Sprintf02d bcrypt.DefaultCost) with "10".
  by repeat (rewrite append_cons || rewrite append_nil_l).
Qed.

(** X9.  Every hash string [Hash] returns has 60 bytes and starts with
    the version and the cost of the service, "$2a$10$": the 22 bytes after
    that are the encoded salt the entropy source gave. *)
Theorem Hash_format (entropy : rand.Reader) (password hashed : string) :
  security.Hash security.NewPasswordService entropy password = Ok hashed ->
  String.length hashed = 60%nat /\
  strings.take 7 hashed = "$2a$10$" /\
  exists unencodedSalt,
    rand.ReadFull entropy bcrypt.maxSaltSize = Ok unencodedSalt /\
    strings.take 22 (strings.drop 7 hashed) = bcrypt.base64Encode unencodedSalt.
Proof.
  intros Hhash.
  destruct (Hash_string entropy password hashed Hhash) as (unencodedSalt & Hrand & ->).
  pose proof (length_bcrypt_base64Encode unencodedSalt (ReadFull_length _ _ _ Hrand))
    as Hsalt.
  split_and!.
  - rewrite !length_append, Hsalt. unfold bcrypt_digest.
    rewrite length_take, length_append, length_Repeat.
    change (String.length "$2a$10$") with 7%nat.
    unfold bcrypt.encodedSaltSize, bcrypt.encodedHashSize. lia.
  - by apply take_app_exact.
  - exists unencodedSalt. split; [done|].
    rewrite drop_app_exact by done. by apply take_app_exact.
Qed.

(** X10.  Two hash strings of [Hash] made with different salts are
    different, also for the same password, and [Verify] accepts the
    password for each of them. *)
Theorem Hash_salted (entropy1 entropy2 : rand.Reader)
    (unencodedSalt1 unencodedSalt2 password hashed1 hashed2 : string) :
  rand.ReadFull entropy1 bcrypt.maxSaltSize = Ok unencodedSalt1 ->
  rand.ReadFull entropy2 bcrypt.maxSaltSize = Ok unencodedSalt2 ->
  unencodedSalt1 <> unencodedSalt2 ->
  security.Hash security.NewPasswordService entropy1 password = Ok hashed1 ->
  security.Hash security.NewPasswordService entropy2 password = Ok hashed2 ->
  hashed1 <> hashed2 /\
  security.Verify security.NewPasswordService hashed1 password = Ok tt /\
  security.Verify security.NewPasswordService hashed2 password = Ok tt.
Proof.
  intros Hrand1 Hrand2 Hne Hhash1 Hhash2.
  destruct (Hash_inv _ _ _ Hhash1) as (? & _ & Hlen).
  destruct (Verify_Hash entropy1 unencodedSalt1 password password Hrand1 Hlen)
    as (h1 & Hh1 & Hv1).
  destruct (Verify_Hash entropy2 unencodedSalt2 password password Hrand2 Hlen)
    as (h2 & Hh2 & Hv2).
  assert (h1 = hashed1) as -> by congruence. assert (h2 = hashed2) as -> by congruence.
  rewrite bool_decide_eq_true_2 in Hv1, Hv2 by done.
  split_and!; [|done|done].
  intros Heq.
  destruct (Hash_string _ _ _ Hhash1) as (s1 & Hs1 & Hstring1).
  destruct (Hash_string _ _ _ Hhash2) as (s2 & Hs2 & Hstring2).
  assert (s1 = unencodedSalt1) as -> by congruence.
  assert (s2 = unencodedSalt2) as -> by congruence.
  rewrite Hstring1, Hstring2 in Heq.
  apply (f_equal (fun hashed => strings.take 22 (strings.drop 7 hashed))) in Heq.
  rewrite !(drop_app_exact 7 "$2a$10$") in Heq by done.
  rewrite !take_app_exact in Heq
    by (apply length_bcrypt_base64Encode; by eapply ReadFull_length).
  apply (f_equal bcrypt.base64Decode) in Heq.
  rewrite !bcrypt_base64Decode_base64Encode in Heq by (by eapply ReadFull_length).
  congruence.
Qed.

(** X11.  [Verify] against a stored hash of fewer than 59 bytes, the
    empty one included, fails with [ErrHashTooShort] for every password:
    the error of a malformed hash is not the error of a mismatch. *)
Theorem Verify_short_hash (s : security.PasswordService) (hashedPassword password : string) :
  (String.length hashedPassword < bcrypt.minHashSize)%nat ->
  security.Verify s hashedPassword password = Err ErrHashTooShort /\
  security.Verify s hashedPassword password <> Err ErrMismatchedHashAndPassword.
Proof.
  intros Hlen.
  assert (security.Verify s hashedPassword password = Err ErrHashTooShort) as ->; [|done].
  unfold security.Verify, bcrypt.CompareHashAndPassword, bcrypt.newFromHash.
  by rewrite bool_decide_eq_true_2.
Qed.

(** The hash string of a [hashed] value followed by more bytes is read
    back with these bytes at the end of its hash. *)
Lemma newFromHash_Hash_app (hash salt extra : string) (cost : Z) :
  bcrypt.MinCost <= cost <= bcrypt.MaxCost ->
  String.length salt = bcrypt.encodedSaltSize ->
  let hash31 := strings.take bcrypt.encodedHashSize
                  (hash ++ strings.Repeat "000"%char bcrypt.encodedHashSize) in
  bcrypt.newFromHash
    (bcrypt.Hash {| bcrypt.hash := hash; bcrypt.salt := salt; bcrypt.cost := cost;
                    bcrypt.major := bcrypt.majorVersion;
                    bcrypt.minor := bcrypt.minorVersion |} ++ extra)
  = Ok {| bcrypt.hash := hash31 ++ extra; bcrypt.salt := salt; bcrypt.cost := cost;
          bcrypt.major := bcrypt.majorVersion; bcrypt.minor := bcrypt.minorVersion |}.
Proof.
  intros Hcost Hsalt hash31.
  assert (String.length hash31 = bcrypt.encodedHashSize) as Hlen31.
  { unfold hash31. rewrite length_take, length_append, length_Repeat. lia. }
  pose proof (Atoi2_Sprintf02d cost Hcost) as Hatoi.
  unfold bcrypt.Hash. cbn [bcrypt.major bcrypt.minor bcrypt.cost bcrypt.salt bcrypt.hash].
  fold hash31. rewrite decide_False by done.
  unfold bcrypt.Sprintf02d in *.
  set (d1 := ascii_of_N (48 + Z.to_N (cost `div` 10))) in *.
  set (d2 := ascii_of_N (48 + Z.to_N (cost `mod` 10))) in *.
  repeat (rewrite append_cons || rewrite append_nil_l).
  rewrite !append_assoc.
  unfold bcrypt.newFromHash.
  rewrite bool_decide_eq_false_2.
  2:{ rewrite !length_cons, !length_append, Hsalt, Hlen31.
      unfold bcrypt.minHashSize, bcrypt.encodedSaltSize, bcrypt.encodedHashSize. lia. }
  cbn [bcrypt.decodeVersion].
  rewrite bool_decide_eq_true_2 by done. cbn [negb].
  rewrite bool_decide_eq_false_2 by (by vm_compute).
  rewrite bool_decide_eq_false_2 by done.
  cbn [strings.drop]. unfold bcrypt.decodeCost. cbn [strings.take].
  rewrite Hatoi. unfold bcrypt.checkCost.
  rewrite bool_decide_eq_false_2 by lia.
  cbn [strings.drop].
  by rewrite take_app_exact, drop_app_exact.
Qed.

(** X12.  [Verify] reads a stored hash up to its 60th byte: whatever
    follows a hash string of [Hash] changes nothing in the outcome, for
    any password. *)
Theorem Verify_ignores_trailing_bytes
    (entropy : rand.Reader) (password hashed extra candidate : string) :
  security.Hash security.NewPasswordService entropy password = Ok hashed ->
  security.Verify security.NewPasswordService (hashed ++ extra) candidate
  = security.Verify security.NewPasswordService hashed candidate.
Proof.
  intros Hhash.
  destruct (Hash_inv entropy password hashed Hhash) as (unencodedSalt & Hrand & Hlen).
  rewrite (Hash_Ok entropy unencodedSalt password Hrand Hlen) in Hhash.
  injection Hhash as <-.
  pose proof (ReadFull_length _ _ _ Hrand) as Hsalt.
  assert (bcrypt.MinCost <= bcrypt.DefaultCost <= bcrypt.MaxCost) as Hcost
    by (unfold bcrypt.DefaultCost, bcrypt.MinCost, bcrypt.MaxCost; lia).
  unfold security.Verify.
  rewrite CompareHashAndPassword_Hash by done.
  unfold bcrypt.CompareHashAndPassword.
  rewrite newFromHash_Hash_app by (done || by apply length_bcrypt_base64Encode).
  cbn [bcrypt.cost bcrypt.salt bcrypt.major bcrypt.minor].
  unfold bcrypt.bcrypt. rewrite bcrypt_base64Decode_base64Encode by done.
  unfold bcrypt.Hash.
  cbn [bcrypt.cost bcrypt.salt bcrypt.major bcrypt.minor bcrypt.hash].
  rewrite append_assoc.
  rewrite (take_app_exact bcrypt.encodedHashSize (strings.take _ _))
    by (rewrite length_take, length_append, length_Repeat; lia).
  fold (bcrypt_digest bcrypt.DefaultCost unencodedSalt candidate).
  match goal with
  | |- (if bool_decide ?A then _ else _) = (if bool_decide ?B then _ else _) =>
      rewrite (bool_decide_ext A B); [done|]
  end.
  split; [|by intros ->].
  intros Heq.
  repeat match goal with
         | Heq : String _ _ = String _ _ |- _ => injection Heq as Heq
         | Heq : _ ++ _ = _ ++ _ |- _ => apply (inj _) in Heq
         end.
  done.
Qed.
End HashString.

(** ** The workflow and its handlers *)



Section WorkflowMore.
Context {R : Type} `{domain.UserRepository R} `{bcrypt.Blowfish}
  `{JSONCodec security.Claims} `{JSONCodec (gmap string json)} `{jwt.HMAC}
  `{JSONCodec usecase.RegisterRequest.t} `{JSONCodec usecase.LoginRequest.t}
  `{time.Text} `{domain.ErrorText}.

(** X13.  [Register] with a password of more than 72 bytes fails with
    [ErrPasswordTooLong], the error of the hasher, before the store is
    called; the register handler answers it with 500 and "Internal server
    error". *)
Theorem Register_long_password (h : http.Handler) (rw : http.ResponseWriter)
    (r : http.Request) (req : usecase.RegisterRequest.t) (w : World R) :
  usecase.RegisterRequest.Email req <> "" ->
  (bcrypt.maxPasswordLength < String.length (usecase.RegisterRequest.Password req))%nat ->
  let w' := called (CallHash (usecase.RegisterRequest.Password req)) w in
  usecase.Register (http.authUseCase h) req w = (Err ErrPasswordTooLong, w') /\
  (http.Method r = http.MethodPost -> Unmarshal (http.Body r) = Some req ->
   http.Register h rw r w
   = (http.respondWithError rw http.StatusInternalServerError "Internal server error", w')).
Proof.
  intros Hemail Hlong w'.
  assert (usecase.Register (http.authUseCase h) req w = (Err ErrPasswordTooLong, w')) as Hreg.
  { unfold usecase.Register.
    rewrite bool_decide_eq_false_2 by done.
    rewrite bool_decide_eq_false_2
      by (intros Hp; rewrite Hp in Hlong; simpl in Hlong; lia).
    cbn [orb entropy called].
    unfold security.Hash, bcrypt.GenerateFromPassword.
    by rewrite bool_decide_eq_true_2 by done. }
  split; [done|]. intros Hmethod Hbody. unfold http.Register.
  rewrite bool_decide_eq_true_2 by done. cbn [negb]. by rewrite Hbody, Hreg.
Qed.

(** X14.  [Login] with an empty email or an empty password returns
    [ErrInvalidCredentials] and leaves the world as it was: the store is
    not asked and no password is verified.  The login handler answers it
    as it answers a wrong password, with 401 and "Invalid email or
    password". *)
Theorem Login_empty_field (h : http.Handler) (rw : http.ResponseWriter)
    (r : http.Request) (req : usecase.LoginRequest.t) (w : World R) :
  usecase.LoginRequest.Email req = "" \/ usecase.LoginRequest.Password req = "" ->
  usecase.Login (http.authUseCase h) req w = (Err ErrInvalidCredentials, w) /\
  (http.Method r = http.MethodPost -> Unmarshal (http.Body r) = Some req ->
   http.Login h rw r w
   = (http.respondWithError rw http.StatusUnauthorized "Invalid email or password", w)).
Proof.
  intros Hempty.
  assert (usecase.Login (http.authUseCase h) req w = (Err ErrInvalidCredentials, w))
    as Hlogin.
  { unfold usecase.Login.
    destruct Hempty as [-> | ->]; [done|]. by rewrite orb_true_r. }
  split; [done|].
  intros Hmethod Hbody. unfold http.Login.
  rewrite bool_decide_eq_true_2 by done. cbn [negb]. by rewrite Hbody, Hlogin.
Qed.

(** X15.  When the store fails the lookup by email with an error other
    than [ErrUserNotFound], [Login] returns that error as it is and
    verifies no password; unless the error is [ErrInvalidCredentials]
    itself, the login handler answers with 500 and "Internal server
    error", so the text of the error is not in the response. *)
Theorem Login_store_failure (h : http.Handler) (rw : http.ResponseWriter)
    (r : http.Request) (req : usecase.LoginRequest.t) (w : World R) (e : error) (r' : R) :
  usecase.LoginRequest.Email req <> "" ->
  usecase.LoginRequest.Password req <> "" ->
  domain.FindByEmail (repo w) (usecase.LoginRequest.Email req) = (Err e, r') ->
  e <> ErrUserNotFound ->
  let w' := with_repo r' (called (CallFindByEmail (usecase.LoginRequest.Email req)) w) in
  usecase.Login (http.authUseCase h) req w = (Err e, w') /\
  (e <> ErrInvalidCredentials ->
   http.Method r = http.MethodPost -> Unmarshal (http.Body r) = Some req ->
   http.Login h rw r w
   = (http.respondWithError rw http.StatusInternalServerError "Internal server error", w')).
Proof.
  intros Hemail Hpassword Hfind Hne w'.
  assert (usecase.Login (http.authUseCase h) req w = (Err e, w')) as Hlogin.
  { unfold usecase.Login. rewrite !bool_decide_eq_false_2 by done.
    cbn [orb repo called]. rewrite Hfind. by destruct e. }
  split; [done|]. intros Hne' Hmethod Hbody. unfold http.Login.
  rewrite bool_decide_eq_true_2 by done. cbn [negb]. rewrite Hbody, Hlogin.
  by destruct e.
Qed.

(** X16.  The token in a successful response of [Register] or of [Login]
    is a token for the user in that response: until the expiry stamped in
    it, [ValidateToken] returns claims with the id and the email of that
    user. *)
Theorem workflow_token_authenticates (uc : usecase.AuthUseCase) (w : World R)
    (resp : usecase.AuthResponse) (now' : time.Time) :
  let user := usecase.User resp in
  let claims :=
    security.newClaims (usecase.jwtService uc) (now w) (domain.ID user) (domain.Email user) in
  (exists req w', usecase.Register uc req w = (Ok resp, w')) \/
  (exists req w', usecase.Login uc req w = (Ok resp, w')) ->
  Unmarshal (Marshal (jwt.newHeader jwt.SigningMethodHS256))
  = Some (jwt.newHeader jwt.SigningMethodHS256) ->
  Unmarshal (Marshal claims) = Some claims ->
  now' < jwt.NewNumericDate (time.Add (now w) (security.duration (usecase.jwtService uc))) ->
  security.ValidateToken (usecase.jwtService uc) now' (usecase.Token resp) = Ok claims /\
  security.UserID claims = domain.ID user /\
  security.Email claims = domain.Email user.
Proof.
  intros user claims Hresp Hh Hc Hexp.
  assert (security.GenerateToken (usecase.jwtService uc) (now w)
            (domain.ID user) (domain.Email user) = Ok (usecase.Token resp)) as Hgen.
  { destruct Hresp as [(req & w' & Hreg)|(req & w' & Hlogin)].
    - by eapply Register_token.
    - by eapply Login_token. }
  split; [|done].
  rewrite (ValidateToken_issued _ _ now' _ _ _ Hh Hc Hgen).
  by rewrite time_errors_newClaims.
Qed.

End WorkflowMore.

(** ** The repository of the tests *)

Lemma NoDup_fmap_eq {A B} (f : A -> B) (l : list A) (x y : A) :
  NoDup (f <$> l) -> x ∈ l -> y ∈ l -> f x = f y -> x = y.
Proof.
  induction l as [|a l IH]; [by intros _ ?%elem_of_nil|].
  rewrite fmap_cons, NoDup_cons. intros [Ha Hl] Hx Hy Hf.
  apply elem_of_cons in Hx as [->|Hx]; apply elem_of_cons in Hy as [->|Hy]; try done.
  - destruct Ha. rewrite Hf. by apply list_elem_of_fmap_2.
  - destruct Ha. rewrite <- Hf. by apply list_elem_of_fmap_2.
  - by apply IH.
Qed.

Lemma mock_consistent_New : mock_consistent usecase_test.NewMockUserRepository.
Proof.
  split_and!; [done|apply map_Forall_empty|].
  unfold usecase_test.NewMockUserRepository. cbn [usecase_test.users].
  rewrite map_to_list_empty. constructor.
Qed.

(** [Create] on a state without the email and without an injected error. *)
Lemma Mock_Create_Ok (m : usecase_test.MockUserRepository) (t : time.Time)
    (email passwordHash : string) :
  usecase_test.createError m = None ->
  usecase_test.users m !! email = None ->
  let user :=
    {| domain.ID := usecase_test.nextID m; domain.Email := email;
       domain.PasswordHash := passwordHash;
       domain.CreatedAt := time.zero; domain.UpdatedAt := time.zero |} in
  usecase_test.Create m t email passwordHash
  = (Ok user,
     {| usecase_test.users := <[email := user]> (usecase_test.users m);
        usecase_test.nextID := int64 (usecase_test.nextID m + 1);
        usecase_test.createError := usecase_test.createError m;
        usecase_test.findByIDError := usecase_test.findByIDError m |}).
Proof. intros Herr Hfree user. unfold usecase_test.Create. by rewrite Herr, Hfree. Qed.

(** [FindByID] finds a stored user by its id, whatever the order in which
    the map is walked. *)
Lemma Mock_FindByID_stored (m : usecase_test.MockUserRepository) (email : string)
    (user : domain.User) :
  mock_consistent m ->
  usecase_test.findByIDError m = None ->
  usecase_test.users m !! email = Some user ->
  usecase_test.FindByID m (domain.ID user) = (Ok user, m).
Proof.
  intros (_ & _ & Hnodup) Herr Hstored. unfold usecase_test.FindByID. rewrite Herr.
  destruct (find _ _) as [[email' user']|] eqn:Hfind.
  - apply find_some in Hfind as [Hin Hid]. apply bool_decide_eq_true in Hid.
    apply list_elem_of_In in Hin.
    assert ((email', user') = (email, user)) as [= _ ->]; [|done].
    eapply (NoDup_fmap_eq _ _ _ _ Hnodup); [done| |done].
    by apply elem_of_map_to_list.
  - assert (In (email, user) (map_to_list (usecase_test.users m))) as Hin
      by (by apply list_elem_of_In, elem_of_map_to_list).
    pose proof (find_none _ _ Hfind (email, user) Hin) as Hnone. cbn beta in Hnone.
    by rewrite bool_decide_eq_true_2 in Hnone.
Qed.

Lemma int64_small (z : Z) : - 2 ^ 63 <= z <= MaxInt64 -> int64 z = z.
Proof.
  unfold int64, MaxInt64. intros Hz. rewrite Z.mod_small by lia. lia.
Qed.

(** Below the largest [int64] the counter of ids does not wrap, and
    [Create] keeps the repository consistent. *)
Lemma Mock_Create_consistent (m : usecase_test.MockUserRepository) (t : time.Time)
    (email passwordHash : string) :
  mock_consistent m ->
  usecase_test.nextID m < MaxInt64 ->
  mock_consistent (snd (usecase_test.Create m t email passwordHash)).
Proof.
  intros Hm Hmax. unfold usecase_test.Create.
  destruct (usecase_test.createError m); [done|].
  destruct (usecase_test.users m !! email) eqn:Hfree; [done|].
  destruct Hm as (Hnext & Hall & Hnodup).
  cbn [snd]. split_and!; cbn [usecase_test.users usecase_test.nextID];
    rewrite ?int64_small by (unfold MaxInt64 in *; lia).
  - lia.
  - apply map_Forall_insert; [done|]. split.
    + cbn [domain.Email domain.ID]. split; [done|lia].
    + eapply map_Forall_impl; [exact Hall|]. intros email' user' [? ?]. split; [done|lia].
  - rewrite map_to_list_insert by done. rewrite fmap_cons. apply NoDup_cons.
    split; [|done]. cbn [snd domain.ID].
    intros ([email' user'] & Hid & Hin)%list_elem_of_fmap_1.
    apply elem_of_map_to_list in Hin. destruct (Hall _ _ Hin) as [_ Hbound].
    cbn [snd] in Hid. lia.
Qed.

Section MockRepository.
Import usecase_test.

(** X18.  [Create] of the mock repository on an email it does not hold
    gives the user the next id and stores it under the email: [FindByEmail]
    then finds that user, and the users stored before are found as before.
    While the counter of ids is below the largest [int64], the counter goes
    up by one, the repository stays consistent (every user under its email,
    ids from 1 below [nextID], no id twice) and [FindByID] finds the new
    user.  At the largest [int64] the counter wraps around to the smallest,
    and the repository is consistent no more. *)
Theorem Mock_Create_then_find (m : MockUserRepository) (t : time.Time)
    (email passwordHash : string) :
  mock_consistent m ->
  createError m = None ->
  users m !! email = None ->
  exists user m',
    Create m t email passwordHash = (Ok user, m') /\
    domain.ID user = nextID m /\
    domain.Email user = email /\ domain.PasswordHash user = passwordHash /\
    FindByEmail m' email = (Ok user, m') /\
    (forall email', email' <> email ->
       fst (FindByEmail m' email') = fst (FindByEmail m email')) /\
    (nextID m < MaxInt64 ->
     nextID m' = nextID m + 1 /\
     mock_consistent m' /\
     (findByIDError m = None -> FindByID m' (domain.ID user) = (Ok user, m'))) /\
    (nextID m = MaxInt64 -> nextID m' = - 2 ^ 63 /\ ~ mock_consistent m').
Proof.
  intros Hm Herr Hfree.
  pose proof (Mock_Create_consistent m t email passwordHash Hm) as Hm'.
  rewrite (Mock_Create_Ok m t email passwordHash Herr Hfree) in *. cbv zeta in *.
  cbn [snd] in Hm'. eexists _, _. split; [done|]. split_and!; try done.
  - unfold FindByEmail. cbn [users]. by rewrite lookup_insert_eq.
  - intros email' Hne. unfold FindByEmail. cbn [users].
    rewrite lookup_insert_ne by done. by destruct (users m !! email').
  - intros Hmax. destruct Hm as (Hnext & _). split_and!.
    + cbn [nextID]. apply int64_small. unfold MaxInt64 in *. lia.
    + by apply Hm'.
    + intros Hfind. eapply (Mock_FindByID_stored _ email); [by apply Hm'|done|].
      cbn [users]. by rewrite lookup_insert_eq.
  - intros Hmax. cbn [nextID]. rewrite Hmax.
    assert (int64 (MaxInt64 + 1) = - 2 ^ 63) as -> by done.
    split; [done|]. intros (Hnext & _). cbn [nextID] in Hnext. lia.
Qed.

(** X19.  On a consistent mock repository [FindByID] returns a user
    exactly when that user is stored (under its email) with the id asked
    for, and [ErrUserNotFound] when no stored user has the id: the outcome
    does not depend on the order in which the map of users is walked. *)
Theorem Mock_FindByID_exact (m : MockUserRepository) (id : Z) :
  mock_consistent m ->
  findByIDError m = None ->
  (forall user,
     FindByID m id = (Ok user, m) <->
     users m !! domain.Email user = Some user /\ domain.ID user = id) /\
  (FindByID m id = (Err ErrUserNotFound, m) <->
   forall email user, users m !! email = Some user -> domain.ID user <> id).
Proof.
  intros Hm Herr. split.
  - intros user. split.
    + unfold FindByID. rewrite Herr.
      destruct (find _ _) as [[email' user']|] eqn:Hfind; [|done].
      intros [= ->]. apply find_some in Hfind as [Hin Hid].
      apply bool_decide_eq_true in Hid. cbn [snd] in Hid.
      apply list_elem_of_In, elem_of_map_to_list in Hin.
      destruct Hm as (_ & Hall & _). destruct (Hall _ _ Hin) as [-> _]. done.
    + intros [Hstored <-]. by eapply Mock_FindByID_stored.
  - split.
    + intros Hnone email user Hstored Hid.
      rewrite <- Hid, (Mock_FindByID_stored m email user Hm Herr Hstored) in Hnone.
      done.
    + intros Hnone. unfold FindByID. rewrite Herr.
      destruct (find _ _) as [[email' user']|] eqn:Hfind; [|done].
      apply find_some in Hfind as [Hin Hid].
      apply bool_decide_eq_true in Hid. cbn [snd] in Hid.
      apply list_elem_of_In, elem_of_map_to_list in Hin.
      by destruct (Hnone _ _ Hin).
Qed.
End MockRepository.

(** ** The workflow over the repository of the tests *)

Section WorkflowOverMock.
Import usecase_test.
Context `{bcrypt.Blowfish}
  `{JSONCodec security.Claims} `{JSONCodec (gmap string json)} `{jwt.HMAC}
  `{JSONCodec usecase.RegisterRequest.t} `{JSONCodec usecase.LoginRequest.t}
  `{time.Text} `{domain.ErrorText}.

(** A successful [Register]: what was hashed and what the store holds
    afterwards. *)
Lemma Register_Ok_inv (uc : usecase.AuthUseCase) (req : usecase.RegisterRequest.t)
    (w w1 : World MockUserRepository) (resp : usecase.AuthResponse) :
  usecase.Register uc req w = (Ok resp, w1) ->
  usecase.RegisterRequest.Email req <> "" /\
  usecase.RegisterRequest.Password req <> "" /\
  security.Hash (usecase.passwordService uc) (entropy w) (usecase.RegisterRequest.Password req)
  = Ok (domain.PasswordHash (usecase.User resp)) /\
  users (repo w) !! usecase.RegisterRequest.Email req = None /\
  users (repo w1) !! usecase.RegisterRequest.Email req = Some (usecase.User resp) /\
  createError (repo w1) = None.
Proof.
  unfold usecase.Register.
  case_bool_decide as Hemail; [done|]. case_bool_decide as Hpassword; [done|].
  cbn [orb entropy called].
  destruct (security.Hash _ _ _) as [hashed|]; [|done].
  cbn [repo now called domain.Create MockUserRepository_UserRepository].
  unfold Create.
  destruct (createError (repo w)) eqn:Herr; [done|].
  destruct (users (repo w) !! _) eqn:Hfree; [done|].
  cbn [now with_repo called].
  destruct (security.GenerateToken _ _ _ _); [|done].
  intros [= <- <-].
  cbn [usecase.User domain.PasswordHash repo users createError called with_repo].
  by rewrite lookup_insert_eq.
Qed.

(** X20.  After a successful [Register], [Login] with the same email and
    password succeeds on the store it left, at any later time, and returns
    the user that was registered. *)
Theorem Register_then_Login (uc : usecase.AuthUseCase) (email password : string)
    (w w1 w2 : World MockUserRepository) (resp : usecase.AuthResponse) :
  usecase.passwordService uc = security.NewPasswordService ->
  usecase.Register uc
    {| usecase.RegisterRequest.Email := email; usecase.RegisterRequest.Password := password |}
    w = (Ok resp, w1) ->
  repo w2 = repo w1 ->
  exists token w3,
    usecase.Login uc
      {| usecase.LoginRequest.Email := email; usecase.LoginRequest.Password := password |}
      w2 = (Ok {| usecase.Token := token; usecase.User := usecase.User resp |}, w3) /\
    repo w3 = repo w1.
Proof.
  intros Hps Hreg Hrepo.
  destruct (Register_Ok_inv uc _ w w1 resp Hreg)
    as (Hemail & Hpassword & Hhash & _ & Hstored & _).
  cbn [usecase.RegisterRequest.Email usecase.RegisterRequest.Password] in *.
  rewrite Hps in Hhash.
  destruct (Hash_inv _ _ _ Hhash) as (unencodedSalt & Hrand & Hlen).
  destruct (Verify_Hash _ _ password password Hrand Hlen) as (hashed & Hhashed & Hverify).
  rewrite bool_decide_eq_true_2 in Hverify by done.
  assert (hashed = domain.PasswordHash (usecase.User resp)) as -> by congruence.
  unfold usecase.Login.
  cbn [usecase.LoginRequest.Email usecase.LoginRequest.Password].
  rewrite !bool_decide_eq_false_2 by done.
  cbn [orb repo called domain.FindByEmail MockUserRepository_UserRepository].
  unfold FindByEmail. rewrite Hrepo, Hstored, Hps, Hverify.
  eexists _, _. split; [reflexivity|]. done.
Qed.

(** X21.  After a successful [Register], a second [Register] with the
    same email (and any password the hasher takes) fails with
    [ErrUserAlreadyExists] and leaves the store as the first one left it;
    the register handler answers it with 409 and the text of that error. *)
Theorem Register_twice (h : http.Handler) (rw : http.ResponseWriter) (r : http.Request)
    (req1 req2 : usecase.RegisterRequest.t) (w w1 w2 : World MockUserRepository)
    (resp : usecase.AuthResponse) (hashed : string) :
  usecase.Register (http.authUseCase h) req1 w = (Ok resp, w1) ->
  repo w2 = repo w1 ->
  usecase.RegisterRequest.Email req2 = usecase.RegisterRequest.Email req1 ->
  usecase.RegisterRequest.Password req2 <> "" ->
  security.Hash (usecase.passwordService (http.authUseCase h)) (entropy w2)
    (usecase.RegisterRequest.Password req2) = Ok hashed ->
  exists w3,
    usecase.Register (http.authUseCase h) req2 w2 = (Err ErrUserAlreadyExists, w3) /\
    repo w3 = repo w1 /\
    (http.Method r = http.MethodPost -> Unmarshal (http.Body r) = Some req2 ->
     http.Register h rw r w2
     = (http.respondWithError rw http.StatusConflict (domain.Error ErrUserAlreadyExists),
        w3)).
Proof.
  intros Hreg Hrepo Hemail Hpassword Hhash.
  destruct (Register_Ok_inv _ _ w w1 resp Hreg) as (Hemail1 & _ & _ & _ & Hstored & Herr).
  assert (exists w3, usecase.Register (http.authUseCase h) req2 w2
                     = (Err ErrUserAlreadyExists, w3) /\ repo w3 = repo w1)
    as (w3 & Hreg2 & Hrepo3).
  { unfold usecase.Register. rewrite Hemail.
    rewrite !bool_decide_eq_false_2 by done.
    cbn [orb entropy called]. rewrite Hhash.
    cbn [repo now called domain.Create MockUserRepository_UserRepository].
    unfold Create. rewrite Hrepo, Herr, Hstored. eexists. split; [reflexivity|]. done. }
  exists w3. split_and!; [done|done|].
  intros Hmethod Hbody. unfold http.Register.
  rewrite bool_decide_eq_true_2 by done. cbn [negb]. by rewrite Hbody, Hreg2.
Qed.
End WorkflowOverMock.

(** ** The gate, the handlers and the routes *)

Lemma Value_userID (ctx : http.Context) (userID : Z) (email : string) :
  http.Value
    (http.WithValue (http.WithValue ctx http.contextKeyUserID (http.Int64 userID))
       http.contextKeyEmail (http.Str email))
    http.contextKeyUserID
  = Some (http.Int64 userID).
Proof. done. Qed.

Section Routes.
Context {R : Type} `{domain.UserRepository R} `{bcrypt.Blowfish}
  `{JSONCodec security.Claims} `{JSONCodec (gmap string json)} `{jwt.HMAC}
  `{JSONCodec usecase.RegisterRequest.t} `{JSONCodec usecase.LoginRequest.t}
  `{time.Text} `{domain.ErrorText}.

(** The handler [Me] on a request that carries a user id. *)
Lemma Me_with_userID (h : http.Handler) (rw : http.ResponseWriter) (r : http.Request)
    (world : World R) (userID : Z) :
  http.Method r = http.MethodGet ->
  http.Value (http.Ctx r) http.contextKeyUserID = Some (http.Int64 userID) ->
  http.Me h rw r world
  = (match fst (domain.FindByID (repo world) userID) with
     | Ok user =>
         http.respondWithJSON rw http.StatusOK
           {| http.ID := domain.ID user; http.Email := domain.Email user;
              http.CreatedAt :=
                time.Format (domain.CreatedAt user) "2006-01-02T15:04:05Z" |}
     | Err ErrUserNotFound => http.respondWithError rw http.StatusNotFound "User not found"
     | Err _ =>
         http.respondWithError rw http.StatusInternalServerError "Internal server error"
     end,
     with_repo (snd (domain.FindByID (repo world) userID))
       (called (CallFindByID userID) world)).
Proof.
  intros Hmethod Hvalue. unfold http.Me, usecase.GetUserByID.
  rewrite bool_decide_eq_true_2 by done. cbn [negb]. rewrite Hvalue.
  cbn [repo called].
  destruct (domain.FindByID (repo world) userID) as [[user|e] r']; [done|].
  by destruct e.
Qed.

(** X22.  A GET request with a header "Bearer token" whose token
    validates goes through the gate to [Me], which looks up the user id of
    the claims in the store: a user found is answered with 200 and its id,
    email and creation time, [ErrUserNotFound] with 404 and "User not
    found", any other error of the store with 500 and "Internal server
    error".  The calls made are [ValidateToken] with the token and then
    [FindByID] with the id of the claims. *)
Theorem Me_behind_gate (h : http.Handler) (jwtService : security.JWTService)
    (rw : http.ResponseWriter) (r : http.Request) (world : World R)
    (token : string) (claims : security.Claims) :
  http.Method r = http.MethodGet ->
  strings.Split (http.Header_Get (http.ReqHeader r) "Authorization") " "%char
  = ["Bearer"; token] ->
  security.ValidateToken jwtService (now world) token = Ok claims ->
  let found := fst (domain.FindByID (repo world) (security.UserID claims)) in
  let response := http.AuthMiddleware jwtService (http.Me h) rw r world in
  fst response
  = match found with
    | Ok user =>
        http.respondWithJSON rw http.StatusOK
          {| http.ID := domain.ID user; http.Email := domain.Email user;
             http.CreatedAt :=
               time.Format (domain.CreatedAt user) "2006-01-02T15:04:05Z" |}
    | Err ErrUserNotFound => http.respondWithError rw http.StatusNotFound "User not found"
    | Err _ =>
        http.respondWithError rw http.StatusInternalServerError "Internal server error"
    end /\
  calls (snd response)
  = CallFindByID (security.UserID claims) :: CallValidateToken token :: calls world.
Proof.
  intros Hmethod Hsplit Hvalid found response. unfold response.
  rewrite AuthMiddleware_spec. cbv zeta.
  apply bearer_token_Some in Hsplit. rewrite Hsplit, Hvalid.
  rewrite (Me_with_userID h rw _ _ (security.UserID claims)); [|done|apply Value_userID].
  done.
Qed.

(** X23.  Behind the gate, [Me] always finds a user id in the request:
    its own answer "Unauthorized" is never the response of the protected
    route. *)
Theorem Me_Unauthorized_unreachable (h : http.Handler) (jwtService : security.JWTService)
    (rw : http.ResponseWriter) (r : http.Request) (world : World R) :
  fst (http.AuthMiddleware jwtService (http.Me h) rw r world)
  <> http.respondWithError rw http.StatusUnauthorized "Unauthorized".
Proof.
  rewrite AuthMiddleware_spec. cbv zeta.
  assert (forall code1 code2 m1 m2, m1 <> m2 ->
            http.respondWithError rw code1 m1 <> http.respondWithError rw code2 m2)
    as Hmessage.
  { intros code1 code2 m1 m2 Hne Heq. apply (f_equal http.Written) in Heq.
    rewrite !Written_respondWithError in Heq. apply app_inv_head in Heq. congruence. }
  destruct (bearer_token _) as [token|].
  2:{ cbn [fst]. case_bool_decide; by apply Hmessage. }
  destruct (security.ValidateToken _ _ _) as [claims|]; [|by apply Hmessage].
  unfold http.Me. cbn [http.Ctx http.WithContext http.Method].
  case_bool_decide; cbn [negb]; [|by apply Hmessage].
  rewrite Value_userID.
  destruct (usecase.GetUserByID _ _ _) as [[user|e] world']; cbn [fst].
  - intros Heq. apply (f_equal http.Written) in Heq.
    rewrite Written_respondWithError in Heq. unfold http.respondWithJSON in Heq.
    cbn [http.Written http.Write http.WriteHeader http.SetHeader] in Heq.
    apply app_inv_head in Heq. discriminate Heq.
  - destruct e; by apply Hmessage.
Qed.

Lemma Header_Get_Set (hd : http.Header) (key value : string) :
  http.Header_Get (http.Header_Set hd key value) key = value.
Proof.
  unfold http.Header_Get, http.Header_Set, http.Header in *. by rewrite lookup_insert_eq.
Qed.

Lemma Header_Get_Set_ne (hd : http.Header) (key key' value : string) :
  key <> key' ->
  http.Header_Get (http.Header_Set hd key value) key' = http.Header_Get hd key'.
Proof.
  intros Hne. unfold http.Header_Get, http.Header_Set, http.Header in *.
  by rewrite lookup_insert_ne.
Qed.

Lemma answers_json_respondWithJSON {A} `{ToJSON A} rw code (payload : A) :
  exists code' doc, http.respondWithJSON rw code payload = json_response rw code' doc.
Proof. by eexists _, _. Qed.

Lemma answers_json_respondWithError rw code message :
  exists code' doc, http.respondWithError rw code message = json_response rw code' doc.
Proof. by eexists _, _. Qed.

Lemma answers_json_Health (h : http.Handler) : answers_json (http.Health (R := R) h).
Proof.
  intros rw r world. unfold http.Health. destruct (negb _); cbn [fst].
  - apply answers_json_respondWithError.
  - apply answers_json_respondWithJSON.
Qed.

Lemma answers_json_Register (h : http.Handler) : answers_json (http.Register h).
Proof.
  intros rw r world. unfold http.Register.
  destruct (negb _); [apply answers_json_respondWithError|].
  destruct (Unmarshal _) as [req|]; [|apply answers_json_respondWithError].
  destruct (usecase.Register _ _ _) as [[resp|e] world']; cbn [fst].
  - apply answers_json_respondWithJSON.
  - destruct e; apply answers_json_respondWithError.
Qed.

Lemma answers_json_Login (h : http.Handler) : answers_json (http.Login h).
Proof.
  intros rw r world. unfold http.Login.
  destruct (negb _); [apply answers_json_respondWithError|].
  destruct (Unmarshal _) as [req|]; [|apply answers_json_respondWithError].
  destruct (usecase.Login _ _ _) as [[resp|e] world']; cbn [fst].
  - apply answers_json_respondWithJSON.
  - destruct e; apply answers_json_respondWithError.
Qed.

Lemma answers_json_Me (h : http.Handler) : answers_json (http.Me h).
Proof.
  intros rw r world. unfold http.Me.
  destruct (negb _); [apply answers_json_respondWithError|].
  destruct (http.Value _ _) as [[userID|?]|]; try apply answers_json_respondWithError.
  destruct (usecase.GetUserByID _ _ _) as [[user|e] world']; cbn [fst].
  - apply answers_json_respondWithJSON.
  - destruct e; apply answers_json_respondWithError.
Qed.

Lemma answers_json_AuthMiddleware jwtService (next : @http.HandlerFunc R) :
  answers_json next -> answers_json (http.AuthMiddleware jwtService next).
Proof.
  intros Hnext rw r world. rewrite AuthMiddleware_spec. cbv zeta.
  destruct (bearer_token _); [|apply answers_json_respondWithError].
  destruct (security.ValidateToken _ _ _); [|apply answers_json_respondWithError].
  apply Hnext.
Qed.

(** Every route is a handler that answers with JSON, under the logging
    and the CORS middleware. *)
Lemma SetupRoutes_Some (rt : http.Router) (path : string) (f : http.HandlerFunc) :
  http.SetupRoutes rt path = Some f ->
  exists g, answers_json g /\ f = http.CORSMiddleware (http.LoggingMiddleware g).
Proof.
  unfold http.SetupRoutes. repeat case_decide; intros [= <-]; eexists; (split; [|done]).
  - apply answers_json_Health.
  - apply answers_json_Register.
  - apply answers_json_Login.
  - apply answers_json_AuthMiddleware, answers_json_Me.
Qed.

(** X24.  On every route, the protected one included, an OPTIONS request
    is answered by the CORS middleware alone: status 200 (on a writer with
    no status yet), nothing written to the body, the three CORS headers
    set, and the world as it was, so that no token is validated and no
    handler runs. *)
Theorem OPTIONS_answered_by_CORS (rt : http.Router) (path : string) (f : http.HandlerFunc)
    (rw : http.ResponseWriter) (r : http.Request) (world : World R) :
  http.SetupRoutes rt path = Some f ->
  http.Method r = http.MethodOptions ->
  http.Code rw = None ->
  exists response,
    f rw r world = (response, world) /\
    http.Code response = Some http.StatusOK /\
    http.Written response = http.Written rw /\
    cors_headers response.
Proof.
  intros Hroute Hmethod Hcode.
  destruct (SetupRoutes_Some rt path f Hroute) as (g & _ & ->).
  unfold http.CORSMiddleware. rewrite bool_decide_eq_true_2 by done.
  eexists. split; [done|]. unfold cors_headers.
  cbn [http.Code http.WriteHeader http.SetHeader http.Written http.WHeader].
  rewrite Hcode. split_and!; try done.
  all: by rewrite ?Header_Get_Set_ne, Header_Get_Set by done.
Qed.

(** X25.  Every response of every route carries the three CORS headers,
    whatever the request and whatever the handler answers. *)
Theorem CORS_headers_on_every_response (rt : http.Router) (path : string)
    (f : http.HandlerFunc) (rw : http.ResponseWriter) (r : http.Request) (world : World R) :
  http.SetupRoutes rt path = Some f ->
  cors_headers (fst (f rw r world)).
Proof.
  intros Hroute.
  destruct (SetupRoutes_Some rt path f Hroute) as (g & Hg & ->).
  unfold http.CORSMiddleware, http.LoggingMiddleware. case_bool_decide; cbn [fst].
  - unfold cors_headers. cbn [http.WHeader http.WriteHeader http.SetHeader].
    split_and!; by rewrite ?Header_Get_Set_ne, Header_Get_Set by done.
  - match goal with |- cors_headers (fst (g ?rw' r world)) =>
      destruct (Hg rw' r world) as (code & doc & ->) end.
    unfold cors_headers.
    cbn [json_response http.WHeader http.Write http.WriteHeader http.SetHeader].
    split_and!; by rewrite ?Header_Get_Set_ne, Header_Get_Set by done.
Qed.

End Routes.

Section IssuedTokenAtTheGate.
Context {R : Type} `{domain.UserRepository R} `{bcrypt.Blowfish}
  `{JSONCodec security.Claims} `{JSONCodec (gmap string json)} `{jwt.HMAC}
  `{JSONCodec usecase.RegisterRequest.t} `{JSONCodec usecase.LoginRequest.t}
  `{time.Text} `{domain.ErrorText}.

Lemma GenerateToken_bearer (s : security.JWTService) (now : time.Time) (userID : Z)
    (email tokenString : string) :
  security.GenerateToken s now userID email = Ok tokenString ->
  bearer_token ("Bearer " ++ tokenString) = Some tokenString.
Proof.
  unfold security.GenerateToken, jwt.SignedString, jwt.SigningString.
  cbn [jwt.NewWithClaims jwt.Method jwt.Header jwt.TokenClaims jwt.Sign
         jwt.SigningMethodHS256].
  intros [= <-]. apply bearer_token_Some, Split_Bearer. split; [done|].
  rewrite !contains_app, !EncodeSegment_no_space. done.
Qed.

(** X27.  A token of [GenerateToken], sent as "Bearer " followed by the
    token, passes the gate of the same service until the expiry stamped in
    it: the next handler runs, on the request with the user id and the
    email of the token attached to its context, after one call of
    [ValidateToken]. *)
Theorem issued_token_passes_gate (jwtService : security.JWTService)
    (next : http.HandlerFunc) (rw : http.ResponseWriter) (r : http.Request)
    (world : World R) (issued : time.Time) (userID : Z) (email tokenString : string) :
  let claims := security.newClaims jwtService issued userID email in
  Unmarshal (Marshal (jwt.newHeader jwt.SigningMethodHS256))
  = Some (jwt.newHeader jwt.SigningMethodHS256) ->
  Unmarshal (Marshal claims) = Some claims ->
  security.GenerateToken jwtService issued userID email = Ok tokenString ->
  http.Header_Get (http.ReqHeader r) "Authorization" = "Bearer " ++ tokenString ->
  now world < jwt.NewNumericDate (time.Add issued (security.duration jwtService)) ->
  http.AuthMiddleware jwtService next rw r world
  = next rw
      (http.WithContext r
         (http.WithValue
            (http.WithValue (http.Ctx r) http.contextKeyUserID (http.Int64 userID))
            http.contextKeyEmail (http.Str email)))
      (called (CallValidateToken tokenString) world).
Proof.
  intros claims Hh Hc Hgen Hheader Hexp.
  rewrite AuthMiddleware_spec. cbv zeta.
  rewrite Hheader, (GenerateToken_bearer _ _ _ _ _ Hgen).
  rewrite (ValidateToken_issued _ _ (now world) _ _ _ Hh Hc Hgen).
  by rewrite time_errors_newClaims.
Qed.
End IssuedTokenAtTheGate.

(** ** The workflow over the SQLite repository *)

Section WorkflowOverSQLite.
Context {D : Type} `{repository.DB D} `{domain.ErrorText} `{bcrypt.Blowfish}
  `{JSONCodec security.Claims} `{JSONCodec (gmap string json)} `{jwt.HMAC}
  `{JSONCodec usecase.RegisterRequest.t} `{JSONCodec usecase.LoginRequest.t}
  `{time.Text}.

(** X28.  Over the SQLite repository, a registration whose INSERT fails
    with the text "UNIQUE constraint failed: users.email" fails with
    [ErrUserAlreadyExists] and is answered with 409; an INSERT that fails
    with any other text gives [Register] the error of the driver as it is.
    In both cases no token is issued. *)
Theorem SQLite_unique_constraint (h : http.Handler) (rw : http.ResponseWriter)
    (r : http.Request) (req : usecase.RegisterRequest.t)
    (w : World (repository.SQLiteUserRepository D)) (hashed : string) (err : error) (d : D) :
  usecase.RegisterRequest.Email req <> "" ->
  usecase.RegisterRequest.Password req <> "" ->
  security.Hash (usecase.passwordService (http.authUseCase h)) (entropy w)
    (usecase.RegisterRequest.Password req) = Ok hashed ->
  repository.ExecInsert (repository.db (repo w)) (usecase.RegisterRequest.Email req)
    hashed (now w) (now w) = (Err err, d) ->
  let unique := bool_decide (domain.Error err = "UNIQUE constraint failed: users.email") in
  let w' :=
    with_repo {| repository.db := d |}
      (called (CallCreate (usecase.RegisterRequest.Email req) hashed)
         (called (CallHash (usecase.RegisterRequest.Password req)) w)) in
  usecase.Register (http.authUseCase h) req w
  = (Err (if unique then ErrUserAlreadyExists else err), w') /\
  (unique = true ->
   http.Method r = http.MethodPost -> Unmarshal (http.Body r) = Some req ->
   http.Register h rw r w
   = (http.respondWithError rw http.StatusConflict (domain.Error ErrUserAlreadyExists), w')).
Proof.
  intros Hemail Hpassword Hhash Hexec unique w'.
  assert (usecase.Register (http.authUseCase h) req w
          = (Err (if unique then ErrUserAlreadyExists else err), w')) as Hreg.
  { unfold usecase.Register. rewrite !bool_decide_eq_false_2 by done.
    cbn [orb entropy called]. rewrite Hhash.
    cbn [repo now called domain.Create repository.SQLiteUserRepository_UserRepository].
    unfold repository.Create. rewrite Hexec. fold unique. by destruct unique. }
  split; [done|]. intros Hunique Hmethod Hbody. unfold http.Register.
  rewrite bool_decide_eq_true_2 by done. cbn [negb]. rewrite Hbody, Hreg, Hunique. done.
Qed.
End WorkflowOverSQLite.
(** ** The properties on the example configuration *)

Section Examples.
Import standin usecase_test example.



(** A string that is no token and a token past its expiry are both
    rejected, with different errors. *)
Lemma C5_counterexample :
  let expired :=
    signed jwt.SigningMethodHS256 (security.newClaims jwtService t0 1 "a@x.com")
      (security.secretKey jwtService) in
  security.ValidateToken jwtService (t0 + 25 * time.Hour) "garbage"
  = Err (jwt_newError "token contains an invalid number of segments" ErrTokenMalformed []) /\
  security.ValidateToken jwtService (t0 + 25 * time.Hour) expired
  = Err (jwt_newError "" ErrTokenInvalidClaims [jwt_joinErrors [ErrTokenExpired]]) /\
  security.ValidateToken jwtService (t0 + 25 * time.Hour) "garbage"
  <> security.ValidateToken jwtService (t0 + 25 * time.Hour) expired /\
  errors_Is (fun e => match e with ErrTokenExpired => true | _ => false end)
    (jwt_newError "" ErrTokenInvalidClaims [jwt_joinErrors [ErrTokenExpired]]) = true /\
  errors_Is (fun e => match e with ErrTokenExpired => true | _ => false end)
    (jwt_newError "token contains an invalid number of segments" ErrTokenMalformed [])
  = false.
Proof.
  intros expired.
  assert (security.ValidateToken jwtService (t0 + 25 * time.Hour) "garbage"
          = Err (jwt_newError "token contains an invalid number of segments"
                   ErrTokenMalformed [])) as H1 by (vm_compute; reflexivity).
  assert (security.ValidateToken jwtService (t0 + 25 * time.Hour) expired
          = Err (jwt_newError "" ErrTokenInvalidClaims [jwt_joinErrors [ErrTokenExpired]]))
    as H2 by (vm_compute; reflexivity).
  split; [exact H1|]. split; [exact H2|]. split; [rewrite H1, H2; discriminate|].
  split; reflexivity.
Qed.

(** A token whose header names the method none is rejected. *)
Lemma C5_witness :
  let tokenString :=
    jwt.EncodeSegment (Marshal (jwt.newHeader jwt.signingMethodNone)) ++ "."
    ++ jwt.EncodeSegment (Marshal (security.newClaims jwtService t0 1 "a@x.com")) ++ "." in
  (exists d, decode_token tokenString = Some d /\ hmac_family (token_header d) = None) /\
  exists e,
    security.ValidateToken jwtService t0 tokenString = Err e /\
    jwt.ParseWithClaims t0 tokenString (security.keyFunc jwtService) = Err e.
Proof.
  intros tokenString.
  assert (exists d, decode_token tokenString = Some d /\ hmac_family (token_header d) = None)
    as Hnone.
  { eexists. split; [vm_compute; reflexivity|vm_compute; reflexivity]. }
  split; [exact Hnone|].
  apply (C5_ValidateToken_rejects jwtService t0 tokenString).
  right. destruct Hnone as (d & Hd & Hh). exists d. split; [exact Hd|]. left. exact Hh.
Defined.

(** The hash of a password of 72 bytes verifies the password followed by
    one more byte; and a password of 73 bytes has no hash to verify it
    against. *)
Lemma C6_counterexample :
  let p1 := password72 in
  let p2 := password72 ++ "b" in
  p1 <> p2 /\
  (exists hashed,
     security.Hash security.NewPasswordService (entropy world0) p1 = Ok hashed /\
     security.Verify security.NewPasswordService hashed p2 = Ok tt) /\
  p2 <> "" /\
  security.Hash security.NewPasswordService (entropy world0) p2 = Err ErrPasswordTooLong.
Proof.
  intros p1 p2. split; [by vm_compute|]. split.
  - eexists. split; [vm_compute; reflexivity|vm_compute; reflexivity].
  - split; [by vm_compute|vm_compute; reflexivity].
Qed.

(** The password pw1 hashes and verifies; pw2 does not verify against
    its hash. *)
Lemma C6_witness :
  rand.ReadFull (entropy world0) bcrypt.maxSaltSize = Ok "0123456789abcdef" /\
  (String.length "pw1" <= bcrypt.maxPasswordLength)%nat /\
  bcrypt_digest bcrypt.DefaultCost "0123456789abcdef" "pw2"
  <> bcrypt_digest bcrypt.DefaultCost "0123456789abcdef" "pw1" /\
  exists hashed,
    security.Hash security.NewPasswordService (entropy world0) "pw1" = Ok hashed /\
    security.Verify security.NewPasswordService hashed "pw1" = Ok tt /\
    security.Verify security.NewPasswordService hashed "pw2"
    = Err ErrMismatchedHashAndPassword.
Proof.
  assert (rand.ReadFull (entropy world0) bcrypt.maxSaltSize = Ok "0123456789abcdef")
    as Hrand by (vm_compute; reflexivity).
  assert (String.length "pw1" <= bcrypt.maxPasswordLength)%nat as Hlen
    by (vm_compute; lia).
  assert (bcrypt_digest bcrypt.DefaultCost "0123456789abcdef" "pw2"
          <> bcrypt_digest bcrypt.DefaultCost "0123456789abcdef" "pw1") as Hne
    by (vm_compute; discriminate).
  split; [exact Hrand|]. split; [exact Hlen|]. split; [exact Hne|].
  destruct (C6_Verify_Hash (entropy world0) "0123456789abcdef" "pw1" "pw2" Hrand Hlen)
    as (hashed & Hhash & Hv1 & _ & Hv2).
  exists hashed. split; [exact Hhash|]. split; [exact Hv1|]. exact (Hv2 Hne).
Defined.

(** With entropy at hand, [Hash] fails on a password of 73 bytes. *)
Lemma C7_counterexample :
  is_Ok (rand.ReadFull (entropy world0) bcrypt.maxSaltSize) = true /\
  security.Hash security.NewPasswordService (entropy world0) (password72 ++ "b")
  = Err ErrPasswordTooLong.
Proof. split; vm_compute; reflexivity. Qed.

(** A token signed with the key of the service and not yet expired, but
    not to be used before tomorrow, is rejected. *)
Lemma C10_counterexample :
  let tokenString :=
    signed jwt.SigningMethodHS256 claims_for_tomorrow (security.secretKey jwtService) in
  (exists d,
     decode_token tokenString = Some d /\
     hmac_family (token_header d) = Some jwt.SHA256 /\
     token_signature d
     = jwt.hmac_Sum jwt.SHA256 (security.secretKey jwtService) (token_signed d) /\
     jwt.ExpiresAt (security.RegisteredClaims (token_claims d))
     = Some (t0 + 48 * time.Hour) /\
     t0 < t0 + 48 * time.Hour) /\
  security.ValidateToken jwtService t0 tokenString
  = Err (jwt_newError "" ErrTokenInvalidClaims [jwt_joinErrors [ErrTokenNotValidYet]]).
Proof.
  intros tokenString. split; [|vm_compute; reflexivity].
  eexists. split; [vm_compute; reflexivity|].
  split; [vm_compute; reflexivity|]. split; [vm_compute; reflexivity|].
  split; vm_compute; reflexivity.
Qed.

(** A token of another issuer, signed with the key of the service and in
    its time, is validated. *)
Lemma C10_witness :
  let tokenString :=
    signed jwt.SigningMethodHS256 claims_of_another_issuer
      (security.secretKey jwtService) in
  jwt.Issuer (security.RegisteredClaims claims_of_another_issuer)
  <> security.issuer jwtService /\
  security.ValidateToken jwtService t0 tokenString = Ok claims_of_another_issuer.
Proof.
  intros tokenString. split; [vm_compute; discriminate|].
  destruct (C10_issuer_not_inspected jwtService) as [_ Hvalid].
  refine (Hvalid t0 tokenString
            {| token_header := jwt.newHeader jwt.SigningMethodHS256;
               token_claims := claims_of_another_issuer;
               token_signature :=
                 jwt.hmac_Sum jwt.SHA256 (security.secretKey jwtService)
                   (jwt.SigningString
                      (jwt.NewWithClaims jwt.SigningMethodHS256 claims_of_another_issuer));
               token_signed :=
                 jwt.SigningString
                   (jwt.NewWithClaims jwt.SigningMethodHS256 claims_of_another_issuer) |}
            jwt.SHA256 _ _ _ _ _); vm_compute; reflexivity.
Defined.

(** A request without the header and one with a header of another scheme
    are both rejected with 401, with different bodies. *)
Lemma C1_counterexample :
  let missing :=
    fst (http.AuthMiddleware jwtService (http.Me handler) http.NewRecorder
           (request "GET" [] "") world1) in
  let malformed :=
    fst (http.AuthMiddleware jwtService (http.Me handler) http.NewRecorder
           (request "GET" ["Basic abc"] "") world1) in
  http.Code missing = Some http.StatusUnauthorized /\
  http.Code malformed = Some http.StatusUnauthorized /\
  http.Written missing = [JObject [("error", JString "Missing authorization header")]] /\
  http.Written malformed
  = [JObject [("error", JString "Invalid authorization header format")]] /\
  http.Written missing <> http.Written malformed.
Proof.
  intros missing malformed.
  assert (http.Written missing
          = [JObject [("error", JString "Missing authorization header")]]) as H1
    by (vm_compute; reflexivity).
  assert (http.Written malformed
          = [JObject [("error", JString "Invalid authorization header format")]]) as H2
    by (vm_compute; reflexivity).
  split; [vm_compute; reflexivity|]. split; [vm_compute; reflexivity|].
  split; [exact H1|]. split; [exact H2|]. rewrite H1, H2. discriminate.
Qed.

(** A string that is no token and a token past its expiry get the same
    response. *)
Lemma C1_witness :
  let world := {| now := t0 + 25 * time.Hour; entropy := entropy world1;
                  repo := repo world1; calls := [] |} in
  let r1 := request "GET" ["Bearer garbage"] "" in
  let r2 :=
    request "GET"
      ["Bearer " ++ signed jwt.SigningMethodHS256
                      (security.newClaims jwtService t0 1 "a@x.com")
                      (security.secretKey jwtService)] "" in
  failure_class jwtService (now world)
    (http.Header_Get (http.ReqHeader r1) "Authorization") = Some InvalidOrExpired /\
  failure_class jwtService (now world)
    (http.Header_Get (http.ReqHeader r2) "Authorization") = Some InvalidOrExpired /\
  fst (http.AuthMiddleware jwtService (http.Me handler) http.NewRecorder r1 world)
  = http.respondWithError http.NewRecorder http.StatusUnauthorized
      (gate_message InvalidOrExpired) /\
  fst (http.AuthMiddleware jwtService (http.Me handler) http.NewRecorder r1 world)
  = fst (http.AuthMiddleware jwtService (http.Me handler) http.NewRecorder r2 world).
Proof.
  intros world r1 r2.
  assert (failure_class jwtService (now world)
            (http.Header_Get (http.ReqHeader r1) "Authorization") = Some InvalidOrExpired)
    as H1 by (vm_compute; reflexivity).
  assert (failure_class jwtService (now world)
            (http.Header_Get (http.ReqHeader r2) "Authorization") = Some InvalidOrExpired)
    as H2 by (vm_compute; reflexivity).
  split; [exact H1|]. split; [exact H2|].
  destruct (C1_gate_same_class_same_body jwtService (http.Me handler) (http.Me handler)
              http.NewRecorder r1 r2 world world InvalidOrExpired InvalidOrExpired H1 H2)
    as (Hr1 & _ & Hsame & _).
  split; [exact Hr1|exact (Hsame eq_refl)].
Defined.

(** The gate on a header with a token and on a header of another scheme. *)
Lemma C8_witness :
  let r1 := request "GET" ["Bearer garbage"] "" in
  let r2 := request "GET" ["Basic abc"] "" in
  strings.Split (http.Header_Get (http.ReqHeader r1) "Authorization") " "%char
  = ["Bearer"; "garbage"] /\
  (forall token,
     strings.Split (http.Header_Get (http.ReqHeader r2) "Authorization") " "%char
     <> ["Bearer"; token]) /\
  calls (snd (http.AuthMiddleware jwtService (http.Me handler) http.NewRecorder r1 world1))
  = [CallValidateToken "garbage"] /\
  exists message,
    http.AuthMiddleware jwtService (http.Me handler) http.NewRecorder r2 world1
    = (http.respondWithError http.NewRecorder http.StatusUnauthorized message, world1).
Proof.
  intros r1 r2.
  assert (strings.Split (http.Header_Get (http.ReqHeader r1) "Authorization") " "%char
          = ["Bearer"; "garbage"]) as H1 by (vm_compute; reflexivity).
  assert (forall token,
            strings.Split (http.Header_Get (http.ReqHeader r2) "Authorization") " "%char
            <> ["Bearer"; token]) as H2 by (intros token; vm_compute; discriminate).
  split; [exact H1|]. split; [exact H2|].
  destruct (C8_gate_delegates jwtService (http.Me handler) http.NewRecorder r1 world1)
    as [Hdelegated _].
  destruct (C8_gate_delegates jwtService (http.Me handler) http.NewRecorder r2 world1)
    as [_ Hrejected].
  split.
  - destruct (Hdelegated "garbage" H1) as [_ ->]. vm_compute. reflexivity.
  - destruct (Hrejected (or_intror H2)) as (message & Hm). exists message. exact Hm.
Defined.



(** Logging in as b@x.com, who has not registered, and as a@x.com with
    another password than hers. *)
Lemma C2_witness :
  let req1 := {| usecase.LoginRequest.Email := "b@x.com";
                 usecase.LoginRequest.Password := "pw1" |} in
  let req2 := {| usecase.LoginRequest.Email := "a@x.com";
                 usecase.LoginRequest.Password := "not pw1" |} in
  let r1 := request "POST" [] (Marshal req1) in
  let r2 := request "POST" [] (Marshal req2) in
  domain.FindByEmail (repo world1) "b@x.com" = (Err ErrUserNotFound, repo world1) /\
  (exists user,
     domain.FindByEmail (repo world1) "a@x.com" = (Ok user, repo world1) /\
     security.Verify security.NewPasswordService (domain.PasswordHash user) "not pw1"
     = Err ErrMismatchedHashAndPassword) /\
  fst (usecase.Login authUseCase req1 world1) = Err ErrInvalidCredentials /\
  fst (usecase.Login authUseCase req2 world1) = Err ErrInvalidCredentials /\
  fst (http.Login handler http.NewRecorder r2 world1)
  = fst (http.Login handler http.NewRecorder r1 world1).
Proof.
  intros req1 req2 r1 r2.
  assert (domain.FindByEmail (repo world1) (usecase.LoginRequest.Email req1)
          = (Err ErrUserNotFound, repo world1)) as Hunknown by (vm_compute; reflexivity).
  assert (exists user,
            domain.FindByEmail (repo world1) (usecase.LoginRequest.Email req2)
            = (Ok user, repo world1) /\
            security.Verify (usecase.passwordService (http.authUseCase handler))
              (domain.PasswordHash user) (usecase.LoginRequest.Password req2)
            = Err ErrMismatchedHashAndPassword) as (user & Hfound & Hverify).
  { eexists. split; [vm_compute; reflexivity|vm_compute; reflexivity]. }
  assert (Unmarshal (http.Body r1) = Some req1) as Hb1 by (vm_compute; reflexivity).
  assert (Unmarshal (http.Body r2) = Some req2) as Hb2 by (vm_compute; reflexivity).
  split; [exact Hunknown|]. split; [exists user; split; [exact Hfound|exact Hverify]|].
  destruct (C2_unknown_email_as_wrong_password handler http.NewRecorder r1 r2 req1 req2
              world1 world1 (repo world1) (repo world1) user
              ErrMismatchedHashAndPassword Hunknown Hfound Hverify eq_refl Hb1 eq_refl Hb2)
    as (Hl1 & Hl2 & _ & Hsame).
  split; [exact Hl1|]. split; [exact Hl2|]. exact Hsame.
Defined.

(** Logging in as a@x.com in two worlds where her stored hashes differ. *)
Lemma C9_witness :
  let req := {| usecase.LoginRequest.Email := "a@x.com";
                usecase.LoginRequest.Password := "pw1" |} in
  let r := request "POST" [] (Marshal req) in
  (exists resp1 resp2,
     fst (usecase.Login authUseCase req world1) = Ok resp1 /\
     fst (usecase.Login authUseCase req world1') = Ok resp2 /\
     domain.PasswordHash (usecase.User resp1) <> domain.PasswordHash (usecase.User resp2) /\
     same_identity (usecase.User resp1) (usecase.User resp2)) /\
  fst (http.Login handler http.NewRecorder r world1')
  = fst (http.Login handler http.NewRecorder r world1).
Proof.
  intros req r.
  assert (exists resp1 resp2 w1 w2,
            usecase.Login (http.authUseCase handler) req world1 = (Ok resp1, w1) /\
            usecase.Login (http.authUseCase handler) req world1' = (Ok resp2, w2) /\
            domain.PasswordHash (usecase.User resp1)
            <> domain.PasswordHash (usecase.User resp2) /\
            same_identity (usecase.User resp1) (usecase.User resp2))
    as (resp1 & resp2 & w1 & w2 & Hl1 & Hl2 & Hne & Hsame).
  { do 4 eexists. split; [vm_compute; reflexivity|]. split; [vm_compute; reflexivity|].
    split; [vm_compute; discriminate|]. repeat split. }
  assert (Unmarshal (http.Body r) = Some req) as Hb by (vm_compute; reflexivity).
  split.
  - exists resp1, resp2. split; [exact (f_equal fst Hl1)|].
  split; [exact (f_equal fst Hl2)|]. split; [exact Hne|exact Hsame].
  - destruct C9_password_hash_not_in_responses as (_ & _ & _ & Hlogin & _).
    exact (proj2 (Hlogin handler http.NewRecorder r req world1 world1' w1 w2 resp1 resp2
                    eq_refl Hb eq_refl Hl1 Hl2 Hsame)).
Defined.

(** *** The tests of the use case *)

Example TestAuthUseCase_Register_Success :
  match fst (usecase.Register useCase test_register world0) with
  | Ok resp =>
      usecase.Token resp <> "" /\
      domain.Email (usecase.User resp) = usecase.RegisterRequest.Email test_register /\
      domain.ID (usecase.User resp) = 1
  | Err _ => False
  end.
Proof. vm_compute. split; [discriminate|split; reflexivity]. Qed.

Example TestAuthUseCase_Register_DuplicateEmail :
  is_Ok (fst (usecase.Register useCase test_register world0)) = true /\
  fst (usecase.Register useCase test_register registered) = Err ErrUserAlreadyExists.
Proof. split; vm_compute; reflexivity. Qed.

Example TestAuthUseCase_Register_EmptyEmail :
  fst (usecase.Register useCase
         {| usecase.RegisterRequest.Email := "";
            usecase.RegisterRequest.Password := "password123" |} world0)
  = Err ErrInvalidCredentials.
Proof. reflexivity. Qed.

Example TestAuthUseCase_Register_EmptyPassword :
  fst (usecase.Register useCase
         {| usecase.RegisterRequest.Email := "test@example.com";
            usecase.RegisterRequest.Password := "" |} world0)
  = Err ErrInvalidCredentials.
Proof. reflexivity. Qed.

Example TestAuthUseCase_Login_Success :
  match fst (usecase.Login useCase (test_login "test@example.com" "password123") registered)
  with
  | Ok resp =>
      usecase.Token resp <> "" /\ domain.Email (usecase.User resp) = "test@example.com"
  | Err _ => False
  end.
Proof. vm_compute. split; [discriminate|reflexivity]. Qed.

Example TestAuthUseCase_Login_WrongPassword :
  fst (usecase.Login useCase (test_login "test@example.com" "wrongpassword") registered)
  = Err ErrInvalidCredentials.
Proof. vm_compute. reflexivity. Qed.

Example TestAuthUseCase_Login_UserNotFound :
  fst (usecase.Login useCase (test_login "nonexistent@example.com" "password123") world0)
  = Err ErrInvalidCredentials.
Proof. vm_compute. reflexivity. Qed.

Example TestAuthUseCase_Login_EmptyEmail :
  fst (usecase.Login useCase (test_login "" "password123") world0)
  = Err ErrInvalidCredentials.
Proof. reflexivity. Qed.

Example TestAuthUseCase_GetUserByID_Success :
  match fst (usecase.GetUserByID useCase 1 registered) with
  | Ok user => domain.Email user = "test@example.com"
  | Err _ => False
  end.
Proof. vm_compute. reflexivity. Qed.

Example TestAuthUseCase_GetUserByID_NotFound :
  fst (usecase.GetUserByID useCase 999 world0) = Err ErrUserNotFound.
Proof. vm_compute. reflexivity. Qed.

(** With the lifetime of the tests, under a second, a token is past its
    expiry when it is issued: the tests issue tokens and validate none. *)
Example test_token_expired_at_once :
  match security.GenerateToken testJwtService t0 1 "test@example.com" with
  | Ok tokenString =>
      security.ValidateToken testJwtService t0 tokenString
      = Err (jwt_newError "" ErrTokenInvalidClaims [jwt_joinErrors [ErrTokenExpired]])
  | Err _ => False
  end.
Proof. vm_compute. reflexivity. Qed.

(** *** A session over the router

    a@x.com registers and gets 201 and a token; she logs in and gets 200
    and a token; both tokens validate to her id; GET /api/auth/me with the
    first token gives her identity; without a header, and with a token that
    is none, it gives 401.  The calls to the collaborators are those of the
    three requests, the latest first. *)
Example session :
  let json_a := Marshal register_a in
  let registration := serve "/api/auth/register" (request "POST" [] json_a) world0 in
  let w1 := world_of registration in
  let login := serve "/api/auth/login" (request "POST" [] json_a) w1 in
  let w2 := world_of login in
  let me token := serve "/api/auth/me" (request "GET" ["Bearer " ++ token] "") w2 in
  status_of registration = Some http.StatusCreated /\
  status_of login = Some http.StatusOK /\
  match security.ValidateToken jwtService t0 (token_of registration),
        security.ValidateToken jwtService t0 (token_of login) with
  | Ok claims1, Ok claims2 => security.UserID claims1 = 1 /\ security.UserID claims2 = 1
  | _, _ => False
  end /\
  status_of (me (token_of registration)) = Some http.StatusOK /\
  body_of (me (token_of registration))
  = [JObject [("id", JNumber 1); ("email", JString "a@x.com");
              ("created_at", JString "0001-01-01T00:00:00Z")]] /\
  status_of (serve "/api/auth/me" (request "GET" [] "") w2) = Some http.StatusUnauthorized /\
  status_of (me "garbage") = Some http.StatusUnauthorized /\
  map callee (calls (world_of (me (token_of registration))))
  = ["FindByID"; "ValidateToken"; "GenerateToken"; "Verify"; "FindByEmail";
     "GenerateToken"; "Create"; "Hash"].
Proof.
  intros json_a registration w1 login w2 me.
  split; [vm_compute; reflexivity|]. split; [vm_compute; reflexivity|].
  split; [vm_compute; split; reflexivity|].
  split; [vm_compute; reflexivity|]. split; [vm_compute; reflexivity|].
  split; [vm_compute; reflexivity|]. split; [vm_compute; reflexivity|].
  vm_compute. reflexivity.
Qed.
End Examples.

(** ** The further properties on the example configuration *)

Section MoreExamples.
Import standin usecase_test example memdb example_more.

(** A token of a@x.com signed with another key, a day after its expiry:
    the signature is what is reported. *)
Lemma ValidateToken_signature_before_times_witness :
  let token :=
    signed jwt.SigningMethodHS256 (security.newClaims jwtService t0 1 "a@x.com")
      "another-key" in
  decode_token token = Some (decoded token) /\
  hmac_family (token_header (decoded token)) = Some jwt.SHA256 /\
  security.ValidateToken jwtService (t0 + 48 * time.Hour) token
  = Err (jwt_newError "" ErrTokenSignatureInvalid [ErrSignatureInvalid]).
Proof.
  intros token.
  assert (decode_token token = Some (decoded token)) as Hd by (vm_compute; reflexivity).
  assert (hmac_family (token_header (decoded token)) = Some jwt.SHA256) as Hh
    by (vm_compute; reflexivity).
  split; [exact Hd|]. split; [exact Hh|].
  rewrite (ValidateToken_signature_before_times jwtService (t0 + 48 * time.Hour) token
             (decoded token) jwt.SHA256 Hd Hh).
  vm_compute. reflexivity.
Defined.

(** A token for the method "none". *)
Lemma ValidateToken_unexpected_method_witness :
  decode_token token_none = Some (decoded token_none) /\
  header_method (token_header (decoded token_none)) = Some jwt.signingMethodNone /\
  hmac_family (token_header (decoded token_none)) = None /\
  security.ValidateToken jwtService t0 token_none
  = Err (jwt_newError "error while executing keyfunc" ErrTokenUnverifiable
           [errors_New "unexpected signing method"]).
Proof.
  assert (decode_token token_none = Some (decoded token_none)) as Hd
    by (vm_compute; reflexivity).
  assert (header_method (token_header (decoded token_none)) = Some jwt.signingMethodNone)
    as Hm by (vm_compute; reflexivity).
  assert (hmac_family (token_header (decoded token_none)) = None) as Hh
    by (vm_compute; reflexivity).
  split; [exact Hd|]. split; [exact Hm|]. split; [exact Hh|].
  exact (ValidateToken_unexpected_method jwtService t0 token_none (decoded token_none)
           jwt.signingMethodNone Hd Hm Hh).
Defined.

(** The error for a string that is no token. *)
Lemma ValidateToken_error_kinds_witness :
  let e := jwt_newError "token contains an invalid number of segments" ErrTokenMalformed [] in
  security.ValidateToken jwtService t0 "garbage" = Err e /\
  (exists k, token_error_kind e = Some k) /\ e <> errors_New "invalid token".
Proof.
  intros e.
  assert (security.ValidateToken jwtService t0 "garbage" = Err e) as He
    by (vm_compute; reflexivity).
  split; [exact He|].
  exact (ValidateToken_error_kinds jwtService t0 "garbage" e He).
Defined.

(** The token of a@x.com, validated when it was issued. *)
Lemma ValidateToken_sound_witness :
  let claims := security.newClaims jwtService t0 1 "a@x.com" in
  security.ValidateToken jwtService t0 token_a = Ok claims /\
  exists d h,
    decode_token token_a = Some d /\
    token_claims d = claims /\
    hmac_family (token_header d) = Some h /\
    token_signature d = jwt.hmac_Sum h (security.secretKey jwtService) (token_signed d) /\
    unexpired t0 claims = true /\
    valid_already t0 claims = true.
Proof.
  intros claims.
  assert (security.ValidateToken jwtService t0 token_a = Ok claims) as Hv
    by (vm_compute; reflexivity).
  split; [exact Hv|].
  exact (ValidateToken_sound jwtService t0 token_a claims Hv).
Defined.

(** The token of a@x.com, a second before the end of its 24 hours and at
    their end. *)
Lemma ValidateToken_lifetime_witness :
  let claims := security.newClaims jwtService t0 1 "a@x.com" in
  Unmarshal (Marshal (jwt.newHeader jwt.SigningMethodHS256))
  = Some (jwt.newHeader jwt.SigningMethodHS256) /\
  Unmarshal (Marshal claims) = Some claims /\
  security.GenerateToken jwtService t0 1 "a@x.com" = Ok token_a /\
  security.ValidateToken jwtService (t0 + 24 * time.Hour - time.Second) token_a
  = Ok claims /\
  security.ValidateToken jwtService (t0 + 24 * time.Hour) token_a
  = Err (jwt_newError "" ErrTokenInvalidClaims [jwt_joinErrors [ErrTokenExpired]]).
Proof.
  intros claims.
  assert (Unmarshal (Marshal (jwt.newHeader jwt.SigningMethodHS256))
          = Some (jwt.newHeader jwt.SigningMethodHS256)) as Hh by (vm_compute; reflexivity).
  assert (Unmarshal (Marshal claims) = Some claims) as Hc by (vm_compute; reflexivity).
  assert (security.GenerateToken jwtService t0 1 "a@x.com" = Ok token_a) as Hgen
    by (vm_compute; reflexivity).
  split; [exact Hh|]. split; [exact Hc|]. split; [exact Hgen|].
  rewrite !(fun now' =>
              ValidateToken_lifetime jwtService t0 now' 1 "a@x.com" token_a Hh Hc Hgen).
  split; vm_compute; reflexivity.
Defined.

(** The token of a@x.com at the service of the tests, which has another
    key. *)
Lemma ValidateToken_other_key_witness :
  let claims := security.newClaims jwtService t0 1 "a@x.com" in
  let signed := jwt.SigningString (jwt.NewWithClaims jwt.SigningMethodHS256 claims) in
  Unmarshal (Marshal (jwt.newHeader jwt.SigningMethodHS256))
  = Some (jwt.newHeader jwt.SigningMethodHS256) /\
  Unmarshal (Marshal claims) = Some claims /\
  security.GenerateToken jwtService t0 1 "a@x.com" = Ok token_a /\
  jwt.hmac_Sum jwt.SHA256 (security.secretKey jwtService) signed
  <> jwt.hmac_Sum jwt.SHA256 (security.secretKey testJwtService) signed /\
  security.ValidateToken testJwtService t0 token_a
  = Err (jwt_newError "" ErrTokenSignatureInvalid [ErrSignatureInvalid]).
Proof.
  intros claims signed.
  assert (Unmarshal (Marshal (jwt.newHeader jwt.SigningMethodHS256))
          = Some (jwt.newHeader jwt.SigningMethodHS256)) as Hh by (vm_compute; reflexivity).
  assert (Unmarshal (Marshal claims) = Some claims) as Hc by (vm_compute; reflexivity).
  assert (security.GenerateToken jwtService t0 1 "a@x.com" = Ok token_a) as Hgen
    by (vm_compute; reflexivity).
  assert (jwt.hmac_Sum jwt.SHA256 (security.secretKey jwtService) signed
          <> jwt.hmac_Sum jwt.SHA256 (security.secretKey testJwtService) signed) as Hne
    by (vm_compute; discriminate).
  split; [exact Hh|]. split; [exact Hc|]. split; [exact Hgen|]. split; [exact Hne|].
  exact (ValidateToken_other_key jwtService testJwtService t0 t0 1 "a@x.com" token_a
           Hh Hc Hgen Hne).
Defined.

(** The hash of pw1 under the salt 0123456789abcdef. *)
Lemma Hash_format_witness :
  let hashed := hash_of (entropy world0) "pw1" in
  security.Hash security.NewPasswordService (entropy world0) "pw1" = Ok hashed /\
  String.length hashed = 60%nat /\
  strings.take 7 hashed = "$2a$10$" /\
  strings.take 22 (strings.drop 7 hashed) = bcrypt.base64Encode "0123456789abcdef".
Proof.
  intros hashed.
  assert (security.Hash security.NewPasswordService (entropy world0) "pw1" = Ok hashed)
    as Hhash by (vm_compute; reflexivity).
  split; [exact Hhash|].
  destruct (Hash_format (entropy world0) "pw1" hashed Hhash)
    as (Hlen & Hprefix & unencodedSalt & Hrand & Hsalt).
  split; [exact Hlen|]. split; [exact Hprefix|].
  vm_compute in Hrand. injection Hrand as <-. exact Hsalt.
Defined.

(** The hashes of pw1 under two salts. *)
Lemma Hash_salted_witness :
  let entropy1 := rand.Bytes "0123456789abcdef" in
  let entropy2 := rand.Bytes "fedcba9876543210" in
  rand.ReadFull entropy1 bcrypt.maxSaltSize = Ok "0123456789abcdef" /\
  rand.ReadFull entropy2 bcrypt.maxSaltSize = Ok "fedcba9876543210" /\
  security.Hash security.NewPasswordService entropy1 "pw1" = Ok (hash_of entropy1 "pw1") /\
  security.Hash security.NewPasswordService entropy2 "pw1" = Ok (hash_of entropy2 "pw1") /\
  hash_of entropy1 "pw1" <> hash_of entropy2 "pw1" /\
  security.Verify security.NewPasswordService (hash_of entropy1 "pw1") "pw1" = Ok tt /\
  security.Verify security.NewPasswordService (hash_of entropy2 "pw1") "pw1" = Ok tt.
Proof.
  intros entropy1 entropy2.
  assert (rand.ReadFull entropy1 bcrypt.maxSaltSize = Ok "0123456789abcdef") as Hr1
    by (vm_compute; reflexivity).
  assert (rand.ReadFull entropy2 bcrypt.maxSaltSize = Ok "fedcba9876543210") as Hr2
    by (vm_compute; reflexivity).
  assert ("0123456789abcdef" <> "fedcba9876543210") as Hne by discriminate.
  assert (security.Hash security.NewPasswordService entropy1 "pw1"
          = Ok (hash_of entropy1 "pw1")) as Hh1 by (vm_compute; reflexivity).
  assert (security.Hash security.NewPasswordService entropy2 "pw1"
          = Ok (hash_of entropy2 "pw1")) as Hh2 by (vm_compute; reflexivity).
  split; [exact Hr1|]. split; [exact Hr2|]. split; [exact Hh1|]. split; [exact Hh2|].
  exact (Hash_salted entropy1 entropy2 _ _ "pw1" _ _ Hr1 Hr2 Hne Hh1 Hh2).
Defined.

(** A user stored with an empty hash. *)
Lemma Verify_short_hash_witness :
  (String.length "" < bcrypt.minHashSize)%nat /\
  security.Verify security.NewPasswordService "" "pw1" = Err ErrHashTooShort /\
  security.Verify security.NewPasswordService "" "pw1" <> Err ErrMismatchedHashAndPassword.
Proof.
  assert (String.length "" < bcrypt.minHashSize)%nat as Hlen
    by (unfold bcrypt.minHashSize; simpl; lia).
  split; [exact Hlen|].
  exact (Verify_short_hash security.NewPasswordService "" "pw1" Hlen).
Defined.

(** The hash of pw1 with three more bytes after it. *)
Lemma Verify_ignores_trailing_bytes_witness :
  let hashed := hash_of (entropy world0) "pw1" in
  security.Hash security.NewPasswordService (entropy world0) "pw1" = Ok hashed /\
  security.Verify security.NewPasswordService (hashed ++ "xyz") "pw1" = Ok tt /\
  security.Verify security.NewPasswordService (hashed ++ "xyz") "pw2"
  = Err ErrMismatchedHashAndPassword.
Proof.
  intros hashed.
  assert (security.Hash security.NewPasswordService (entropy world0) "pw1" = Ok hashed)
    as Hhash by (vm_compute; reflexivity).
  split; [exact Hhash|].
  rewrite !(Verify_ignores_trailing_bytes (entropy world0) "pw1" hashed "xyz" _ Hhash).
  split; vm_compute; reflexivity.
Defined.

(** A registration with a password of 73 bytes. *)
Lemma Register_long_password_witness :
  let req := {| usecase.RegisterRequest.Email := "a@x.com";
                usecase.RegisterRequest.Password := password72 ++ "b" |} in
  let r := request "POST" [] (Marshal req) in
  usecase.Register authUseCase req world0
  = (Err ErrPasswordTooLong, called (CallHash (password72 ++ "b")) world0) /\
  http.Code (fst (http.Register handler http.NewRecorder r world0))
  = Some http.StatusInternalServerError.
Proof.
  intros req r.
  assert (usecase.RegisterRequest.Email req <> "") as Hemail by discriminate.
  assert (bcrypt.maxPasswordLength < String.length (usecase.RegisterRequest.Password req))%nat
    as Hlong by (vm_compute; lia).
  assert (http.Method r = http.MethodPost) as Hm by reflexivity.
  assert (Unmarshal (http.Body r) = Some req) as Hb by (vm_compute; reflexivity).
  destruct (Register_long_password handler http.NewRecorder r req world0 Hemail Hlong)
    as [Hreg Hhandler].
  split; [exact Hreg|]. rewrite (Hhandler Hm Hb). reflexivity.
Defined.

(** A login without a password. *)
Lemma Login_empty_field_witness :
  let req := {| usecase.LoginRequest.Email := "a@x.com";
                usecase.LoginRequest.Password := "" |} in
  let r := request "POST" [] (Marshal req) in
  usecase.Login authUseCase req world1 = (Err ErrInvalidCredentials, world1) /\
  http.Login handler http.NewRecorder r world1
  = (http.respondWithError http.NewRecorder http.StatusUnauthorized
       "Invalid email or password", world1).
Proof.
  intros req r.
  assert (Unmarshal (http.Body r) = Some req) as Hb by (vm_compute; reflexivity).
  destruct (Login_empty_field handler http.NewRecorder r req world1 (or_intror eq_refl))
    as [Hlogin Hhandler].
  split; [exact Hlogin|]. exact (Hhandler eq_refl Hb).
Defined.

(** A login while the database is locked. *)
Lemma Login_store_failure_witness :
  let req := {| usecase.LoginRequest.Email := "a@x.com";
                usecase.LoginRequest.Password := "pw1" |} in
  let r := request "POST" [] (Marshal req) in
  fst (usecase.Login authUseCase req sql_locked) = Err (opaque_error "database is locked") /\
  fst (http.Login handler http.NewRecorder r sql_locked)
  = http.respondWithError http.NewRecorder http.StatusInternalServerError
      "Internal server error".
Proof.
  intros req r.
  assert (usecase.LoginRequest.Email req <> "") as Hemail by discriminate.
  assert (usecase.LoginRequest.Password req <> "") as Hpassword by discriminate.
  assert (domain.FindByEmail (repo sql_locked) (usecase.LoginRequest.Email req)
          = (Err (opaque_error "database is locked"), repo sql_locked)) as Hfind
    by (vm_compute; reflexivity).
  assert (opaque_error "database is locked" <> ErrUserNotFound) as Hne by discriminate.
  assert (opaque_error "database is locked" <> ErrInvalidCredentials) as Hne' by discriminate.
  assert (Unmarshal (http.Body r) = Some req) as Hb by (vm_compute; reflexivity).
  destruct (Login_store_failure handler http.NewRecorder r req sql_locked _ _
              Hemail Hpassword Hfind Hne) as [Hlogin Hhandler].
  split.
  - exact (f_equal fst Hlogin).
  - exact (f_equal fst (Hhandler Hne' eq_refl Hb)).
Defined.

(** The token a@x.com got at her registration, validated then. *)
Lemma workflow_token_authenticates_witness :
  let claims := security.newClaims jwtService t0 1 "a@x.com" in
  usecase.Register authUseCase register_a world0 = (Ok response_a, snd registration) /\
  security.ValidateToken jwtService t0 (usecase.Token response_a) = Ok claims.
Proof.
  intros claims.
  assert (usecase.Register authUseCase register_a world0 = (Ok response_a, snd registration))
    as Hreg by (vm_compute; reflexivity).
  split; [exact Hreg|].
  assert (Unmarshal (Marshal (jwt.newHeader jwt.SigningMethodHS256))
          = Some (jwt.newHeader jwt.SigningMethodHS256)) as Hh by (vm_compute; reflexivity).
  assert (Unmarshal
            (Marshal
               (security.newClaims (usecase.jwtService authUseCase) (now world0)
                  (domain.ID (usecase.User response_a))
                  (domain.Email (usecase.User response_a))))
          = Some
              (security.newClaims (usecase.jwtService authUseCase) (now world0)
                 (domain.ID (usecase.User response_a))
                 (domain.Email (usecase.User response_a)))) as Hc
    by (vm_compute; reflexivity).
  assert (t0 < jwt.NewNumericDate
                 (time.Add (now world0) (security.duration (usecase.jwtService authUseCase))))
    as Ht by (vm_compute; reflexivity).
  destruct (workflow_token_authenticates authUseCase world0 response_a t0
              (or_introl (ex_intro _ register_a (ex_intro _ (snd registration) Hreg)))
              Hh Hc Ht) as (Hv & _ & _).
  exact Hv.
Defined.


(** The first user of a new mock repository. *)
Lemma Mock_Create_then_find_witness :
  nextID NewMockUserRepository < MaxInt64 /\
  exists user m',
    Create NewMockUserRepository t0 "a@x.com" "hash" = (Ok user, m') /\
    domain.ID user = 1 /\ nextID m' = 2 /\
    FindByEmail m' "a@x.com" = (Ok user, m') /\
    FindByID m' 1 = (Ok user, m').
Proof.
  assert (nextID NewMockUserRepository < MaxInt64) as Hmax by (vm_compute; reflexivity).
  split; [exact Hmax|].
  destruct (Mock_Create_then_find NewMockUserRepository t0 "a@x.com" "hash"
              mock_consistent_New eq_refl eq_refl)
    as (user & m' & Hcreate & Hid & _ & _ & Hemail & _ & Hbelow & _).
  destruct (Hbelow Hmax) as (Hnext & _ & Hbyid).
  exists user, m'. split; [exact Hcreate|]. split; [exact Hid|]. split; [exact Hnext|].
  split; [exact Hemail|].
  specialize (Hbyid eq_refl). rewrite Hid in Hbyid. exact Hbyid.
Defined.

(** The mock repository with one user: the id 1 is found, the id 999 is
    not. *)
Lemma Mock_FindByID_exact_witness :
  let m := snd (Create NewMockUserRepository t0 "a@x.com" "hash") in
  let user := {| domain.ID := 1; domain.Email := "a@x.com"; domain.PasswordHash := "hash";
                 domain.CreatedAt := time.zero; domain.UpdatedAt := time.zero |} in
  FindByID m 1 = (Ok user, m) /\ FindByID m 999 = (Err ErrUserNotFound, m).
Proof.
  intros m user.
  assert (mock_consistent m) as Hm
    by (apply Mock_Create_consistent; [exact mock_consistent_New|vm_compute; reflexivity]).
  destruct (Mock_FindByID_exact m 1 Hm eq_refl) as [Hfound _].
  destruct (Mock_FindByID_exact m 999 Hm eq_refl) as [_ Hnone].
  split.
  - apply Hfound. split; vm_compute; reflexivity.
  - apply Hnone. intros email' user' Hstored.
    destruct Hm as (_ & Hall & _). destruct (Hall _ _ Hstored) as [_ Hbound].
    change (nextID m) with 2 in Hbound. lia.
Defined.

(** a@x.com registers and then logs in, an hour later and with other
    entropy at hand. *)
Lemma Register_then_Login_witness :
  let w2 := {| now := t0 + time.Hour; entropy := rand.Bytes "fedcba9876543210";
               repo := repo (snd registration); calls := [] |} in
  usecase.Register authUseCase register_a world0 = (Ok response_a, snd registration) /\
  exists token w3,
    usecase.Login authUseCase
      {| usecase.LoginRequest.Email := "a@x.com"; usecase.LoginRequest.Password := "pw1" |}
      w2 = (Ok {| usecase.Token := token; usecase.User := usecase.User response_a |}, w3).
Proof.
  intros w2.
  assert (usecase.Register authUseCase register_a world0 = (Ok response_a, snd registration))
    as Hreg by (vm_compute; reflexivity).
  split; [exact Hreg|].
  destruct (Register_then_Login authUseCase "a@x.com" "pw1" world0 (snd registration) w2
              response_a eq_refl Hreg eq_refl) as (token & w3 & Hlogin & _).
  exists token, w3. exact Hlogin.
Defined.

(** a@x.com registers twice, the second time with another password. *)
Lemma Register_twice_witness :
  let req2 := {| usecase.RegisterRequest.Email := "a@x.com";
                 usecase.RegisterRequest.Password := "pw2" |} in
  let r := request "POST" [] (Marshal req2) in
  usecase.Register authUseCase register_a world0 = (Ok response_a, snd registration) /\
  fst (usecase.Register authUseCase req2 world1) = Err ErrUserAlreadyExists /\
  http.Code (fst (http.Register handler http.NewRecorder r world1))
  = Some http.StatusConflict.
Proof.
  intros req2 r.
  assert (usecase.Register authUseCase register_a world0 = (Ok response_a, snd registration))
    as Hreg by (vm_compute; reflexivity).
  assert (security.Hash (usecase.passwordService (http.authUseCase handler))
            (entropy world1) (usecase.RegisterRequest.Password req2)
          = Ok (hash_of (entropy world1) "pw2")) as Hhash by (vm_compute; reflexivity).
  assert (usecase.RegisterRequest.Password req2 <> "") as Hpassword by discriminate.
  assert (Unmarshal (http.Body r) = Some req2) as Hb by (vm_compute; reflexivity).
  split; [exact Hreg|].
  destruct (Register_twice handler http.NewRecorder r register_a req2 world0
              (snd registration) world1 response_a _ Hreg eq_refl eq_refl Hpassword Hhash)
    as (w3 & Hreg2 & _ & Hhandler).
  split.
  - exact (f_equal fst Hreg2).
  - rewrite (Hhandler eq_refl Hb). reflexivity.
Defined.

(** GET /api/auth/me with the token of a@x.com, after her registration. *)
Lemma Me_behind_gate_witness :
  let r := request "GET" ["Bearer " ++ token_a] "" in
  let response := http.AuthMiddleware jwtService (http.Me handler) http.NewRecorder r world1 in
  http.Written (fst response)
  = [JObject [("id", JNumber 1); ("email", JString "a@x.com");
              ("created_at", JString "0001-01-01T00:00:00Z")]] /\
  calls (snd response) = [CallFindByID 1; CallValidateToken token_a].
Proof.
  intros r response.
  assert (strings.Split (http.Header_Get (http.ReqHeader r) "Authorization") " "%char
          = ["Bearer"; token_a]) as Hsplit by (vm_compute; reflexivity).
  assert (security.ValidateToken jwtService (now world1) token_a
          = Ok (security.newClaims jwtService t0 1 "a@x.com")) as Hvalid
    by (vm_compute; reflexivity).
  destruct (Me_behind_gate handler jwtService http.NewRecorder r world1 token_a _
              eq_refl Hsplit Hvalid) as [Hresponse Hcalls].
  fold response in Hresponse, Hcalls. split.
  - rewrite Hresponse. vm_compute. reflexivity.
  - exact Hcalls.
Defined.

(** GET /api/auth/me with a token, with a string that is no token, and
    without a header. *)
Lemma Me_Unauthorized_unreachable_witness :
  let unauthorized :=
    http.respondWithError http.NewRecorder http.StatusUnauthorized "Unauthorized" in
  let me authorization :=
    fst (http.AuthMiddleware jwtService (http.Me handler) http.NewRecorder
           (request "GET" authorization "") world1) in
  me ["Bearer " ++ token_a] <> unauthorized /\
  me ["Bearer garbage"] <> unauthorized /\
  me [] <> unauthorized.
Proof.
  intros unauthorized me. unfold me, unauthorized.
  split; [|split]; apply Me_Unauthorized_unreachable.
Defined.

(** OPTIONS on the protected route, without a token. *)
Lemma OPTIONS_answered_by_CORS_witness :
  let r := request "OPTIONS" [] "" in
  http.SetupRoutes router "/api/auth/me" = Some (route "/api/auth/me") /\
  exists response,
    route "/api/auth/me" http.NewRecorder r world1 = (response, world1) /\
    http.Code response = Some http.StatusOK /\
    http.Written response = [] /\
    cors_headers response.
Proof.
  intros r.
  assert (http.SetupRoutes router "/api/auth/me" = Some (route "/api/auth/me")) as Hroute
    by reflexivity.
  split; [exact Hroute|].
  exact (OPTIONS_answered_by_CORS router "/api/auth/me" (route "/api/auth/me")
           http.NewRecorder r world1 Hroute eq_refl eq_refl).
Defined.

(** The response to a login with a wrong password. *)
Lemma CORS_headers_on_every_response_witness :
  let r := request "POST" []
             (Marshal {| usecase.LoginRequest.Email := "a@x.com";
                         usecase.LoginRequest.Password := "nope" |}) in
  http.SetupRoutes router "/api/auth/login" = Some (route "/api/auth/login") /\
  cors_headers (fst (route "/api/auth/login" http.NewRecorder r world1)).
Proof.
  intros r.
  assert (http.SetupRoutes router "/api/auth/login" = Some (route "/api/auth/login"))
    as Hroute by reflexivity.
  split; [exact Hroute|].
  exact (CORS_headers_on_every_response router "/api/auth/login" (route "/api/auth/login")
           http.NewRecorder r world1 Hroute).
Defined.


(** The token of a@x.com at the gate, an hour after it was issued. *)
Lemma issued_token_passes_gate_witness :
  let r := request "GET" ["Bearer " ++ token_a] "" in
  let world := {| now := t0 + time.Hour; entropy := entropy world1; repo := repo world1;
                  calls := [] |} in
  http.Code (fst (http.AuthMiddleware jwtService (http.Me handler) http.NewRecorder r world))
  = Some http.StatusOK.
Proof.
  intros r world.
  assert (Unmarshal (Marshal (jwt.newHeader jwt.SigningMethodHS256))
          = Some (jwt.newHeader jwt.SigningMethodHS256)) as Hh by (vm_compute; reflexivity).
  assert (Unmarshal (Marshal (security.newClaims jwtService t0 1 "a@x.com"))
          = Some (security.newClaims jwtService t0 1 "a@x.com")) as Hc
    by (vm_compute; reflexivity).
  assert (security.GenerateToken jwtService t0 1 "a@x.com" = Ok token_a) as Hgen
    by (vm_compute; reflexivity).
  assert (http.Header_Get (http.ReqHeader r) "Authorization" = "Bearer " ++ token_a)
    as Hheader by (vm_compute; reflexivity).
  assert (now world
          < jwt.NewNumericDate (time.Add t0 (security.duration jwtService))) as Ht
    by (vm_compute; reflexivity).
  rewrite (issued_token_passes_gate jwtService (http.Me handler) http.NewRecorder r world
             t0 1 "a@x.com" token_a Hh Hc Hgen Hheader Ht).
  vm_compute. reflexivity.
Defined.

(** a@x.com registers twice over the database. *)
Lemma SQLite_unique_constraint_witness :
  let req2 := {| usecase.RegisterRequest.Email := "a@x.com";
                 usecase.RegisterRequest.Password := "pw2" |} in
  let r := request "POST" [] (Marshal req2) in
  fst (usecase.Register authUseCase req2 sql_world1) = Err ErrUserAlreadyExists /\
  http.Code (fst (http.Register handler http.NewRecorder r sql_world1))
  = Some http.StatusConflict.
Proof.
  intros req2 r.
  assert (usecase.RegisterRequest.Email req2 <> "") as Hemail by discriminate.
  assert (usecase.RegisterRequest.Password req2 <> "") as Hpassword by discriminate.
  assert (security.Hash (usecase.passwordService (http.authUseCase handler))
            (entropy sql_world1) (usecase.RegisterRequest.Password req2)
          = Ok (hash_of (entropy sql_world1) "pw2")) as Hhash by (vm_compute; reflexivity).
  assert (repository.ExecInsert (repository.db (repo sql_world1))
            (usecase.RegisterRequest.Email req2) (hash_of (entropy sql_world1) "pw2")
            (now sql_world1) (now sql_world1)
          = (Err (opaque_error "UNIQUE constraint failed: users.email"),
             repository.db (repo sql_world1))) as Hexec by (vm_compute; reflexivity).
  assert (Unmarshal (http.Body r) = Some req2) as Hb by (vm_compute; reflexivity).
  destruct (SQLite_unique_constraint handler http.NewRecorder r req2 sql_world1 _ _ _
              Hemail Hpassword Hhash Hexec) as [Hreg Hhandler].
  split.
  - exact (f_equal fst Hreg).
  - rewrite (Hhandler eq_refl eq_refl Hb). reflexivity.
Defined.

(** *** The parser and the entropy source at their edges *)

(** A token string that still has its "Bearer " in front. *)
Example ValidateToken_with_bearer_prefix :
  security.ValidateToken jwtService t0 ("Bearer " ++ token_a)
  = Err (jwt_newError "tokenstring should not contain 'bearer '" ErrTokenMalformed []).
Proof. vm_compute. reflexivity. Qed.

(** A token for the method "none" whose third segment is not base64url:
    the signature is decoded before the key function is asked. *)
Example ValidateToken_none_with_undecodable_signature :
  security.ValidateToken jwtService t0 (token_none ++ "!")
  = Err (jwt_newError "could not base64 decode signature" ErrTokenMalformed
           [base64_CorruptInputError]).
Proof. vm_compute. reflexivity. Qed.

(** An entropy source that has nothing, and one that has too little. *)
Example Hash_without_entropy :
  security.Hash security.NewPasswordService (rand.Bytes "") "pw1" = Err io_EOF /\
  security.Hash security.NewPasswordService (rand.Bytes "0123") "pw1"
  = Err io_ErrUnexpectedEOF.
Proof. split; vm_compute; reflexivity. Qed.

(** The counter of ids of the mock repository at the largest [int64]. *)
Example Mock_Create_wraps :
  nextID (snd (Create {| users := ∅; nextID := MaxInt64; createError := None;
                         findByIDError := None |} t0 "a@x.com" "hash"))
  = - 2 ^ 63.
Proof. vm_compute. reflexivity. Qed.
End MoreExamples.
